(** * Booking frontend: slot status, booking horizon, availability
      reduction, authenticated requests and cache invalidation.

    A shallow embedding of the TypeScript sources
    - [components/time-slot-grid.tsx]  ([getSlotStatus]),
    - [components/date-navigator.tsx] and the dashboard page
      ([isBookableDate], the [prevBookingsCountRef] effect),
    - [lib/hooks.ts] ([useAvailability], [invalidateBookings],
      [invalidateResources]),
    - [lib/api.ts] (token store, [handleResponse], [refreshAccessToken],
      [authFetch]),
    - the booking dialog ([handleConfirm]).

    JavaScript numbers that the code only ever uses as integers are [Z];
    a number that may be [NaN] is an [option Z] with [None] for [NaN].
    The availability response is modelled twice: as the records of its
    declared type, and as the JSON value that actually arrives, on which
    the reduction may throw.
    Everything the runtime supplies (the clock, the time zone, the
    string-to-date parser, [JSON.parse], the network) is a parameter. *)

From Stdlib Require Import ZArith QArith Lia Ascii String.
From stdpp Require Import base option list strings pretty gmap.

Local Open Scope Z_scope.

(* ===================================================================== *)
(** * ECMAScript date arithmetic *)
(* ===================================================================== *)

Module JsDate.

Definition msPerSecond : Z := 1000.
Definition msPerMinute : Z := 60000.
Definition msPerHour : Z := 3600000.
Definition msPerDay : Z := 86400000.

  (** A time value: milliseconds since the epoch, [None] for [NaN]. *)
Definition TimeValue := option Z.

Definition DaysInYear (y : Z) : Z :=
    if negb (y mod 4 =? 0) then 365
    else if negb (y mod 100 =? 0) then 366
    else if negb (y mod 400 =? 0) then 365
    else 366.

Definition DayFromYear (y : Z) : Z :=
    365 * (y - 1970) + (y - 1969) / 4 - (y - 1901) / 100 + (y - 1601) / 400.

Definition InLeapYear (y : Z) : Z :=
    if DaysInYear y =? 366 then 1 else 0.

  (** Day within the year on which month [mn] (0-based) starts. *)
Definition MonthStart (mn leap : Z) : Z :=
    if mn =? 0 then 0
    else if mn =? 1 then 31
    else if mn =? 2 then 59 + leap
    else if mn =? 3 then 90 + leap
    else if mn =? 4 then 120 + leap
    else if mn =? 5 then 151 + leap
    else if mn =? 6 then 181 + leap
    else if mn =? 7 then 212 + leap
    else if mn =? 8 then 243 + leap
    else if mn =? 9 then 273 + leap
    else if mn =? 10 then 304 + leap
    else 334 + leap.

Definition DaysInMonth (y mn : Z) : Z :=
    if mn =? 1 then 28 + InLeapYear y
    else if (mn =? 3) || (mn =? 5) || (mn =? 8) || (mn =? 10) then 30
    else 31.

  (** [MakeDay]: month is 0-based and may overflow into the year, the
      day of the month may overflow into the following months. *)
Definition MakeDay (year month date : Z) : Z :=
    let ym := year + month / 12 in
    let mn := month mod 12 in
    DayFromYear ym + MonthStart mn (InLeapYear ym) + date - 1.

Definition MakeTime (hour min sec ms : Z) : Z :=
    hour * msPerHour + min * msPerMinute + sec * msPerSecond + ms.

Definition MakeDate (day time : Z) : Z := day * msPerDay + time.

  (** Two-digit years are taken in the twentieth century. *)
Definition MakeFullYear (y : Z) : Z :=
    if (0 <=? y) && (y <=? 99) then 1900 + y else y.

Definition TimeClip (t : Z) : TimeValue :=
    if 8640000000000000 <? Z.abs t then None else Some t.

  (** [Date.UTC(y, m, d, h, mi, s)]. *)
Definition Date_UTC (y m d h mi s : Z) : TimeValue :=
    TimeClip (MakeDate (MakeDay (MakeFullYear y) m d) (MakeTime h mi s 0)).

  (** [new Date(y, m, d).getTime()]: local midnight of the calendar day.
      [LocalTZA t] is the offset of local time from UTC, in milliseconds,
      in force at local time [t]; the host's time zone supplies it. *)
Definition Date_local (LocalTZA : Z -> Z) (y m d : Z) : TimeValue :=
    let t := MakeDate (MakeDay (MakeFullYear y) m d) (MakeTime 0 0 0 0) in
    TimeClip (t - LocalTZA t).

  (** [HourFromTime], what [getUTCHours] returns. *)
Definition HourFromTime (t : Z) : Z := (t / msPerHour) mod 24.

  (** Relational operators on numbers: any comparison with [NaN] is
      false. *)
Definition num_lt (a b : TimeValue) : bool :=
    match a, b with
    | Some x, Some y => x <? y
    | _, _ => false
    end.

Definition num_le (a b : TimeValue) : bool :=
    match a, b with
    | Some x, Some y => x <=? y
    | _, _ => false
    end.

  (** The local calendar view of a [Date] object: what [getFullYear],
      [getMonth] (0-based), [getDate], [getHours], ... return. *)
Record Date := mkDate {
    getFullYear : Z;
    getMonth : Z;
    getDate : Z;
    getHours : Z;
    getMinutes : Z;
    getSeconds : Z;
    getMilliseconds : Z
  }.

  (** ** A reader for the [YYYY-MM-DDTHH:mm:ssZ] layout

      [new Date(string)] is a parameter of the functions below; this
      reader covers the one layout that [toUtcIso] writes and serves to
      run them on concrete bookings. It reads hours 00 to 23 and days up
      to the length of the month; what an engine makes of hour 24 or of
      a day past the end of the month is not modelled. *)

Definition digit_val (c : ascii) : option Z :=
    let n := Z.of_N (Ascii.N_of_ascii c) in
    if (48 <=? n) && (n <=? 57) then Some (n - 48) else None.

Fixpoint digits_val (acc : Z) (cs : list ascii) : option Z :=
    match cs with
    | [] => Some acc
    | c :: cs' =>
        match digit_val c with
        | Some v => digits_val (10 * acc + v) cs'
        | None => None
        end
    end.

Definition number_of (cs : list ascii) : option Z := digits_val 0 cs.

Definition Date_parse_iso (s : string) : TimeValue :=
    match list_ascii_of_string s with
    | [y1; y2; y3; y4; d1; m1; m2; d2; a1; a2; t; h1; h2; c1; i1; i2; c2; s1; s2; z] =>
        if (Ascii.eqb d1 "-") && (Ascii.eqb d2 "-") && (Ascii.eqb t "T")
           && (Ascii.eqb c1 ":") && (Ascii.eqb c2 ":") && (Ascii.eqb z "Z")
        then
          match number_of [y1; y2; y3; y4], number_of [m1; m2],
                number_of [a1; a2], number_of [h1; h2],
                number_of [i1; i2], number_of [s1; s2] with
          | Some y, Some mo, Some da, Some h, Some mi, Some se =>
              if (1 <=? mo) && (mo <=? 12) && (1 <=? da)
                 && (da <=? DaysInMonth y (mo - 1))
                 && (h <=? 23) && (mi <=? 59) && (se <=? 59)
              then TimeClip (MakeDate (MakeDay y (mo - 1) da) (MakeTime h mi se 0))
              else None
          | _, _, _, _, _, _ => None
          end
        else None
    | _ => None
    end.

End JsDate.

(* ===================================================================== *)
(** * components/time-slot-grid.tsx *)
(* ===================================================================== *)

Module SlotGrid.
Import JsDate.

Inductive SlotStatus := available | yours | unavailable | past | disabled.

Record SlotInfo := mkSlotInfo {
    status : SlotStatus;
    bookingId : option string
  }.

  (** The fields of [Booking] that the grid reads. *)
Record Booking := mkBooking {
    id : string;
    userId : string;
    resourceId : string;
    startUtc : string;
    endUtc : string;
    bstatus : string
  }.

  (** [`${resourceId}_${hour}`] *)
Definition slotKey (rid : string) (hour : Z) : string :=
    rid +:+ "_" +:+ pretty hour.

Definition slotStart (selectedDate : Date) (hour : Z) : TimeValue :=
    Date_UTC (getFullYear selectedDate) (getMonth selectedDate)
             (getDate selectedDate) hour 0 0.

Definition slotEnd (selectedDate : Date) (hour : Z) : TimeValue :=
    Date_UTC (getFullYear selectedDate) (getMonth selectedDate)
             (getDate selectedDate) (hour + 1) 0 0.

  (** The lookup set of the grid: [`${rid}_${hourKey}`] for every
    resource id under every hour key of the availability map. *)
Definition availableSetOf (availabilityMap : gmap string (gset string))
    : gset string :=
  map_fold (fun hourKey resourceIds acc =>
              set_fold (fun rid acc' => {[rid +:+ "_" +:+ hourKey]} ∪ acc')
                       acc resourceIds)
           ∅ availabilityMap.

(** [slotStart < bEnd && slotEnd > bStart] *)
Definition overlaps (sStart sEnd bStart bEnd : TimeValue) : bool :=
    num_lt sStart bEnd && num_lt bStart sEnd.

Section WithRuntime.
    (** [new Date(s).getTime()] for a string [s]. *)
Variable Date_parse : string -> TimeValue.

Definition ownsSlot (rid : string) (sStart sEnd : TimeValue)
        (booking : Booking) : bool :=
      bool_decide (resourceId booking = rid)
      && bool_decide (bstatus booking = "Active")
      && overlaps sStart sEnd (Date_parse (startUtc booking))
                  (Date_parse (endUtc booking)).

    (** The [for ... of userBookings] loop: the first booking that owns
        the slot ends it. *)
Fixpoint findOwn (rid : string) (sStart sEnd : TimeValue)
        (userBookings : list Booking) : option Booking :=
      match userBookings with
      | [] => None
      | booking :: rest =>
          if ownsSlot rid sStart sEnd booking then Some booking
          else findOwn rid sStart sEnd rest
      end.

    (** [now] is the time value of [new Date()]. *)
Definition getSlotStatus (now : Z) (rid : string) (hour : Z)
        (selectedDate : Date) (userBookings : list Booking)
        (availableSet : gset string) (isBookable : bool) : SlotInfo :=
      let sStart := slotStart selectedDate hour in
      let sEnd := slotEnd selectedDate hour in
      if num_le sEnd (Some now) then mkSlotInfo past None
      else if negb isBookable then mkSlotInfo disabled None
      else
        match findOwn rid sStart sEnd userBookings with
        | Some booking => mkSlotInfo yours (Some (id booking))
        | None =>
            if bool_decide (slotKey rid hour ∈ availableSet)
            then mkSlotInfo available None
            else mkSlotInfo unavailable None
        end.

End WithRuntime.

End SlotGrid.

(* ===================================================================== *)
(** * components/date-navigator.tsx and the dashboard page: the booking
      horizon *)
(* ===================================================================== *)

Module DateNav.
Import JsDate.

Section WithZone.
    (** Offset of local time from UTC in force at a local time. *)
Variable LocalTZA : Z -> Z.

    (** [new Date(x.getFullYear(), x.getMonth(), x.getDate()).getTime()] *)
Definition midnightOf (x : Date) : TimeValue :=
      Date_local LocalTZA (getFullYear x) (getMonth x) (getDate x).

    (** [(target.getTime() - today.getTime()) / (1000 * 60 * 60 * 24)].
        The quotient is kept exact; the double the code computes compares
        with 0 and with 3 the same way, both bounds being exact quotients
        of integers far below 2^53. *)
Definition diffDays (now date : Date) : option Q :=
      match midnightOf date, midnightOf now with
      | Some target, Some today =>
          Some (Qmake (target - today) (Z.to_pos (1000 * 60 * 60 * 24)))
      | _, _ => None
      end.

    (** [diff >= 0 && diff <= 3]; [now] is [new Date()]. *)
Definition isBookableDate (now date : Date) : bool :=
      match diffDays now date with
      | Some diff => Qle_bool 0 diff && Qle_bool diff 3
      | None => false
      end.

End WithZone.

  (** Number of the calendar day, counted from 1970-01-01, of the local
      date a [Date] shows. *)
Definition dayNumber (x : Date) : Z :=
    MakeDay (getFullYear x) (getMonth x) (getDate x).

  (** A zone whose offset never changes. *)
Definition fixedZone (offset : Z) : Z -> Z := fun _ => offset.

  (** US Eastern time during 2026: daylight time (UTC-4) from 8 March
      02:00 to 1 November 02:00 local time, standard time (UTC-5)
      otherwise. *)
Definition newYork2026 (t : Z) : Z :=
    let dstStart := MakeDate (MakeDay 2026 2 8) (MakeTime 2 0 0 0) in
    let dstEnd := MakeDate (MakeDay 2026 10 1) (MakeTime 2 0 0 0) in
    if (dstStart <=? t) && (t <? dstEnd)
    then (-4) * msPerHour else (-5) * msPerHour.

  (** A [Date] showing the given local calendar day and time of day. *)
Definition localDate (y m d h mi : Z) : Date := mkDate y m d h mi 0 0.

End DateNav.

(* ===================================================================== *)
(** * lib/hooks.ts: the availability reduction of [useAvailability] *)
(* ===================================================================== *)

(** Completion of a piece of JavaScript that may throw. *)
Inductive JsError := TypeError.

Inductive JsResult (A : Type) :=
  | Ok (a : A)
  | Throw (e : JsError).
Arguments Ok {A} a.
Arguments Throw {A} e.

Definition bindR {A B} (r : JsResult A) (k : A -> JsResult B) : JsResult B :=
  match r with
  | Ok a => k a
  | Throw e => Throw e
  end.

Notation "x <-! r ;; k" := (bindR r (fun x => k))
  (at level 100, r at next level, right associativity).

(** A [for ... of] loop whose body may throw: the first throw ends it. *)
Fixpoint forOf {A S} (body : S -> A -> JsResult S) (s : S) (xs : list A)
    : JsResult S :=
  match xs with
  | [] => Ok s
  | x :: rest => s' <-! body s x ;; forOf body s' rest
  end.

Module Availability.
Import JsDate.

  (** The slot, resource and response objects as they arrive: a property
      the sender left out reads as [undefined], here [None]. *)
Record TimeSlotAvailability := mkSlot {
    startTime : option string;
    endTime : option string;
    status : string
  }.

Record ResourceAvailability := mkRes {
    id : string;
    timeSlots : option (list TimeSlotAvailability)
  }.

Record AvailabilityResponse := mkResp {
    resources : option (list ResourceAvailability)
  }.

  (** [x || []] *)
Definition orEmpty {A} (x : option (list A)) : list A :=
    match x with
    | Some l => l
    | None => []
    end.

Definition isDigit (c : ascii) : bool :=
    match digit_val c with
    | Some _ => true
    | None => false
    end.

  (** [t.match(/(\d{2}):\d{2}/)]: the leftmost place where two digits,
      a colon and two digits follow each other; the result is the
      captured pair of digits. *)
Fixpoint matchHHMM (cs : list ascii) : option (ascii * ascii) :=
    match cs with
    | [] => None
    | a :: rest =>
        match rest with
        | b :: c :: d :: e :: _ =>
            if isDigit a && isDigit b && Ascii.eqb c ":"
               && isDigit d && isDigit e
            then Some (a, b)
            else matchHHMM rest
        | _ => None
        end
    end.

  (** The hour-to-resources map, keyed by [String(h)]. *)
Abbreviation HourMap := (gmap string (gset string)).

  (** [for (let h = startHour; h < endHour; h++) { ... }] *)
Definition addHour (rid : string) (map : HourMap) (h : Z) : HourMap :=
    let set := default ∅ (map !! pretty h) in
    <[pretty h := {[rid]} ∪ set]> map.

Definition addHours (rid : string) (startHour endHour : Z) (map : HourMap)
      : HourMap :=
    foldl (addHour rid) map (seqZ startHour (endHour - startHour)).

Section WithRuntime.
    (** [new Date(s).getTime()] for a string [s]. *)
Variable Date_parse : string -> TimeValue.

    (** [parseHour] on a string; [None] is [NaN]. *)
Definition parseHour (t : string) : option Z :=
      match matchHHMM (list_ascii_of_string t) with
      | Some (a, b) => number_of [a; b]
      | None =>
          match Date_parse t with
          | Some tv => Some (HourFromTime tv)
          | None => None
          end
      end.

    (** [parseHour(ts.startTime)]: calling [match] on [undefined]
        throws. *)
Definition parseHourOf (t : option string) : JsResult (option Z) :=
      match t with
      | Some s => Ok (parseHour s)
      | None => Throw TypeError
      end.

    (** Body of the inner loop, for one time slot of resource [rid]. *)
Definition reduceSlot (rid : string) (map : HourMap)
        (ts : TimeSlotAvailability) : JsResult HourMap :=
      if negb (bool_decide (status ts = "available")) then Ok map
      else
        startHour <-! parseHourOf (startTime ts) ;;
        endHour <-! parseHourOf (endTime ts) ;;
        match startHour, endHour with
        | Some s, Some e => Ok (addHours rid s e map)
        | _, _ => Ok map
        end.

    (** Body of the outer loop. *)
Definition reduceResource (map : HourMap) (res : ResourceAvailability)
        : JsResult HourMap :=
      forOf (reduceSlot (id res)) map (orEmpty (timeSlots res)).

    (** The fetcher of [useAvailability], from [apiResult] on. *)
Definition availabilityMap (apiResult : AvailabilityResponse)
        : JsResult HourMap :=
      forOf reduceResource ∅ (orEmpty (resources apiResult)).

End WithRuntime.

(** Resource [R] is in the set stored for hour [h]. *)
Definition listed (map : HourMap) (h : Z) (R : string) : Prop :=
  exists set, map !! pretty h = Some set /\ R ∈ set.

(** Slot [ts] is reported available and its extracted hours enclose
    [h]. *)
Definition covers (Date_parse : string -> TimeValue)
    (ts : TimeSlotAvailability) (h : Z) : Prop :=
  status ts = "available"
  /\ exists s e sh eh,
       startTime ts = Some s /\ endTime ts = Some e
       /\ parseHour Date_parse s = Some sh
       /\ parseHour Date_parse e = Some eh
       /\ sh <= h < eh.

(** Every slot reported available carries both boundaries. *)
Definition boundariesPresent (apiResult : AvailabilityResponse) : Prop :=
  forall res ts,
    res ∈ orEmpty (resources apiResult) ->
    ts ∈ orEmpty (timeSlots res) ->
    status ts = "available" ->
    is_Some (startTime ts) /\ is_Some (endTime ts).

End Availability.

(* ===================================================================== *)
(** * lib/api.ts: token store, [handleResponse], [refreshAccessToken],
      [authFetch] *)
(* ===================================================================== *)

Module Api.

Record ApiError := mkApiError {
  title : string;
  errStatus : Z;
  detail : string
}.

(** A received response, its body read to the end. *)
Record Response := mkResponse {
  status : Z;
  statusText : string;
  body : string
}.

(** [response.ok] *)
Definition ok (r : Response) : bool :=
  (200 <=? status r) && (status r <=? 299).

(** A request body: text, or the [{ refreshToken }] object the renewal
    call serialises. *)
Inductive Body :=
  | TextBody (s : string)
  | RefreshBody (refreshToken : string).

(** [RequestInit]; no [headers] property is the empty map. *)
Record RequestInit := mkInit {
  method : option string;
  headers : gmap string string;
  reqBody : option Body
}.

(** Which [fetch] of the module issued a call. *)
Inductive CallSite := Original | Renewal.

#[global] Instance CallSite_eq_dec : EqDecision CallSite.
Proof. solve_decision. Defined.

Record Call := mkCall {
  site : CallSite;
  url : string;
  init : RequestInit
}.

(** [fetch] either yields a response or rejects. *)
Inductive FetchResult :=
  | Responded (r : Response)
  | NetworkError.

(** The module variables, the browser objects the module touches and
    the calls made so far. [window] tells whether
    [typeof window !== "undefined"]; [localStorage] and [location_href]
    mean something only when it is. *)
Record Session := mkSession {
  accessToken : option string;
  refreshToken : option string;
  window : bool;
  localStorage : gmap string string;
  location_href : string;
  NEXT_PUBLIC_API_URL : option string;
  calls : list Call
}.

Definition withAccess (v : option string) (st : Session) : Session :=
  mkSession v (refreshToken st) (window st) (localStorage st)
            (location_href st) (NEXT_PUBLIC_API_URL st) (calls st).

Definition withRefresh (v : option string) (st : Session) : Session :=
  mkSession (accessToken st) v (window st) (localStorage st)
            (location_href st) (NEXT_PUBLIC_API_URL st) (calls st).

Definition withStorage (v : gmap string string) (st : Session) : Session :=
  mkSession (accessToken st) (refreshToken st) (window st) v
            (location_href st) (NEXT_PUBLIC_API_URL st) (calls st).

Definition withHref (v : string) (st : Session) : Session :=
  mkSession (accessToken st) (refreshToken st) (window st) (localStorage st)
            v (NEXT_PUBLIC_API_URL st) (calls st).

Definition withCalls (v : list Call) (st : Session) : Session :=
  mkSession (accessToken st) (refreshToken st) (window st) (localStorage st)
            (location_href st) (NEXT_PUBLIC_API_URL st) v.

(** Truthiness of a [string | null]. *)
Definition truthy (v : option string) : bool :=
  match v with
  | Some s => negb (bool_decide (s = ""))
  | None => false
  end.

(** [`${v}`] for a [string | null]. *)
Definition show (v : option string) : string :=
  match v with
  | Some s => s
  | None => "null"
  end.

Definition endsWith (s suffix : string) : bool :=
  String.prefix (String.rev suffix) (String.rev s).

Definition getBaseUrl (st : Session) : string :=
  if window st then "/api"
  else
    let raw := if truthy (NEXT_PUBLIC_API_URL st)
               then show (NEXT_PUBLIC_API_URL st)
               else "https://localhost:7110" in
    if endsWith raw "/api" then raw else raw +:+ "/api".

Definition setTokens (access refresh : string) (st : Session) : Session :=
  let st1 := withRefresh (Some refresh) (withAccess (Some access) st) in
  if window st1
  then withStorage (<["refreshToken" := refresh]>
                      (<["accessToken" := access]> (localStorage st1))) st1
  else st1.

Definition getAccessToken (st : Session) : option string * Session :=
  if truthy (accessToken st) then (accessToken st, st)
  else if window st
  then let v := localStorage st !! "accessToken" in (v, withAccess v st)
  else (accessToken st, st).

Definition getRefreshToken (st : Session) : option string * Session :=
  if truthy (refreshToken st) then (refreshToken st, st)
  else if window st
  then let v := localStorage st !! "refreshToken" in (v, withRefresh v st)
  else (refreshToken st, st).

Definition clearTokens (st : Session) : Session :=
  let st1 := withRefresh None (withAccess None st) in
  if window st1
  then withStorage (delete "user" (delete "refreshToken"
                      (delete "accessToken" (localStorage st1)))) st1
  else st1.

(** What a rejected call carries: a parsed error payload, an error
    object the module builds itself, or the rejection of [fetch]. *)
Inductive Thrown (Json : Type) :=
  | ThrownJson (j : Json)
  | ThrownApiError (e : ApiError)
  | ThrownNetwork.
Arguments ThrownJson {Json} j.
Arguments ThrownApiError {Json} e.
Arguments ThrownNetwork {Json}.

Inductive Outcome (Json : Type) :=
  | Resolved (v : Json)
  | Rejected (t : Thrown Json).
Arguments Resolved {Json} v.
Arguments Rejected {Json} t.

Definition sessionExpired : ApiError :=
  mkApiError "Session Expired" 401 "Please log in again.".

Section WithRuntime.
(** Parsed JSON values, [JSON.parse] ([None] when it throws) and the
    value of the literal [{}]. *)
Variable Json : Type.
Variable JSON_parse : string -> option Json.
Variable emptyObject : Json.
(** [response.json()] of the renewal reply read at its declared type
    [{ accessToken: string; refreshToken: string; ... }]: the pair of
    tokens, [None] when reading it throws. *)
Variable parseTokens : string -> option (string * string).
(** The far end: its answer to a call, given the calls made before. *)
Variable network : list Call -> Call -> FetchResult.

Definition fetch (s : CallSite) (u : string) (i : RequestInit)
    (st : Session) : FetchResult * Session :=
  let c := mkCall s u i in
  (network (calls st) c, withCalls (calls st ++ [c]) st).

Definition handleResponse (response : Response) : Outcome Json :=
  if negb (ok response) then
    match JSON_parse (body response) with
    | Some errorData => Rejected (ThrownJson errorData)
    | None =>
        Rejected (ThrownApiError
          (mkApiError "Error" (status response)
             (if bool_decide (statusText response = "")
              then "An unexpected error occurred"
              else statusText response)))
    end
  else if bool_decide (body response = "") then Resolved emptyObject
  else
    match JSON_parse (body response) with
    | Some v => Resolved v
    | None => Resolved emptyObject
    end.

Definition refreshInit (rt : string) : RequestInit :=
  mkInit (Some "POST") {[ "Content-Type" := "application/json" ]}
         (Some (RefreshBody rt)).

Definition refreshAccessToken (st : Session) : bool * Session :=
  let '(rt, st1) := getRefreshToken st in
  if negb (truthy rt) then (false, st1)
  else
    let BASE_URL := getBaseUrl st1 in
    let '(res, st2) :=
      fetch Renewal (BASE_URL +:+ "/auth/refresh") (refreshInit (show rt)) st1 in
    match res with
    | NetworkError => (false, clearTokens st2)
    | Responded response =>
        if negb (ok response) then (false, clearTokens st2)
        else
          match parseTokens (body response) with
          | None => (false, clearTokens st2)
          | Some (access, refresh) => (true, setTokens access refresh st2)
          end
    end.

(** [{ "Content-Type": "application/json", ...options.headers }] *)
Definition baseHeaders (options : RequestInit) : gmap string string :=
  headers options ∪ {[ "Content-Type" := "application/json" ]}.

(** [{ ...options, headers }] *)
Definition withHeaders (h : gmap string string) (options : RequestInit)
    : RequestInit :=
  mkInit (method options) h (reqBody options).

Definition bearer (token : option string) : string :=
  "Bearer " +:+ show token.

(** The headers of the first attempt. *)
Definition authHeaders (options : RequestInit) (token : option string)
    : gmap string string :=
  if truthy token then <["Authorization" := bearer token]> (baseHeaders options)
  else baseHeaders options.

(** The headers of the second attempt: the same object, its
    [Authorization] entry overwritten. *)
Definition retryHeaders (options : RequestInit) (token token' : option string)
    : gmap string string :=
  <["Authorization" := bearer token']> (authHeaders options token).

Definition authFetch (u : string) (options : RequestInit) (st : Session)
    : Outcome Json * Session :=
  let '(token, st1) := getAccessToken st in
  let '(res, st2) :=
    fetch Original u (withHeaders (authHeaders options token) options) st1 in
  match res with
  | NetworkError => (Rejected ThrownNetwork, st2)
  | Responded response =>
      if status response =? 401 then
        let '(refreshed, st3) := refreshAccessToken st2 in
        if refreshed then
          let '(token', st4) := getAccessToken st3 in
          let '(res', st5) :=
            fetch Original u
              (withHeaders (retryHeaders options token token') options) st4 in
          match res' with
          | NetworkError => (Rejected ThrownNetwork, st5)
          | Responded response' => (handleResponse response', st5)
          end
        else
          let st4 := clearTokens st3 in
          let st5 := if window st4 then withHref "/login" st4 else st4 in
          (Rejected (ThrownApiError sessionExpired), st5)
      else (handleResponse response, st2)
  end.

(** The part of [authFetch] up to the first answer. *)
Definition firstAttempt (u : string) (options : RequestInit) (st : Session)
    : FetchResult * Session :=
  let '(token, st1) := getAccessToken st in
  fetch Original u (withHeaders (authHeaders options token) options) st1.

End WithRuntime.

Arguments handleResponse {Json} JSON_parse emptyObject response.
Arguments authFetch {Json} JSON_parse emptyObject parseTokens network
  u options st.

(** The calls [authFetch] and [refreshAccessToken] make from state
    [st]. *)
Definition firstCall (u : string) (options : RequestInit) (st : Session)
    : Call :=
  mkCall Original u
    (withHeaders (authHeaders options (fst (getAccessToken st))) options).

Definition renewalCall (st : Session) : Call :=
  mkCall Renewal (getBaseUrl st +:+ "/auth/refresh")
    (refreshInit (show (fst (getRefreshToken st)))).

Definition retryCall (u : string) (options : RequestInit) (st : Session)
    (access : string) : Call :=
  mkCall Original u
    (withHeaders
       (retryHeaders options (fst (getAccessToken st)) (Some access)) options).

(** Calls of one site among a list of calls. *)
Definition callsOf (s : CallSite) (cs : list Call) : list Call :=
  filter (fun c => site c = s) cs.

End Api.

(* ===================================================================== *)
(** * lib/hooks.ts: cache keys and invalidation *)
(* ===================================================================== *)

Module Hooks.

Inductive ResourceType := Room | Desk | ParkingSpot.

Definition typeName (t : ResourceType) : string :=
  match t with
  | Room => "Room"
  | Desk => "Desk"
  | ParkingSpot => "ParkingSpot"
  end.

#[global] Instance ResourceType_eq_dec : EqDecision ResourceType.
Proof. solve_decision. Defined.

(** Cache keys: an array of strings and numbers, or a plain string. *)
Inductive KeyPart :=
  | KStr (s : string)
  | KNum (n : Z).

Inductive Key :=
  | ArrayKey (parts : list KeyPart)
  | StringKey (s : string).

#[global] Instance KeyPart_eq_dec : EqDecision KeyPart.
Proof. solve_decision. Defined.

#[global] Instance Key_eq_dec : EqDecision Key.
Proof. solve_decision. Defined.

(** The keys the hooks of the module use. *)
Definition resourcesKey (t : ResourceType) (pageSize : Z) : Key :=
  ArrayKey [KStr "resources"; KStr (typeName t); KNum pageSize].

Definition availableResourcesKey (t : ResourceType) (startUtc endUtc : string)
    : Key :=
  ArrayKey [KStr "available-resources"; KStr (typeName t);
            KStr startUtc; KStr endUtc].

Definition availabilityKey (t : ResourceType) (dateStr : string) : Key :=
  ArrayKey [KStr "availability"; KStr (typeName t); KStr dateStr].

Definition userBookingsKey (userId : string) (pageNumber pageSize : Z) : Key :=
  ArrayKey [KStr "user-bookings"; KStr userId; KNum pageNumber; KNum pageSize].

Definition refreshSignalKey : Key := StringKey "resources-refresh-signal".

(** What an entry holds: a fetched payload or a number written by
    hand. *)
Inductive CacheData (P : Type) :=
  | Fetched (p : P)
  | Stamp (t : Z).
Arguments Fetched {P} p.
Arguments Stamp {P} t.

(** A cache entry: its data, and how many revalidations have been
    asked of it. *)
Record Entry (P : Type) := mkEntry {
  data : option (CacheData P);
  revalidations : nat
}.
Arguments mkEntry {P} data revalidations.
Arguments data {P} e.
Arguments revalidations {P} e.

Definition Cache (P : Type) := list (Key * Entry P).

(** [globalMutate(filter, undefined, { revalidate: true })]: every
    entry whose key passes the filter loses its data and is
    revalidated. *)
Definition mutateMatching {P} (filter : Key -> bool) (cache : Cache P)
    : Cache P :=
  map (fun kv : Key * Entry P =>
         if filter (fst kv)
         then (fst kv, mkEntry None (S (revalidations (snd kv))))
         else kv) cache.

(** [globalMutate(key, value, false)]: the entry of [key] is given the
    value, created if need be, and is not revalidated. *)
Fixpoint mutateKey {P} (key : Key) (value : CacheData P) (cache : Cache P)
    : Cache P :=
  match cache with
  | [] => [(key, mkEntry (Some value) 0)]
  | (k, e) :: rest =>
      if bool_decide (k = key)
      then (k, mkEntry (Some value) (revalidations e)) :: rest
      else (k, e) :: mutateKey key value rest
  end.

(** [key[0] === tag] *)
Definition headIs (tag : string) (parts : list KeyPart) : bool :=
  match parts with
  | KStr s :: _ => bool_decide (s = tag)
  | _ => false
  end.

(** [key[1] === tag] *)
Definition secondIs (tag : string) (parts : list KeyPart) : bool :=
  match parts with
  | _ :: KStr s :: _ => bool_decide (s = tag)
  | _ => false
  end.

Definition bookingsFilter (key : Key) : bool :=
  match key with
  | ArrayKey parts =>
      headIs "user-bookings" parts || headIs "available-resources" parts
  | StringKey _ => false
  end.

Definition resourcesFilter (type : option ResourceType) (key : Key) : bool :=
  match key with
  | ArrayKey parts =>
      if negb (headIs "resources" parts) then false
      else
        match type with
        | None => true
        | Some t => secondIs (typeName t) parts
        end
  | StringKey _ => false
  end.

Definition invalidateBookings {P} (cache : Cache P) : Cache P :=
  mutateMatching bookingsFilter cache.

(** [now] is the value of [Date.now()]. *)
Definition invalidateResources {P} (now : Z) (type : option ResourceType)
    (cache : Cache P) : Cache P :=
  mutateKey refreshSignalKey (Stamp now)
    (mutateMatching (resourcesFilter type) cache).

(** Revalidations asked of the entry of [key]; 0 when there is none. *)
Fixpoint revalidationsOf {P} (key : Key) (cache : Cache P) : nat :=
  match cache with
  | [] => 0%nat
  | (k, e) :: rest =>
      if bool_decide (k = key) then revalidations e
      else revalidationsOf key rest
  end.

Fixpoint dataOf {P} (key : Key) (cache : Cache P) : option (CacheData P) :=
  match cache with
  | [] => None
  | (k, e) :: rest =>
      if bool_decide (k = key) then data e else dataOf key rest
  end.

End Hooks.

(* ===================================================================== *)
(** * The booking dialog: [handleConfirm] *)
(* ===================================================================== *)

Module BookingDialog.
Import Hooks.

Record Resource := mkResource {
  id : string;
  name : string;
  type : ResourceType
}.

(** What awaiting [createBooking] gives: it resolves, it rejects with a
    value that [isApiError] accepts, or it rejects with another
    value. *)
Inductive CreateResult :=
  | Created
  | RejectedApi (e : Api.ApiError)
  | RejectedOther.

(** The state of the dialog. *)
Record Dialog := mkDialog {
  isSubmitting : bool;
  error : string;
  open : bool
}.

(** [err.detail || err.title] *)
Definition errorText (e : Api.ApiError) : string :=
  if bool_decide (Api.detail e = "") then Api.title e else Api.detail e.

Definition handleConfirm {P} (now : Z) (resource : option Resource)
    (result : CreateResult) (ui : Dialog) (cache : Cache P)
    : Dialog * Cache P :=
  match resource with
  | None => (ui, cache)
  | Some r =>
      match result with
      | Created =>
          (mkDialog false "" false,
           invalidateResources now (Some (type r)) (invalidateBookings cache))
      | RejectedApi e => (mkDialog false (errorText e) (open ui), cache)
      | RejectedOther =>
          (mkDialog false "Failed to create booking. Please try again."
                    (open ui), cache)
      end
  end.

(** The keys that a confirmed booking of a resource of type [t]
    invalidates: those passing the filter of [invalidateBookings] or the
    filter of [invalidateResources(t)]. *)
Definition flowFilter (t : ResourceType) (key : Key) : bool :=
  bookingsFilter key || resourcesFilter (Some t) key.

End BookingDialog.

(* ===================================================================== *)
(** * The dashboard page: effects that revalidate availability *)
(* ===================================================================== *)

Module Dashboard.
Import JsDate.

(** The page carries its own copy of the horizon test. *)
Definition isBookableDate (LocalTZA : Z -> Z) (now date : Date) : bool :=
  match DateNav.midnightOf LocalTZA date, DateNav.midnightOf LocalTZA now with
  | Some target, Some today =>
      let diff := Qmake (target - today) (Z.to_pos (1000 * 60 * 60 * 24)) in
      Qle_bool 0 diff && Qle_bool diff 3
  | _, _ => false
  end.

(** A bound [mutate()] called without data: every entry whose key
    passes the filter keeps what it holds and is revalidated. *)
Definition revalidateMatching {P} (filter : Hooks.Key -> bool)
    (cache : Hooks.Cache P) : Hooks.Cache P :=
  map (fun kv : Hooks.Key * Hooks.Entry P =>
         if filter (fst kv)
         then (fst kv,
               Hooks.mkEntry (Hooks.data (snd kv))
                             (S (Hooks.revalidations (snd kv))))
         else kv) cache.

(** [mutateAvailability()]: one revalidation of the availability entry
    the page shows. *)
Definition mutateAvailability {P} (t : Hooks.ResourceType) (dateStr : string)
    (cache : Hooks.Cache P) : Hooks.Cache P :=
  revalidateMatching
    (fun k => bool_decide (k = Hooks.availabilityKey t dateStr)) cache.

(** One run of the effect on the number of bookings: [count] is
    [bookingsData?.items?.length ?? null], [prev] is
    [prevBookingsCountRef.current]. The result tells whether
    [mutateAvailability] was called, and gives the new content of the
    ref. *)
Definition bookingsCountEffect (prev count : option nat)
    : bool * option nat :=
  (negb (bool_decide (prev = None)) && negb (bool_decide (count = prev)),
   count).

(** The runs of the effect over successive renders, the ref starting
    from [prev]: for each run, whether availability was revalidated. *)
Fixpoint runEffect (prev : option nat) (counts : list (option nat))
    : list bool :=
  match counts with
  | [] => []
  | count :: rest =>
      let '(fired, prev') := bookingsCountEffect prev count in
      fired :: runEffect prev' rest
  end.

(** The ref is created holding [null]. *)
Definition observe (counts : list (option nat)) : list bool :=
  runEffect None counts.

End Dashboard.

(* ===================================================================== *)
(** * Concrete data used to run the definitions *)
(* ===================================================================== *)

Module Samples.
Import JsDate.

(** 3 November 2026, as the date picker holds it (local midnight). *)
Definition nov3 : Date := mkDate 2026 10 3 0 0 0 0.

(** 2026-11-03T08:00:00Z and 2026-11-03T10:00:00Z. *)
Definition at0800 : Z := 1793692800000.
Definition at1000 : Z := 1793700000000.

(** A booking of resource r1 by the signed-in user for 10:00 to 11:00
    UTC. *)
Definition booking10 : SlotGrid.Booking :=
  SlotGrid.mkBooking "b1" "u1" "r1"
    "2026-11-03T10:00:00Z" "2026-11-03T11:00:00Z" "Active".

(** An availability map that lists r1 as free at 9, 10 and 11. *)
Definition freeMap : gmap string (gset string) :=
  <["9" := {["r1"]}]> (<["10" := {["r1"]}]> (<["11" := {["r1"]}]> ∅)).

Definition freeSet : gset string := SlotGrid.availableSetOf freeMap.

(** A response with one resource whose only slot, reported available,
    lacks [startTime]. *)
Definition noStartTime : Availability.AvailabilityResponse :=
  Availability.mkResp (Some
    [Availability.mkRes "r1" (Some
       [Availability.mkSlot None (Some "08:00") "available"])]).

(** A day of resource r1 with boundaries written as [HH:MM], and of
    resource r2 with boundaries written as timestamps. *)
Definition mixedDay : Availability.AvailabilityResponse :=
  Availability.mkResp (Some
    [Availability.mkRes "r1" (Some
       [Availability.mkSlot (Some "07:00") (Some "09:00") "available";
        Availability.mkSlot (Some "09:00") (Some "10:00") "booked"]);
     Availability.mkRes "r2" (Some
       [Availability.mkSlot (Some "2026-02-20T08:00:00")
                            (Some "2026-02-20T09:00:00") "available"])]).

(** A signed-in browser session on the dashboard, holding an expired
    access token and a refresh token; and one that has lost its
    refresh token. *)
Definition signedIn : Api.Session :=
  Api.mkSession (Some "old-access") (Some "old-refresh") true
    (<["user" := "u1"]> (<["refreshToken" := "old-refresh"]>
       (<["accessToken" := "old-access"]> ∅)))
    "/dashboard" None [].

Definition noRefreshToken : Api.Session :=
  Api.mkSession (Some "old-access") None true
    (<["user" := "u1"]> (<["accessToken" := "old-access"]> ∅))
    "/dashboard" None [].

(** A far end that accepts only the renewed access token, and renews
    on request. *)
Definition renewingServer (history : list Api.Call) (c : Api.Call)
    : Api.FetchResult :=
  match Api.site c with
  | Api.Renewal => Api.Responded (Api.mkResponse 200 "OK" "renewed")
  | Api.Original =>
      if bool_decide (Api.headers (Api.init c) !! "Authorization"
                      = Some "Bearer new-access")
      then Api.Responded (Api.mkResponse 200 "OK" "{}")
      else Api.Responded (Api.mkResponse 401 "Unauthorized" "")
  end.

(** A far end that answers 401 to everything. *)
Definition refusingServer (history : list Api.Call) (c : Api.Call)
    : Api.FetchResult :=
  Api.Responded (Api.mkResponse 401 "Unauthorized" "").

(** Stand-ins for the JSON reader: parsed values are kept as their
    text, a text is taken for valid when it opens with a brace, and the
    renewal reply "renewed" carries the new pair of tokens. *)
Definition parseBraced (s : string) : option string :=
  if String.prefix "{" s then Some s else None.

Definition parseRenewed (s : string) : option (string * string) :=
  if bool_decide (s = "renewed") then Some ("new-access", "new-refresh")
  else None.

Definition getBookings : Api.RequestInit := Api.mkInit None ∅ None.

(** A cache holding the bookings of user u1, the Room and Desk
    catalogues, Room availability for two dates and a coarse
    availability entry; every entry is fresh. *)
Definition warmCache : Hooks.Cache string :=
  [(Hooks.userBookingsKey "u1" 1 100, Hooks.mkEntry (Some (Hooks.Fetched "bookings")) 0);
   (Hooks.resourcesKey Hooks.Room 100, Hooks.mkEntry (Some (Hooks.Fetched "rooms")) 0);
   (Hooks.resourcesKey Hooks.Desk 100, Hooks.mkEntry (Some (Hooks.Fetched "desks")) 0);
   (Hooks.availabilityKey Hooks.Room "2026-11-03", Hooks.mkEntry (Some (Hooks.Fetched "day 3")) 0);
   (Hooks.availabilityKey Hooks.Room "2026-11-04", Hooks.mkEntry (Some (Hooks.Fetched "day 4")) 0);
   (Hooks.availableResourcesKey Hooks.Desk "2026-11-03T10:00:00Z"
      "2026-11-03T11:00:00Z", Hooks.mkEntry (Some (Hooks.Fetched "free desks")) 0)].

Definition roomA : BookingDialog.Resource :=
  BookingDialog.mkResource "r1" "Room A" Hooks.Room.

Definition openDialog : BookingDialog.Dialog :=
  BookingDialog.mkDialog false "" true.

End Samples.

(* ===================================================================== *)
(** * The pages and cards around the grid *)
(* ===================================================================== *)

Module Pages.
Import JsDate.

(** ** Strings the dashboard and the booking dialog build *)

Fixpoint zeros (n : nat) : string :=
  match n with
  | O => ""
  | S k => String "0" (zeros k)
  end.

(** [s.padStart(target, "0")] *)
Definition padStart (target : nat) (s : string) : string :=
  zeros (target - String.length s) +:+ s.

(** [toUtcIso(date, hour)], the same in the dialog and in the
    dashboard: [`${y}-${m}-${d}T${h}:00:00Z`]. *)
Definition toUtcIso (date : Date) (hour : Z) : string :=
  let y := pretty (getFullYear date) in
  let m := padStart 2 (pretty (getMonth date + 1)) in
  let d := padStart 2 (pretty (getDate date)) in
  let h := padStart 2 (pretty hour) in
  y +:+ "-" +:+ m +:+ "-" +:+ d +:+ "T" +:+ h +:+ ":00:00Z".

(** [dateStr] of the dashboard, the date part of the availability
    key. *)
Definition dateStr (selectedDate : Date) : string :=
  pretty (getFullYear selectedDate) +:+ "-"
  +:+ padStart 2 (pretty (getMonth selectedDate + 1)) +:+ "-"
  +:+ padStart 2 (pretty (getDate selectedDate)).

(** [formatHour] of the grid. *)
Definition formatHour (hour : Z) : string :=
  if hour =? 0 then "12 AM"
  else if hour =? 12 then "12 PM"
  else if 12 <? hour then pretty (hour - 12) +:+ " PM"
  else pretty hour +:+ " AM".

(** [formatHour] of the booking dialog. *)
Definition formatHourDialog (hour : Z) : string :=
  if hour =? 0 then "12:00 AM"
  else if hour =? 12 then "12:00 PM"
  else if 12 <? hour then pretty (hour - 12) +:+ ":00 PM"
  else pretty hour +:+ ":00 AM".

(** A calendar day the date picker can hold: a four-digit year, a
    month from 0 to 11 and a day of that month. *)
Definition plainDay (date : Date) : Prop :=
  1000 <= getFullYear date <= 9999
  /\ 0 <= getMonth date <= 11
  /\ 1 <= getDate date <= JsDate.DaysInMonth (getFullYear date) (getMonth date).

(** ** app/my-bookings/page.tsx: the status filter *)

Inductive FilterStatus := FilterAll | FilterActive | FilterCancelled | FilterPast.

Section WithRuntime.
(** [new Date(s).getTime()] for a string [s]. *)
Variable Date_parse : string -> TimeValue.

(** The predicate given to [allBookings.filter]; [now] is the time
    value of [new Date()]. [a >= b] on dates is [b <= a] on their time
    values, false when one is [NaN]. *)
Definition keepsBooking (now : Z) (filter : FilterStatus)
    (b : SlotGrid.Booking) : bool :=
  match filter with
  | FilterAll => true
  | FilterActive =>
      bool_decide (SlotGrid.bstatus b = "Active")
      && num_le (Some now) (Date_parse (SlotGrid.endUtc b))
  | FilterCancelled => bool_decide (SlotGrid.bstatus b = "Cancelled")
  | FilterPast =>
      bool_decide (SlotGrid.bstatus b = "Active")
      && num_lt (Date_parse (SlotGrid.endUtc b)) (Some now)
  end.

Definition filteredBookings (now : Z) (filter : FilterStatus)
    (allBookings : list SlotGrid.Booking) : list SlotGrid.Booking :=
  List.filter (keepsBooking now filter) allBookings.

(** ** components/booking-card.tsx *)

(** [canCancel = isActive && !isPast] *)
Definition canCancel (now : Z) (booking : SlotGrid.Booking) : bool :=
  let isActive := bool_decide (SlotGrid.bstatus booking = "Active") in
  let isPast := num_lt (Date_parse (SlotGrid.endUtc booking)) (Some now) in
  isActive && negb isPast.

End WithRuntime.

(** What awaiting [cancelBooking] gives. *)
Inductive CancelResult :=
  | CancelDone
  | CancelRejectedApi (e : Api.ApiError)
  | CancelRejectedOther.

(** [handleCancel]: the toast shown and the cache afterwards. *)
Definition handleCancel {P} (now : Z) (result : CancelResult)
    (cache : Hooks.Cache P) : string * Hooks.Cache P :=
  match result with
  | CancelDone =>
      ("Booking cancelled successfully.",
       Hooks.invalidateResources now None (Hooks.invalidateBookings cache))
  | CancelRejectedApi e => (BookingDialog.errorText e, cache)
  | CancelRejectedOther => ("Failed to cancel booking.", cache)
  end.

(** ** The dashboard's effect on the refresh signal *)

(** [resourcesRefreshSignal]: the number held by the signal entry,
    [None] while it holds none. *)
Definition signalOf {P} (cache : Hooks.Cache P) : option Z :=
  match Hooks.dataOf Hooks.refreshSignalKey cache with
  | Some (Hooks.Stamp t) => Some t
  | _ => None
  end.

(** The effect with dependency [resourcesRefreshSignal], for a page
    showing type [t] on [dateStr]: it runs after a render in which the
    signal differs from the one of the render before, and calls
    [mutateAvailability]. *)
Definition refreshSignalEffect {P} (t : Hooks.ResourceType) (shown : string)
    (before after : Hooks.Cache P) : Hooks.Cache P :=
  if bool_decide (signalOf after = signalOf before) then after
  else Dashboard.mutateAvailability t shown after.

(** ** From a click on the grid to the dialog *)

(** [isClickable] of a grid button. *)
Definition isClickable (slotInfo : SlotGrid.SlotInfo) (isLoading : bool)
    : bool :=
  match SlotGrid.status slotInfo with
  | SlotGrid.available => negb isLoading
  | _ => false
  end.

(** [handleSlotClick]: the resource and hour the dialog opens on,
    [None] when the dialog stays closed. *)
Definition handleSlotClick (resources : list BookingDialog.Resource)
    (resourceId : string) (hour : Z)
    : option (BookingDialog.Resource * Z) :=
  match List.find (fun r => bool_decide (BookingDialog.id r = resourceId))
                  resources with
  | Some resource => Some (resource, hour)
  | None => None
  end.

(** The [onClick] of the button of [resource] at [hour]. *)
Definition clickSlot (slotInfo : SlotGrid.SlotInfo) (isLoading : bool)
    (resources : list BookingDialog.Resource)
    (resource : BookingDialog.Resource) (hour : Z)
    : option (BookingDialog.Resource * Z) :=
  if isClickable slotInfo isLoading
  then handleSlotClick resources (BookingDialog.id resource) hour
  else None.

(** ** The token module after a reload of the page *)

(** The module is evaluated anew, [accessToken] and [refreshToken]
    start as [null]; [localStorage] is what it was. *)
Definition reloaded (st : Api.Session) : Api.Session :=
  Api.withRefresh None (Api.withAccess None st).

End Pages.

Module Availability2.
Import Availability.

(** Every key of the map is the decimal form of an hour between 0 and
    98, and no stored set is empty. *)
Definition hourKeyed (map : HourMap) : Prop :=
  forall k set,
    map !! k = Some set ->
    (exists h, 0 <= h <= 98 /\ k = pretty h) /\ set <> ∅.

(** An available slot of the response lacks a boundary. *)
Definition boundaryMissing (apiResult : AvailabilityResponse) : Prop :=
  exists res ts,
    res ∈ orEmpty (resources apiResult)
    /\ ts ∈ orEmpty (timeSlots res)
    /\ status ts = "available"
    /\ (startTime ts = None \/ endTime ts = None).

(** Character [c] occurs in string [s]. *)
Fixpoint occurs (c : ascii) (s : string) : bool :=
  match s with
  | EmptyString => false
  | String a rest => Ascii.eqb a c || occurs c rest
  end.

(** A second day: the resources of [mixedDay] in the other order. *)
Definition mixedDayReordered : AvailabilityResponse :=
  mkResp (Some
    [mkRes "r2" (Some
       [mkSlot (Some "2026-02-20T08:00:00")
               (Some "2026-02-20T09:00:00") "available"]);
     mkRes "r1" (Some
       [mkSlot (Some "07:00") (Some "09:00") "available";
        mkSlot (Some "09:00") (Some "10:00") "booked"])]).

End Availability2.

Module MoreSamples.
Import JsDate.

(** Bookings of one user: one under way until 11:00, one over since
    09:00, one cancelled. *)
Definition upcoming : SlotGrid.Booking :=
  SlotGrid.mkBooking "b1" "u1" "r1"
    "2026-11-03T10:00:00Z" "2026-11-03T11:00:00Z" "Active".

Definition finished : SlotGrid.Booking :=
  SlotGrid.mkBooking "b2" "u1" "r2"
    "2026-11-03T08:00:00Z" "2026-11-03T09:00:00Z" "Active".

Definition withdrawn : SlotGrid.Booking :=
  SlotGrid.mkBooking "b3" "u1" "r1"
    "2026-11-03T12:00:00Z" "2026-11-03T13:00:00Z" "Cancelled".

(** A second booking of r1 that also covers the 10 o'clock slot. *)
Definition overlapping : SlotGrid.Booking :=
  SlotGrid.mkBooking "b4" "u1" "r1"
    "2026-11-03T09:30:00Z" "2026-11-03T10:30:00Z" "Active".

(** A far end that answers 200 to everything. *)
Definition acceptingServer (history : list Api.Call) (c : Api.Call)
    : Api.FetchResult :=
  Api.Responded (Api.mkResponse 200 "OK" "{}").

(** A server-side session configured with an API address. *)
Definition serverSide : Api.Session :=
  Api.mkSession None None false ∅ "" (Some "https://booking.example") [].

End MoreSamples.

(* ===================================================================== *)
(** * lib/hooks.ts: the availability reduction on the response as it
      arrives *)
(* ===================================================================== *)

(** [handleResponse] hands [JSON.parse(text)] to the fetcher of
    [useAvailability] under a type assertion only, so the reduction may
    meet any JSON value. This module follows the loop of the fetcher on
    such a value, with every place where it throws. *)
Module Wire.
Import JsDate.

(** What [JSON.parse] yields. [Num] is the type of its numbers. An
    object is the list of its properties; the first entry for a name is
    the one the object holds. *)
#[local] Unset Elimination Schemes.
Inductive Value (Num : Type) : Type :=
  | JNull
  | JBool (b : bool)
  | JNum (x : Num)
  | JStr (s : string)
  | JArr (items : list (Value Num))
  | JObj (fields : list (string * Value Num)).
#[local] Set Elimination Schemes.
Arguments JNull {Num}.
Arguments JBool {Num} b.
Arguments JNum {Num} x.
Arguments JStr {Num} s.
Arguments JArr {Num} items.
Arguments JObj {Num} fields.

(** What a [Set] tells apart ([SameValueZero]): primitive values by
    their value, objects and arrays by identity. The only values the
    reduction adds to a set are the [id]s of the resources, and no two
    resources of a parsed response share an object, so the position of
    the resource identifies an [id] that is an object or an array. *)
Inductive IdKey (Num : Type) : Type :=
  | KUndefined
  | KNull
  | KBool (b : bool)
  | KNum (x : Num)
  | KStr (s : string)
  | KRef (resource : nat).
Arguments KUndefined {Num}.
Arguments KNull {Num}.
Arguments KBool {Num} b.
Arguments KNum {Num} x.
Arguments KStr {Num} s.
Arguments KRef {Num} resource.

#[global] Instance IdKey_eq_dec {Num} `{EqDecision Num} : EqDecision (IdKey Num).
Proof. solve_decision. Defined.

#[global] Instance IdKey_countable {Num} `{Countable Num} : Countable (IdKey Num).
Proof.
  refine (inj_countable'
    (fun k : IdKey Num =>
       match k with
       | KUndefined => inl (inl ())
       | KNull => inl (inr ())
       | KBool b => inr (inl b)
       | KNum x => inr (inr (inl x))
       | KStr s => inr (inr (inr (inl s)))
       | KRef i => inr (inr (inr (inr i)))
       end)
    (fun e : (unit + unit) + (bool + (Num + (string + nat))) =>
       match e with
       | inl (inl _) => KUndefined
       | inl (inr _) => KNull
       | inr (inl b) => KBool b
       | inr (inr (inl x)) => KNum x
       | inr (inr (inr (inl s))) => KStr s
       | inr (inr (inr (inr i))) => KRef i
       end) _).
  by intros [].
Defined.

(** The hour-to-resources map, keyed by [String(h)]. *)
Abbreviation HourMap Num := (gmap string (gset (IdKey Num))).

Section WithRuntime.
Context {Num : Type} `{Countable Num}.
(** [x === 0] on a number ([JSON.parse] yields no [NaN]). *)
Variable isZero : Num -> bool.
(** [new Date(s).getTime()] for a string [s]. *)
Variable Date_parse : string -> TimeValue.

(** The truth value of what a property read gives; [None] is
    [undefined]. *)
Definition truthy (v : option (Value Num)) : bool :=
  match v with
  | None => false
  | Some JNull => false
  | Some (JBool b) => b
  | Some (JNum x) => negb (isZero x)
  | Some (JStr s) => negb (bool_decide (s = ""))
  | Some (JArr _) => true
  | Some (JObj _) => true
  end.

Fixpoint assoc (k : string) (fields : list (string * Value Num))
    : option (Value Num) :=
  match fields with
  | [] => None
  | (k', v) :: rest => if bool_decide (k' = k) then Some v else assoc k rest
  end.

(** [v.k] on a value other than [null], for the property names the
    fetcher reads ([resources], [timeSlots], [id], [status],
    [startTime], [endTime]): strings, numbers, booleans and arrays have
    none of them. *)
Definition fieldOf (v : Value Num) (k : string) : option (Value Num) :=
  match v with
  | JObj fields => assoc k fields
  | _ => None
  end.

(** [v.k]: reading a property of [null] throws. *)
Definition getField (v : Value Num) (k : string)
    : JsResult (option (Value Num)) :=
  match v with
  | JNull => Throw TypeError
  | _ => Ok (fieldOf v k)
  end.

(** [x || []] *)
Definition orEmpty (v : option (Value Num)) : Value Num :=
  match v with
  | Some x => if truthy v then x else JArr []
  | None => JArr []
  end.

(** The characters of a string, each a string of its own. *)
Definition chars (s : string) : list (Value Num) :=
  (fun c => JStr (String c EmptyString)) <$> list_ascii_of_string s.

(** What [for (const x of v)] runs through: arrays and strings are
    iterable, the other values throw. *)
Definition iterate (v : Value Num) : JsResult (list (Value Num)) :=
  match v with
  | JArr items => Ok items
  | JStr s => Ok (chars s)
  | _ => Throw TypeError
  end.

(** [status === "available"] *)
Definition isAvailable (v : option (Value Num)) : bool :=
  match v with
  | Some (JStr s) => bool_decide (s = "available")
  | _ => false
  end.

(** [parseHour(t)]: only a string has a [match] method to call. *)
Definition parseHourOf (t : option (Value Num)) : JsResult (option Z) :=
  match t with
  | Some (JStr s) => Ok (Availability.parseHour Date_parse s)
  | _ => Throw TypeError
  end.

(** [res.id] as the set sees it, for the resource at position [i]. *)
Definition idKey (i : nat) (v : option (Value Num)) : IdKey Num :=
  match v with
  | None => KUndefined
  | Some JNull => KNull
  | Some (JBool b) => KBool b
  | Some (JNum x) => KNum x
  | Some (JStr s) => KStr s
  | Some (JArr _) => KRef i
  | Some (JObj _) => KRef i
  end.

(** [for (let h = startHour; h < endHour; h++) { ... }] *)
Definition addHour (rid : IdKey Num) (map : HourMap Num) (h : Z)
    : HourMap Num :=
  let set := default ∅ (map !! pretty h) in
  <[pretty h := {[rid]} ∪ set]> map.

Definition addHours (rid : IdKey Num) (startHour endHour : Z)
    (map : HourMap Num) : HourMap Num :=
  foldl (addHour rid) map (seqZ startHour (endHour - startHour)).

(** Body of the inner loop, for one element [ts] of the time slots of
    the resource whose [id] is [rid]. *)
Definition reduceSlot (rid : IdKey Num) (map : HourMap Num) (ts : Value Num)
    : JsResult (HourMap Num) :=
  st <-! getField ts "status" ;;
  if negb (isAvailable st) then Ok map
  else
    a <-! getField ts "startTime" ;;
    startHour <-! parseHourOf a ;;
    b <-! getField ts "endTime" ;;
    endHour <-! parseHourOf b ;;
    match startHour, endHour with
    | Some s, Some e => Ok (addHours rid s e map)
    | _, _ => Ok map
    end.

(** Body of the outer loop, for the element [res] at position [i]. *)
Definition reduceResource (map : HourMap Num) (ires : nat * Value Num)
    : JsResult (HourMap Num) :=
  let '(i, res) := ires in
  slots <-! getField res "timeSlots" ;;
  items <-! iterate (orEmpty slots) ;;
  forOf (reduceSlot (idKey i (fieldOf res "id"))) map items.

Fixpoint indexedFrom {A} (n : nat) (xs : list A) : list (nat * A) :=
  match xs with
  | [] => []
  | x :: rest => (n, x) :: indexedFrom (S n) rest
  end.

(** The fetcher of [useAvailability], from [apiResult] on. *)
Definition availabilityMap (apiResult : Value Num)
    : JsResult (HourMap Num) :=
  rs <-! getField apiResult "resources" ;;
  items <-! iterate (orEmpty rs) ;;
  forOf reduceResource ∅ (indexedFrom 0 items).

(** ** The shapes on which the reduction runs through *)

Definition isString (v : option (Value Num)) : bool :=
  match v with
  | Some (JStr _) => true
  | _ => false
  end.

(** Falsy (and so replaced by the empty array), or a string or an
    array. *)
Definition loopable (v : option (Value Num)) : bool :=
  negb (truthy v)
  || match v with
     | Some (JArr _) => true
     | Some (JStr _) => true
     | _ => false
     end.

(** The elements the loop over [v || []] meets. *)
Definition elements (v : option (Value Num)) : list (Value Num) :=
  match v with
  | Some (JArr items) => items
  | Some (JStr s) => chars s
  | _ => []
  end.

(** Not [null], and with both boundaries strings when the status is
    "available". *)
Definition slotShaped (ts : Value Num) : bool :=
  match ts with
  | JNull => false
  | _ =>
      implb (isAvailable (fieldOf ts "status"))
            (isString (fieldOf ts "startTime")
             && isString (fieldOf ts "endTime"))
  end.

Definition resourceShaped (res : Value Num) : bool :=
  match res with
  | JNull => false
  | _ =>
      loopable (fieldOf res "timeSlots")
      && forallb slotShaped (elements (fieldOf res "timeSlots"))
  end.

Definition responseShaped (apiResult : Value Num) : bool :=
  match apiResult with
  | JNull => false
  | _ =>
      loopable (fieldOf apiResult "resources")
      && forallb resourceShaped (elements (fieldOf apiResult "resources"))
  end.

End WithRuntime.

(** ** The typed response, written as the value it is *)

Section Encoding.
Context {Num : Type}.

Definition optField (k : string) (v : option (Value Num))
    : list (string * Value Num) :=
  match v with
  | Some x => [(k, x)]
  | None => []
  end.

Definition encodeSlot (ts : Availability.TimeSlotAvailability) : Value Num :=
  JObj (optField "startTime" (JStr <$> Availability.startTime ts)
        ++ optField "endTime" (JStr <$> Availability.endTime ts)
        ++ [("status", JStr (Availability.status ts))]).

Definition encodeResource (res : Availability.ResourceAvailability)
    : Value Num :=
  JObj (("id", JStr (Availability.id res))
        :: optField "timeSlots"
             ((fun l => JArr (encodeSlot <$> l))
                <$> Availability.timeSlots res)).

Definition encodeResponse (r : Availability.AvailabilityResponse)
    : Value Num :=
  JObj (optField "resources"
          ((fun l => JArr (encodeResource <$> l))
             <$> Availability.resources r)).

(** The typed map, with its resource ids as the set sees them. *)
Definition encodeMap `{Countable Num} (map : Availability.HourMap)
    : HourMap Num :=
  (set_map (C := gset string) (D := gset (IdKey Num)) KStr) <$> map.

(** The typed result, as a result on values. *)
Definition liftResult `{Countable Num} (r : JsResult Availability.HourMap)
    : JsResult (HourMap Num) :=
  match r with
  | Ok map => Ok (encodeMap map)
  | Throw e => Throw e
  end.

End Encoding.

End Wire.

Module WireSamples.
Import Wire.

Definition isZeroZ (x : Z) : bool := x =? 0.

(** [{"resources":[null]}] *)
Definition nullResource : Value Z :=
  JObj [("resources", JArr [JNull])].

(** [{"resources":[{"id":"r1","timeSlots":[null]}]}] *)
Definition nullSlot : Value Z :=
  JObj [("resources",
         JArr [JObj [("id", JStr "r1"); ("timeSlots", JArr [JNull])]])].

(** [{"resources":5}] *)
Definition numberForResources : Value Z :=
  JObj [("resources", JNum 5)].

(** [{"resources":[{"id":"r1","timeSlots":{}}]}] *)
Definition objectForTimeSlots : Value Z :=
  JObj [("resources",
         JArr [JObj [("id", JStr "r1"); ("timeSlots", JObj [])]])].

(** [{"resources":[{"id":"r1","timeSlots":
       [{"endTime":"08:00","status":"available"}]}]}] *)
Definition slotWithoutStart : Value Z :=
  JObj [("resources",
         JArr [JObj [("id", JStr "r1");
                     ("timeSlots",
                      JArr [JObj [("endTime", JStr "08:00");
                                  ("status", JStr "available")]])]])].

(** [{"resources":[{"id":"r1","timeSlots":
       [{"startTime":7,"endTime":"08:00","status":"available"}]}]}] *)
Definition numberForStart : Value Z :=
  JObj [("resources",
         JArr [JObj [("id", JStr "r1");
                     ("timeSlots",
                      JArr [JObj [("startTime", JNum 7);
                                  ("endTime", JStr "08:00");
                                  ("status", JStr "available")]])]])].

(** A response with everything odd that does no harm: a resource that
    is a number, one without [timeSlots], one whose [timeSlots] is
    [null], one whose [timeSlots] is a string, a slot that is a string,
    a slot without status, a booked slot without boundaries, an
    available slot whose boundaries yield no hour, and one regular
    available slot of resource r1 from 7 to 9. *)
Definition oddDay : Value Z :=
  JObj [("resources",
         JArr [JNum 3;
               JObj [("id", JStr "r0")];
               JObj [("id", JStr "r0"); ("timeSlots", JNull)];
               JObj [("id", JStr "r0"); ("timeSlots", JStr "soon")];
               JObj [("id", JStr "r1");
                     ("timeSlots",
                      JArr [JStr "slot";
                            JObj [];
                            JObj [("status", JStr "booked")];
                            JObj [("startTime", JStr "morning");
                                  ("endTime", JStr "noon");
                                  ("status", JStr "available")];
                            JObj [("startTime", JStr "07:00");
                                  ("endTime", JStr "09:00");
                                  ("status", JStr "available")]])]])].

End WireSamples.

(* ===================================================================== *)
(** * Properties of the slot status *)
(* ===================================================================== *)

Module SlotGridSpec.
Import JsDate SlotGrid Samples.

Lemma findOwn_finds Date_parse rid sStart sEnd (bookings : list Booking) b :
  b ∈ bookings ->
  ownsSlot Date_parse rid sStart sEnd b = true ->
  exists b', findOwn Date_parse rid sStart sEnd bookings = Some b'
             /\ b' ∈ bookings
             /\ ownsSlot Date_parse rid sStart sEnd b' = true.
Proof.
  induction bookings as [|x rest IH]; intros Hin Hown.
  - inversion Hin.
  - simpl. destruct (ownsSlot Date_parse rid sStart sEnd x) eqn:Hx.
    + exists x. split; [reflexivity|]. split; [left|assumption].
    + apply elem_of_cons in Hin as [->|Hin]; [congruence|].
      destruct (IH Hin Hown) as (b' & Hf & Hb' & Ho).
      exists b'. split; [assumption|]. split; [by right|assumption].
Qed.

Lemma findOwn_none Date_parse rid sStart sEnd (bookings : list Booking) :
  (forall b, b ∈ bookings -> ownsSlot Date_parse rid sStart sEnd b = false) ->
  findOwn Date_parse rid sStart sEnd bookings = None.
Proof.
  induction bookings as [|x rest IH]; intros Hall; [reflexivity|].
  simpl. rewrite (Hall x) by left.
  apply IH. intros b Hb. apply Hall. by right.
Qed.

(** C1. A slot whose end instant, [Date.UTC] of the selected day at
    [hour + 1], is at or before the current time has status [past],
    whatever the bookings of the user, the availability set and the
    bookability flag are. *)
Theorem getSlotStatus_past_wins
    (Date_parse : string -> TimeValue) (now : Z) (rid : string) (hour : Z)
    (selectedDate : Date) (userBookings : list Booking)
    (availableSet : gset string) (isBookable : bool) (e : Z) :
  slotEnd selectedDate hour = Some e ->
  e <= now ->
  getSlotStatus Date_parse now rid hour selectedDate userBookings
                availableSet isBookable
  = mkSlotInfo past None.
Proof.
  intros Hend Hle. unfold getSlotStatus. rewrite Hend. simpl.
  destruct (Z.leb_spec e now) as [_|Hlt]; [reflexivity|lia].
Qed.

(** At 10:00 UTC the 9 o'clock slot of r1 is over: it is [past] although
    the map lists it as free, the day is bookable and a booking of the
    user is on the list. *)
Lemma getSlotStatus_past_wins_witness :
  slotKey "r1" 9 ∈ freeSet
  /\ getSlotStatus Date_parse_iso at1000 "r1" 9 nov3 [booking10] freeSet true
     = mkSlotInfo past None.
Proof.
  split.
  - apply (bool_decide_unpack (slotKey "r1" 9 ∈ freeSet)).
    vm_compute. exact I.
  - apply (getSlotStatus_past_wins Date_parse_iso at1000 "r1" 9 nov3
             [booking10] freeSet true at1000).
    + vm_compute. reflexivity.
    + vm_compute. discriminate.
Defined.

(** C2. For a slot that is not past, on a bookable date: when some
    booking on the user's list is for this resource, is [Active] and
    satisfies [bookingStart < slotEnd && bookingEnd > slotStart], the
    status is [yours], not [available], whatever the availability set
    holds. In particular a booking from 10:00 to 11:00 makes the 10
    o'clock slot [yours] although the set lists it, and does not overlap
    the 11 o'clock slot, which stays [available]. *)
Theorem getSlotStatus_yours_precedes
    (Date_parse : string -> TimeValue) (now : Z) (rid : string) (hour : Z)
    (selectedDate : Date) (userBookings : list Booking)
    (availableSet : gset string) (b : Booking) :
  num_le (slotEnd selectedDate hour) (Some now) = false ->
  b ∈ userBookings ->
  resourceId b = rid ->
  bstatus b = "Active" ->
  num_lt (Date_parse (startUtc b)) (slotEnd selectedDate hour) = true ->
  num_lt (slotStart selectedDate hour) (Date_parse (endUtc b)) = true ->
  (status (getSlotStatus Date_parse now rid hour selectedDate userBookings
                         availableSet true) = yours
   /\ status (getSlotStatus Date_parse now rid hour selectedDate userBookings
                            availableSet true) <> available)
  /\ (slotKey "r1" 10 ∈ freeSet
      /\ getSlotStatus Date_parse_iso at0800 "r1" 10 nov3 [booking10]
                       freeSet true
         = mkSlotInfo yours (Some "b1"))
  /\ (overlaps (slotStart nov3 11) (slotEnd nov3 11)
               (Date_parse_iso (startUtc booking10))
               (Date_parse_iso (endUtc booking10)) = false
      /\ getSlotStatus Date_parse_iso at0800 "r1" 11 nov3 [booking10]
                       freeSet true
         = mkSlotInfo available None).
Proof.
  intros Hnp Hin Hrid Hact Hs He.
  split; [|split].
  - assert (Hown : ownsSlot Date_parse rid (slotStart selectedDate hour)
                     (slotEnd selectedDate hour) b = true).
    { unfold ownsSlot, overlaps. rewrite Hs, He.
      rewrite !bool_decide_eq_true_2 by assumption. reflexivity. }
    destruct (findOwn_finds _ _ _ _ _ _ Hin Hown) as (b' & Hf & _ & _).
    unfold getSlotStatus. rewrite Hnp. simpl. rewrite Hf. simpl.
    split; [reflexivity|discriminate].
  - split; [|vm_compute; reflexivity].
    apply (bool_decide_unpack (slotKey "r1" 10 ∈ freeSet)).
    vm_compute. exact I.
  - split; vm_compute; reflexivity.
Qed.

Lemma getSlotStatus_yours_precedes_witness :
  status (getSlotStatus Date_parse_iso at0800 "r1" 10 nov3 [booking10]
                        freeSet true) = yours.
Proof.
  refine (proj1 (proj1 (getSlotStatus_yours_precedes Date_parse_iso at0800
            "r1" 10 nov3 [booking10] freeSet booking10 _ _ _ _ _ _))).
  - vm_compute. reflexivity.
  - left.
  - reflexivity.
  - reflexivity.
  - vm_compute. reflexivity.
  - vm_compute. reflexivity.
Defined.

End SlotGridSpec.

(* ===================================================================== *)
(** * Properties of the booking horizon *)
(* ===================================================================== *)

Module HorizonSpec.
Import JsDate DateNav.

(** The two copies of the test are the same function. *)
Lemma dashboard_isBookableDate_same LocalTZA now date :
  Dashboard.isBookableDate LocalTZA now date = isBookableDate LocalTZA now date.
Proof.
  unfold Dashboard.isBookableDate, isBookableDate, diffDays.
  destruct (midnightOf LocalTZA date), (midnightOf LocalTZA now); reflexivity.
Qed.

(** Only the calendar day of [now] is read, not its time of day. *)
Lemma isBookableDate_time_of_day LocalTZA now now' date :
  getFullYear now' = getFullYear now ->
  getMonth now' = getMonth now ->
  getDate now' = getDate now ->
  isBookableDate LocalTZA now' date = isBookableDate LocalTZA now date.
Proof.
  intros Hy Hm Hd. unfold isBookableDate, diffDays, midnightOf.
  rewrite Hy, Hm, Hd. reflexivity.
Qed.

Lemma TimeClip_Some t v : TimeClip t = Some v -> v = t.
Proof. unfold TimeClip. case_match; congruence. Qed.

(** In a zone whose offset never changes, and for years written with
    more than two digits, the test is the one on whole calendar days. *)
Lemma isBookableDate_fixedZone offset now date t0 t1 :
  midnightOf (fixedZone offset) now = Some t0 ->
  midnightOf (fixedZone offset) date = Some t1 ->
  100 <= getFullYear now ->
  100 <= getFullYear date ->
  isBookableDate (fixedZone offset) now date = true
  <-> 0 <= dayNumber date - dayNumber now <= 3.
Proof.
  intros H0 H1 Hy0 Hy1.
  unfold isBookableDate, diffDays. rewrite H0, H1.
  unfold midnightOf, Date_local, fixedZone in H0, H1.
  apply TimeClip_Some in H0, H1.
  unfold MakeFullYear in H0, H1.
  replace (getFullYear now <=? 99) with false in H0 by (symmetry; apply Z.leb_gt; lia).
  replace (getFullYear date <=? 99) with false in H1 by (symmetry; apply Z.leb_gt; lia).
  rewrite andb_false_r in H0, H1.
  unfold dayNumber.
  set (d0 := MakeDay (getFullYear now) (getMonth now) (getDate now)) in *.
  set (d1 := MakeDay (getFullYear date) (getMonth date) (getDate date)) in *.
  unfold MakeDate, MakeTime, msPerDay, msPerHour, msPerMinute, msPerSecond in H0, H1.
  rewrite andb_true_iff, !Qle_bool_iff.
  unfold Qle. simpl. lia.
Qed.

(** C3. On 30 October 2026 in the US Eastern zone, 2 November is three
    calendar days ahead, yet both copies of [isBookableDate] answer
    false: the night of 1 November lasts 25 hours, local midnights are
    73 hours apart and the quotient by 24 hours exceeds 3. *)
Theorem isBookableDate_day3_after_clock_change :
  dayNumber (localDate 2026 10 2 0 0) - dayNumber (localDate 2026 9 30 9 0) = 3
  /\ midnightOf newYork2026 (localDate 2026 10 2 0 0) = Some 1793595600000
  /\ midnightOf newYork2026 (localDate 2026 9 30 9 0) = Some 1793332800000
  /\ isBookableDate newYork2026 (localDate 2026 9 30 9 0)
                    (localDate 2026 10 2 0 0) = false
  /\ Dashboard.isBookableDate newYork2026 (localDate 2026 9 30 9 0)
                              (localDate 2026 10 2 0 0) = false.
Proof. repeat split; vm_compute; reflexivity. Qed.

(** Elsewhere the boundary days behave as intended: in a zone without
    clock changes today and today + 3 are bookable, today + 4 and
    yesterday are not, at any time of day. *)
Lemma isBookableDate_boundaries_utc :
  isBookableDate (fixedZone 0) (localDate 2026 9 30 23 59)
                 (localDate 2026 9 30 0 0) = true
  /\ isBookableDate (fixedZone 0) (localDate 2026 9 30 23 59)
                    (localDate 2026 10 2 0 0) = true
  /\ isBookableDate (fixedZone 0) (localDate 2026 9 30 0 1)
                    (localDate 2026 10 3 0 0) = false
  /\ isBookableDate (fixedZone 0) (localDate 2026 9 30 0 1)
                    (localDate 2026 9 29 0 0) = false.
Proof. repeat split; vm_compute; reflexivity. Qed.

End HorizonSpec.

(* ===================================================================== *)
(** * Properties of the availability reduction *)
(* ===================================================================== *)

Module AvailabilitySpec.
Import JsDate Availability Samples.

Section Reduction.
Variable Date_parse : string -> TimeValue.

Lemma addHour_listed rid (map : HourMap) h' h R :
  listed (addHour rid map h') h R <-> listed map h R \/ (h = h' /\ R = rid).
Proof.
  unfold listed, addHour.
  destruct (decide (h = h')) as [->|Hne].
  - rewrite lookup_insert_eq. split.
    + intros (set & Hset & HR). injection Hset as <-.
      apply elem_of_union in HR as [HR|HR].
      * apply elem_of_singleton in HR. right. done.
      * left. destruct (map !! pretty h') as [old|] eqn:Hold; simpl in HR.
        -- exists old. done.
        -- set_solver.
    + intros [(set & Hset & HR)|[_ ->]].
      * eexists. split; [reflexivity|]. rewrite Hset. simpl. set_solver.
      * eexists. split; [reflexivity|]. set_solver.
  - assert (pretty h' ≠ pretty h) as Hk.
    { intros Heq. apply Hne. symmetry. by apply (inj pretty). }
    rewrite lookup_insert_ne by exact Hk.
    split; [intros H; by left|].
    intros [H|[Heq _]]; [exact H|contradiction].
Qed.

Lemma foldl_addHour_listed rid (hours : list Z) (map : HourMap) h R :
  listed (foldl (addHour rid) map hours) h R
  <-> listed map h R \/ (R = rid /\ h ∈ hours).
Proof.
  revert map. induction hours as [|h' rest IH]; intros map; simpl.
  - split; [by left|]. intros [H|[_ H]]; [exact H|inversion H].
  - rewrite IH, addHour_listed, elem_of_cons. tauto.
Qed.

Lemma addHours_listed rid s e (map : HourMap) h R :
  listed (addHours rid s e map) h R
  <-> listed map h R \/ (R = rid /\ s <= h < e).
Proof.
  unfold addHours. rewrite foldl_addHour_listed, elem_of_seqZ.
  split; (intros [H|[HR Hh]]; [by left|right; split; [done|lia]]).
Qed.

Lemma reduceSlot_listed rid (map map' : HourMap) ts h R :
  reduceSlot Date_parse rid map ts = Ok map' ->
  listed map' h R <-> listed map h R \/ (R = rid /\ covers Date_parse ts h).
Proof.
  unfold reduceSlot, covers.
  destruct (bool_decide (status ts = "available")) eqn:Hst; simpl.
  - apply bool_decide_eq_true_1 in Hst.
    destruct (startTime ts) as [s|] eqn:Hs; simpl; [|discriminate].
    destruct (endTime ts) as [e|] eqn:He; simpl; [|discriminate].
    destruct (parseHour Date_parse s) as [sh|] eqn:Hsh;
      destruct (parseHour Date_parse e) as [eh|] eqn:Heh;
      intros [= <-].
    + rewrite addHours_listed. split.
      * intros [H|[-> Hh]]; [by left|]. right. split; [done|].
        split; [done|]. exists s, e, sh, eh. done.
      * intros [H|[-> (_ & s' & e' & sh' & eh' & Hs' & He' & Hsh' & Heh' & Hh)]];
          [by left|].
        right. split; [done|]. congruence.
    + split; [by left|].
      intros [H|[_ (_ & s' & e' & sh' & eh' & Hs' & He' & Hsh' & Heh' & _)]];
        [done|congruence].
    + split; [by left|].
      intros [H|[_ (_ & s' & e' & sh' & eh' & Hs' & He' & Hsh' & Heh' & _)]];
        [done|congruence].
    + split; [by left|].
      intros [H|[_ (_ & s' & e' & sh' & eh' & Hs' & He' & Hsh' & Heh' & _)]];
        [done|congruence].
  - apply bool_decide_eq_false_1 in Hst. intros [= <-].
    split; [by left|]. intros [H|[_ [Habs _]]]; [done|contradiction].
Qed.

Lemma forOf_slots_listed rid (slots : list TimeSlotAvailability)
    (map map' : HourMap) h R :
  forOf (reduceSlot Date_parse rid) map slots = Ok map' ->
  listed map' h R
  <-> listed map h R
      \/ (R = rid /\ exists ts, ts ∈ slots /\ covers Date_parse ts h).
Proof.
  revert map. induction slots as [|ts rest IH]; intros map; simpl.
  - intros [= <-]. split; [by left|].
    intros [H|[_ (ts & Hin & _)]]; [done|inversion Hin].
  - destruct (reduceSlot Date_parse rid map ts) as [m1|] eqn:H1; simpl;
      [|discriminate].
    intros Hrest. rewrite (IH _ Hrest), (reduceSlot_listed _ _ _ _ _ _ H1).
    split.
    + intros [[H|[-> Hc]]|[-> (ts' & Hin & Hc)]].
      * by left.
      * right. split; [done|]. exists ts. split; [left|done].
      * right. split; [done|]. exists ts'. split; [by right|done].
    + intros [H|[-> (ts' & Hin & Hc)]]; [by left; left|].
      apply elem_of_cons in Hin as [->|Hin].
      * left. right. done.
      * right. split; [done|]. by exists ts'.
Qed.

Lemma forOf_resources_listed (rs : list ResourceAvailability)
    (map map' : HourMap) h R :
  forOf (reduceResource Date_parse) map rs = Ok map' ->
  listed map' h R
  <-> listed map h R
      \/ exists res ts, res ∈ rs /\ id res = R
           /\ ts ∈ orEmpty (timeSlots res) /\ covers Date_parse ts h.
Proof.
  revert map. induction rs as [|res rest IH]; intros map; simpl.
  - intros [= <-]. split; [by left|].
    intros [H|(res & ts & Hin & _)]; [done|inversion Hin].
  - destruct (reduceResource Date_parse map res) as [m1|] eqn:H1; simpl;
      [|discriminate].
    intros Hrest. unfold reduceResource in H1.
    rewrite (IH _ Hrest), (forOf_slots_listed _ _ _ _ _ _ H1).
    split.
    + intros [[H|[-> (ts & Hin & Hc)]]|(res' & ts & Hin & Hid & Hts & Hc)].
      * by left.
      * right. exists res, ts. split; [left|done].
      * right. exists res', ts. split; [by right|done].
    + intros [H|(res' & ts & Hin & Hid & Hts & Hc)]; [by left; left|].
      apply elem_of_cons in Hin as [->|Hin].
      * left. right. split; [done|]. by exists ts.
      * right. by exists res', ts.
Qed.

Lemma not_listed_empty h R : ~ listed ∅ h R.
Proof. intros (set & Hset & _). by rewrite lookup_empty in Hset. Qed.

(** When the reduction completes, the map lists exactly the hours that
    available slots cover. *)
Lemma availabilityMap_listed apiResult (map : HourMap) h R :
  availabilityMap Date_parse apiResult = Ok map ->
  listed map h R
  <-> exists res ts, res ∈ orEmpty (resources apiResult) /\ id res = R
        /\ ts ∈ orEmpty (timeSlots res) /\ covers Date_parse ts h.
Proof.
  intros Hok. unfold availabilityMap in Hok.
  rewrite (forOf_resources_listed _ _ _ _ _ Hok).
  split; [|by right]. intros [H|H]; [|done]. by apply not_listed_empty in H.
Qed.

(** ** Completion *)

Lemma reduceSlot_completes rid (map : HourMap) ts :
  (status ts = "available" -> is_Some (startTime ts) /\ is_Some (endTime ts)) ->
  exists map', reduceSlot Date_parse rid map ts = Ok map'.
Proof.
  intros Hb. unfold reduceSlot.
  destruct (bool_decide (status ts = "available")) eqn:Hst; simpl;
    [|by eexists].
  apply bool_decide_eq_true_1 in Hst.
  destruct (Hb Hst) as [[s ->] [e ->]]. simpl.
  destruct (parseHour Date_parse s), (parseHour Date_parse e); by eexists.
Qed.

Lemma reduceSlot_throws rid (map : HourMap) ts :
  status ts = "available" ->
  startTime ts = None \/ endTime ts = None ->
  reduceSlot Date_parse rid map ts = Throw TypeError.
Proof.
  intros Hst Hmiss. unfold reduceSlot.
  rewrite bool_decide_eq_true_2 by exact Hst. simpl.
  destruct Hmiss as [->| ->]; [reflexivity|].
  destruct (startTime ts); reflexivity.
Qed.

Lemma forOf_slots_completes rid (slots : list TimeSlotAvailability)
    (map : HourMap) :
  (forall ts, ts ∈ slots -> status ts = "available" ->
              is_Some (startTime ts) /\ is_Some (endTime ts)) ->
  exists map', forOf (reduceSlot Date_parse rid) map slots = Ok map'.
Proof.
  revert map. induction slots as [|ts rest IH]; intros map Hall; simpl.
  - by eexists.
  - destruct (reduceSlot_completes rid map ts) as [m1 ->].
    + apply Hall. left.
    + simpl. apply IH. intros ts' Hin. apply Hall. by right.
Qed.

Lemma forOf_resources_completes (rs : list ResourceAvailability)
    (map : HourMap) :
  (forall res ts, res ∈ rs -> ts ∈ orEmpty (timeSlots res) ->
                  status ts = "available" ->
                  is_Some (startTime ts) /\ is_Some (endTime ts)) ->
  exists map', forOf (reduceResource Date_parse) map rs = Ok map'.
Proof.
  revert map. induction rs as [|res rest IH]; intros map Hall; simpl.
  - by eexists.
  - unfold reduceResource at 1.
    destruct (forOf_slots_completes (id res) (orEmpty (timeSlots res)) map)
      as [m1 ->].
    + intros ts Hin. apply (Hall res ts); [left|exact Hin].
    + simpl. apply IH. intros res' ts Hin. apply Hall. by right.
Qed.

Lemma availabilityMap_completes apiResult :
  boundariesPresent apiResult ->
  exists map, availabilityMap Date_parse apiResult = Ok map.
Proof. intros Hb. apply forOf_resources_completes. exact Hb. Qed.

End Reduction.

(** C4. For a response whose available slots carry their boundaries the
    reduction yields a map, and resource [R] is in the set stored for
    hour [h] exactly when the response holds, for a resource with id
    [R], a slot with status "available" whose extracted start hour is at
    most [h] and whose extracted end hour is above [h]. The hour is
    taken from the [HH:MM] part of a boundary, be it the whole string or
    part of a timestamp, and from the parsed instant (its UTC hour) when
    there is no such part. *)
Theorem availabilityMap_lists_exactly
    (Date_parse : string -> TimeValue) (apiResult : AvailabilityResponse) :
  boundariesPresent apiResult ->
  exists map : HourMap,
    availabilityMap Date_parse apiResult = Ok map
    /\ (forall R h,
          listed map h R
          <-> exists res ts,
                res ∈ orEmpty (resources apiResult) /\ id res = R
                /\ ts ∈ orEmpty (timeSlots res) /\ covers Date_parse ts h)
    /\ parseHour Date_parse "07:00" = Some 7
    /\ parseHour Date_parse "2026-02-20T07:00:00" = Some 7
    /\ (forall t tv,
          matchHHMM (list_ascii_of_string t) = None ->
          Date_parse t = Some tv ->
          parseHour Date_parse t = Some (HourFromTime tv)).
Proof.
  intros Hb.
  destruct (availabilityMap_completes Date_parse apiResult Hb) as [map Hmap].
  exists map. split; [exact Hmap|]. split.
  - intros R h. apply availabilityMap_listed. exact Hmap.
  - split; [reflexivity|]. split; [reflexivity|].
    intros t tv Hno Hp. unfold parseHour. rewrite Hno, Hp. reflexivity.
Qed.

Lemma mixedDay_boundariesPresent : boundariesPresent mixedDay.
Proof.
  intros res ts Hres Hts Hst. simpl in Hres.
  repeat (apply elem_of_cons in Hres as [->|Hres]); [| |inversion Hres];
    simpl in Hts;
    repeat (apply elem_of_cons in Hts as [->|Hts]);
    try (inversion Hts; fail); simpl; split; eexists; reflexivity.
Defined.

Lemma availabilityMap_lists_exactly_witness :
  exists map : HourMap,
    availabilityMap Date_parse_iso mixedDay = Ok map
    /\ (forall R h,
          listed map h R
          <-> exists res ts,
                res ∈ orEmpty (resources mixedDay) /\ id res = R
                /\ ts ∈ orEmpty (timeSlots res) /\ covers Date_parse_iso ts h).
Proof.
  destruct (availabilityMap_lists_exactly Date_parse_iso mixedDay
              mixedDay_boundariesPresent) as (map & Hmap & Hiff & _).
  exists map. split; [exact Hmap|exact Hiff].
Defined.

(** The reduction throws on the response whose available slot has no
    [startTime]: [parseHour] calls [match] on [undefined]. *)
Lemma availabilityMap_throws_without_startTime :
  availabilityMap Date_parse_iso noStartTime = Throw TypeError
  /\ ~ exists map, availabilityMap Date_parse_iso noStartTime = Ok map.
Proof.
  split; [vm_compute; reflexivity|].
  intros [map Hmap]. vm_compute in Hmap. discriminate.
Qed.

(** The reduction throws whenever some slot reported available lacks a
    boundary. *)
Lemma availabilityMap_completes_only_if Date_parse apiResult (map : HourMap) :
  availabilityMap Date_parse apiResult = Ok map ->
  boundariesPresent apiResult.
Proof.
  unfold availabilityMap, boundariesPresent.
  generalize (∅ : HourMap) as m0. generalize (orEmpty (resources apiResult)).
  intros rs. induction rs as [|r rest IH]; intros m0 Hok res ts Hres Hts Hst.
  - inversion Hres.
  - simpl in Hok.
    destruct (reduceResource Date_parse m0 r) as [m1|] eqn:H1; simpl in Hok;
      [|discriminate].
    apply elem_of_cons in Hres as [->|Hres]; [|by eapply IH].
    clear IH Hok. unfold reduceResource in H1. revert m0 H1 Hts.
    generalize (orEmpty (timeSlots r)). intros slots.
    induction slots as [|x xs IHs]; intros m0 H1 Hts; [inversion Hts|].
    simpl in H1.
    destruct (reduceSlot Date_parse (id r) m0 x) as [m2|] eqn:H2; simpl in H1;
      [|discriminate].
    apply elem_of_cons in Hts as [->|Hts]; [|by eapply IHs].
    destruct (startTime x) as [s|] eqn:Hs.
    + destruct (endTime x) as [e|] eqn:He; [split; by eexists|].
      rewrite reduceSlot_throws in H2; [discriminate|exact Hst|by right].
    + rewrite reduceSlot_throws in H2; [discriminate|exact Hst|by left].
Qed.

End AvailabilitySpec.

(* ===================================================================== *)
(** * The availability reduction on the response as it arrives *)
(* ===================================================================== *)

Module WireSpec.
Import JsDate Wire Samples WireSamples.

(** A loop whose body runs through on the good elements and throws on
    the others runs through exactly on the lists of good elements. *)
Lemma forOf_decides {A S} (body : S -> A -> JsResult S) (good : A -> bool) :
  (forall s x,
     if good x then exists s', body s x = Ok s'
     else body s x = Throw TypeError) ->
  forall xs s,
    if forallb good xs then exists s', forOf body s xs = Ok s'
    else forOf body s xs = Throw TypeError.
Proof.
  intros Hbody xs. induction xs as [|x rest IH]; intros s; simpl.
  - by exists s.
  - specialize (Hbody s x). destruct (good x); simpl.
    + destruct Hbody as [s' ->]. simpl. apply IH.
    + by rewrite Hbody.
Qed.

Lemma forallb_indexedFrom {A} (good : A -> bool) (xs : list A) n :
  forallb (fun ix => good (snd ix)) (indexedFrom n xs) = forallb good xs.
Proof.
  revert n. induction xs as [|x rest IH]; intros n; simpl; [done|].
  by rewrite IH.
Qed.

Section Completion.
Context {Num : Type} `{Countable Num}.
Variable isZero : Num -> bool.
Variable Date_parse : string -> TimeValue.

Lemma iterate_orEmpty (v : option (Value Num)) :
  if loopable isZero v
  then iterate (orEmpty isZero v) = Ok (elements v)
  else iterate (orEmpty isZero v) = Throw TypeError.
Proof.
  unfold loopable, orEmpty.
  destruct v as [[|b|x|s|items|fields]|]; simpl; try reflexivity.
  - by destruct b.
  - by destruct (isZero x).
  - destruct (decide (s = "")) as [->|Hne]; [reflexivity|].
    by rewrite (bool_decide_eq_false_2 _ Hne).
Qed.

Lemma reduceSlot_decides rid (map : HourMap Num) ts :
  if slotShaped ts
  then exists map', reduceSlot Date_parse rid map ts = Ok map'
  else reduceSlot Date_parse rid map ts = Throw TypeError.
Proof.
  destruct ts as [|b|x|s|items|fields]; simpl;
    try (by eexists); try reflexivity.
  unfold reduceSlot. simpl.
  destruct (isAvailable (assoc "status" fields)); simpl; [|by eexists].
  destruct (assoc "startTime" fields) as [[|b|x|s|items|fs]|]; simpl;
    try reflexivity.
  destruct (assoc "endTime" fields) as [[|b|x|e|items|fs]|]; simpl;
    try reflexivity.
  destruct (Availability.parseHour Date_parse s),
           (Availability.parseHour Date_parse e); by eexists.
Qed.

Lemma slots_decide rid (map : HourMap Num) (v : option (Value Num)) :
  if loopable isZero v && forallb slotShaped (elements v)
  then exists map',
         (items <-! iterate (orEmpty isZero v) ;;
          forOf (reduceSlot Date_parse rid) map items) = Ok map'
  else (items <-! iterate (orEmpty isZero v) ;;
        forOf (reduceSlot Date_parse rid) map items) = Throw TypeError.
Proof.
  pose proof (iterate_orEmpty v) as Hit.
  destruct (loopable isZero v); rewrite Hit; simpl; [|reflexivity].
  apply forOf_decides. intros s x. apply reduceSlot_decides.
Qed.

Lemma reduceResource_decides (map : HourMap Num) i res :
  if resourceShaped isZero res
  then exists map', reduceResource isZero Date_parse map (i, res) = Ok map'
  else reduceResource isZero Date_parse map (i, res) = Throw TypeError.
Proof.
  unfold resourceShaped, reduceResource.
  destruct res as [|b|x|s|items|fields];
    [reflexivity
    |exact (slots_decide _ map None)..
    |exact (slots_decide _ map (assoc "timeSlots" fields))].
Qed.

Lemma resources_decide (v : option (Value Num)) :
  if loopable isZero v && forallb (resourceShaped isZero) (elements v)
  then exists map,
         (items <-! iterate (orEmpty isZero v) ;;
          forOf (reduceResource isZero Date_parse) ∅ (indexedFrom 0 items))
         = Ok map
  else (items <-! iterate (orEmpty isZero v) ;;
        forOf (reduceResource isZero Date_parse) ∅ (indexedFrom 0 items))
       = Throw TypeError.
Proof.
  pose proof (iterate_orEmpty v) as Hit.
  destruct (loopable isZero v); rewrite Hit; simpl; [|reflexivity].
  rewrite <- (forallb_indexedFrom (resourceShaped isZero) _ 0).
  apply (forOf_decides (reduceResource isZero Date_parse)
           (fun ix => resourceShaped isZero (snd ix))).
  intros s [i res]. apply reduceResource_decides.
Qed.

Lemma availabilityMap_decides (apiResult : Value Num) :
  if responseShaped isZero apiResult
  then exists map, availabilityMap isZero Date_parse apiResult = Ok map
  else availabilityMap isZero Date_parse apiResult = Throw TypeError.
Proof.
  unfold responseShaped, availabilityMap.
  destruct apiResult as [|b|x|s|items|fields];
    [reflexivity
    |exact (resources_decide None)..
    |exact (resources_decide (assoc "resources" fields))].
Qed.

(** *** The typed reduction is this one on the typed responses *)

Lemma encodeMap_addHour rid (map : Availability.HourMap) h :
  encodeMap (Num := Num) (Availability.addHour rid map h)
  = addHour (KStr rid) (encodeMap map) h.
Proof.
  unfold encodeMap, Availability.addHour, addHour. cbv zeta.
  rewrite fmap_insert, lookup_fmap.
  rewrite set_map_union_L, set_map_singleton_L.
  destruct (map !! pretty h); simpl; [reflexivity|].
  by rewrite set_map_empty.
Qed.

Lemma encodeMap_addHours rid s e (map : Availability.HourMap) :
  encodeMap (Num := Num) (Availability.addHours rid s e map)
  = addHours (KStr rid) s e (encodeMap map).
Proof.
  unfold Availability.addHours, addHours.
  generalize (seqZ s (e - s)) as hours. intros hours. revert map.
  induction hours as [|h rest IH]; intros map; simpl; [reflexivity|].
  by rewrite IH, encodeMap_addHour.
Qed.

Lemma reduceSlot_encode rid (map : Availability.HourMap) ts :
  reduceSlot Date_parse (KStr rid) (encodeMap map) (encodeSlot ts)
  = liftResult (Num := Num)
      (Availability.reduceSlot Date_parse rid map ts).
Proof.
  destruct ts as [[a|] [b|] st];
    unfold reduceSlot, Availability.reduceSlot, encodeSlot; simpl;
    destruct (bool_decide (st = "available")); simpl; try reflexivity.
  destruct (Availability.parseHour Date_parse a),
           (Availability.parseHour Date_parse b); simpl;
    by rewrite ?encodeMap_addHours.
Qed.

Lemma forOf_slots_encode rid slots (map : Availability.HourMap) :
  forOf (reduceSlot Date_parse (KStr rid)) (encodeMap map)
        (encodeSlot <$> slots)
  = liftResult (Num := Num)
      (forOf (Availability.reduceSlot Date_parse rid) map slots).
Proof.
  revert map. induction slots as [|ts rest IH]; intros map; simpl;
    [reflexivity|].
  rewrite reduceSlot_encode.
  destruct (Availability.reduceSlot Date_parse rid map ts); simpl;
    [apply IH|reflexivity].
Qed.

Lemma reduceResource_encode i res (map : Availability.HourMap) :
  reduceResource isZero Date_parse (encodeMap map) (i, encodeResource res)
  = liftResult (Num := Num)
      (Availability.reduceResource Date_parse map res).
Proof.
  destruct res as [rid slots].
  unfold reduceResource, Availability.reduceResource, encodeResource. simpl.
  destruct slots as [slots|]; simpl; [|reflexivity].
  apply forOf_slots_encode.
Qed.

Lemma forOf_resources_encode n rs (map : Availability.HourMap) :
  forOf (reduceResource isZero Date_parse) (encodeMap map)
        (indexedFrom n (encodeResource <$> rs))
  = liftResult (Num := Num)
      (forOf (Availability.reduceResource Date_parse) map rs).
Proof.
  revert n map. induction rs as [|res rest IH]; intros n map;
    [reflexivity|].
  change (bindR (reduceResource isZero Date_parse (encodeMap map)
                   (n, encodeResource res))
            (fun s' => forOf (reduceResource isZero Date_parse) s'
                         (indexedFrom (S n) (encodeResource <$> rest)))
          = liftResult (Num := Num)
              (bindR (Availability.reduceResource Date_parse map res)
                 (fun s' => forOf (Availability.reduceResource Date_parse)
                              s' rest))).
  rewrite reduceResource_encode.
  destruct (Availability.reduceResource Date_parse map res); simpl;
    [apply IH|reflexivity].
Qed.

(** On a response of the declared type the reduction on values gives
    what the typed reduction gives: the same map, or the same error. *)
Lemma availabilityMap_encode (r : Availability.AvailabilityResponse) :
  availabilityMap isZero Date_parse (encodeResponse r)
  = liftResult (Num := Num) (Availability.availabilityMap Date_parse r).
Proof.
  destruct r as [rs]. unfold availabilityMap, Availability.availabilityMap.
  unfold encodeResponse. simpl.
  destruct rs as [rs|]; simpl; [|reflexivity].
  rewrite <- (forOf_resources_encode 0 rs ∅).
  unfold encodeMap. by rewrite fmap_empty.
Qed.

End Completion.

(** C10, as the code has it. The reduction throws on a response whose
    [resources] array holds [null], on one whose [timeSlots] array
    holds [null], on one whose [resources] is a number, on one whose
    [timeSlots] is an object, on the body [null], and on one whose
    available slot has no [startTime] or has a number for it. *)
Lemma availabilityMap_throws_on_malformed :
  availabilityMap isZeroZ Date_parse_iso nullResource = Throw TypeError
  /\ availabilityMap isZeroZ Date_parse_iso nullSlot = Throw TypeError
  /\ availabilityMap isZeroZ Date_parse_iso numberForResources
     = Throw TypeError
  /\ availabilityMap isZeroZ Date_parse_iso objectForTimeSlots
     = Throw TypeError
  /\ availabilityMap isZeroZ Date_parse_iso (JNull : Value Z)
     = Throw TypeError
  /\ availabilityMap isZeroZ Date_parse_iso slotWithoutStart
     = Throw TypeError
  /\ availabilityMap isZeroZ Date_parse_iso numberForStart = Throw TypeError
  /\ availabilityMap isZeroZ Date_parse_iso
       (encodeResponse (Num := Z) noStartTime) = Throw TypeError.
Proof. repeat split; reflexivity. Qed.

(** C10, amended. The reduction runs through to a map exactly on the
    responses of this shape, and throws a [TypeError] on every other:
    the response is not [null]; its [resources] is falsy (missing,
    [null], [false], [0], the empty string), a string or an array; no
    element of that array is [null]; the [timeSlots] of each element is
    falsy, a string or an array; no element of that array is [null];
    and each element of it whose [status] is "available" has strings
    for [startTime] and [endTime]. A missing (or otherwise falsy)
    [resources] gives the empty map, a resource whose [timeSlots] is
    missing (or otherwise falsy) leaves the map as it was, and so does
    an available slot one of whose boundaries yields no hour (neither
    an [HH:MM] part nor a parsable instant). *)
Theorem availabilityMap_completes_iff_shaped
    {Num : Type} `{Countable Num}
    (isZero : Num -> bool) (Date_parse : string -> TimeValue)
    (apiResult : Value Num) :
  ((exists map, availabilityMap isZero Date_parse apiResult = Ok map)
   <-> responseShaped isZero apiResult = true)
  /\ (availabilityMap isZero Date_parse apiResult = Throw TypeError
      <-> responseShaped isZero apiResult = false)
  /\ (forall fields,
        truthy isZero (assoc "resources" fields) = false ->
        availabilityMap isZero Date_parse (JObj fields) = Ok ∅)
  /\ (forall (map : HourMap Num) i fields,
        truthy isZero (assoc "timeSlots" fields) = false ->
        reduceResource isZero Date_parse map (i, JObj fields) = Ok map)
  /\ (forall (map : HourMap Num) rid fields s e,
        assoc "status" fields = Some (JStr "available") ->
        assoc "startTime" fields = Some (JStr s) ->
        assoc "endTime" fields = Some (JStr e) ->
        reduceSlot Date_parse rid map (JObj fields)
        = match Availability.parseHour Date_parse s,
                Availability.parseHour Date_parse e with
          | Some sh, Some eh => Ok (addHours rid sh eh map)
          | _, _ => Ok map
          end)
  /\ (forall (map : HourMap Num) rid fields s e,
        assoc "status" fields = Some (JStr "available") ->
        assoc "startTime" fields = Some (JStr s) ->
        assoc "endTime" fields = Some (JStr e) ->
        (Availability.matchHHMM (list_ascii_of_string s) = None
         /\ Date_parse s = None)
        \/ (Availability.matchHHMM (list_ascii_of_string e) = None
            /\ Date_parse e = None) ->
        reduceSlot Date_parse rid map (JObj fields) = Ok map).
Proof.
  pose proof (availabilityMap_decides isZero Date_parse apiResult) as Hd.
  assert (Hslot : forall (map : HourMap Num) rid fields s e,
            assoc "status" fields = Some (JStr "available") ->
            assoc "startTime" fields = Some (JStr s) ->
            assoc "endTime" fields = Some (JStr e) ->
            reduceSlot Date_parse rid map (JObj fields)
            = match Availability.parseHour Date_parse s,
                    Availability.parseHour Date_parse e with
              | Some sh, Some eh => Ok (addHours rid sh eh map)
              | _, _ => Ok map
              end).
  { intros map rid fields s e Hst Hs He. unfold reduceSlot. simpl.
    rewrite Hst, Hs, He. simpl.
    by destruct (Availability.parseHour Date_parse s),
                (Availability.parseHour Date_parse e). }
  split; [|split; [|split; [|split; [|split; [exact Hslot|]]]]].
  - destruct (responseShaped isZero apiResult).
    + by split.
    + rewrite Hd. split; [intros [map Hmap]|]; discriminate.
  - destruct (responseShaped isZero apiResult).
    + destruct Hd as [map ->]. split; discriminate.
    + by split.
  - intros fields Hf. unfold availabilityMap, orEmpty. simpl.
    rewrite Hf. by destruct (assoc "resources" fields).
  - intros map i fields Hf. unfold reduceResource, orEmpty. simpl.
    rewrite Hf. by destruct (assoc "timeSlots" fields).
  - intros map rid fields s e Hst Hs He Hnone.
    rewrite (Hslot map rid fields s e Hst Hs He).
    unfold Availability.parseHour.
    destruct Hnone as [[-> ->]|[-> ->]]; [reflexivity|].
    by destruct (Availability.matchHHMM (list_ascii_of_string s))
         as [[a b]|]; [destruct (number_of [a; b])|destruct (Date_parse s)].
Qed.

(** The odd but harmless response runs through, and lists r1 at 7 and
    8 only. *)
Lemma availabilityMap_completes_iff_shaped_witness :
  (exists map, availabilityMap isZeroZ Date_parse_iso oddDay = Ok map)
  /\ availabilityMap isZeroZ Date_parse_iso oddDay
     = Ok (<["8" := {[KStr "r1"]}]> (<["7" := {[KStr "r1"]}]> ∅)).
Proof.
  split.
  - exact (proj2 (proj1 (availabilityMap_completes_iff_shaped
                           isZeroZ Date_parse_iso oddDay)) eq_refl).
  - vm_compute. reflexivity.
Defined.

End WireSpec.

(* ===================================================================== *)
(** * Properties of the request client *)
(* ===================================================================== *)

Module ApiSpec.
Import Api Samples.

(** ** The token store *)

Lemma getAccessToken_frame st :
  let st' := snd (getAccessToken st) in
  refreshToken st' = refreshToken st /\ window st' = window st
  /\ localStorage st' = localStorage st
  /\ location_href st' = location_href st
  /\ NEXT_PUBLIC_API_URL st' = NEXT_PUBLIC_API_URL st
  /\ calls st' = calls st.
Proof.
  unfold getAccessToken. destruct st as [a r w ls h e cs]; simpl.
  destruct (truthy a); [done|]. destruct w; done.
Qed.

Lemma getRefreshToken_frame st :
  let st' := snd (getRefreshToken st) in
  accessToken st' = accessToken st /\ window st' = window st
  /\ localStorage st' = localStorage st
  /\ location_href st' = location_href st
  /\ NEXT_PUBLIC_API_URL st' = NEXT_PUBLIC_API_URL st
  /\ calls st' = calls st.
Proof.
  unfold getRefreshToken. destruct st as [a r w ls h e cs]; simpl.
  destruct (truthy r); [done|]. destruct w; done.
Qed.

(** What [getRefreshToken] and [getBaseUrl] read. *)
Lemma getRefreshToken_reads st st' :
  refreshToken st' = refreshToken st -> window st' = window st ->
  localStorage st' = localStorage st ->
  fst (getRefreshToken st') = fst (getRefreshToken st).
Proof.
  intros Hr Hw Hl. unfold getRefreshToken. rewrite Hr, Hw, Hl.
  destruct (truthy (refreshToken st)); [done|]. destruct (window st); done.
Qed.

Lemma getBaseUrl_reads st st' :
  window st' = window st ->
  NEXT_PUBLIC_API_URL st' = NEXT_PUBLIC_API_URL st ->
  getBaseUrl st' = getBaseUrl st.
Proof. intros Hw He. unfold getBaseUrl. by rewrite Hw, He. Qed.

(** Reading the refresh token twice gives the same token. *)
Lemma getRefreshToken_again st :
  fst (getRefreshToken (snd (getRefreshToken st))) = fst (getRefreshToken st).
Proof.
  unfold getRefreshToken.
  destruct (truthy (refreshToken st)) eqn:Ht; simpl.
  - by rewrite Ht.
  - destruct (window st) eqn:Hw; simpl.
    + destruct (truthy (localStorage st !! "refreshToken")); simpl;
        [done|by rewrite Hw].
    + by rewrite Ht, Hw.
Qed.

(** After [setTokens] the access token read back is the one stored,
    also when it is the empty string. *)
Lemma getAccessToken_setTokens access refresh st :
  fst (getAccessToken (setTokens access refresh st)) = Some access
  /\ calls (snd (getAccessToken (setTokens access refresh st))) = calls st
  /\ accessToken (snd (getAccessToken (setTokens access refresh st)))
     = Some access
  /\ refreshToken (snd (getAccessToken (setTokens access refresh st)))
     = Some refresh.
Proof.
  unfold getAccessToken, setTokens.
  destruct st as [a r w ls h e cs]; simpl.
  destruct w; simpl; destruct (bool_decide (access = "")) eqn:Ha; simpl;
    try done.
  rewrite lookup_insert_ne by done. rewrite lookup_insert_eq. done.
Qed.

Lemma clearTokens_clears st :
  accessToken (clearTokens st) = None
  /\ refreshToken (clearTokens st) = None
  /\ window (clearTokens st) = window st
  /\ location_href (clearTokens st) = location_href st
  /\ calls (clearTokens st) = calls st
  /\ (window st = true ->
      localStorage (clearTokens st) !! "accessToken" = None
      /\ localStorage (clearTokens st) !! "refreshToken" = None
      /\ localStorage (clearTokens st) !! "user" = None).
Proof.
  unfold clearTokens. destruct st as [a r w ls h e cs]; simpl.
  destruct w; simpl.
  - repeat split; try done.
    + rewrite lookup_delete_ne by done. rewrite lookup_delete_ne by done.
      apply lookup_delete_eq.
    + rewrite lookup_delete_ne by done. apply lookup_delete_eq.
    + apply lookup_delete_eq.
  - repeat split; try done.
Qed.

Lemma setTokens_frame access refresh st :
  window (setTokens access refresh st) = window st
  /\ location_href (setTokens access refresh st) = location_href st
  /\ calls (setTokens access refresh st) = calls st.
Proof.
  unfold setTokens. destruct st as [a r w ls h e cs]; simpl.
  destruct w; done.
Qed.

Section WithRuntime.
Variable Json : Type.
Variable JSON_parse : string -> option Json.
Variable emptyObject : Json.
Variable parseTokens : string -> option (string * string).
Variable network : list Call -> Call -> FetchResult.

Lemma fetch_frame s u i st :
  let st' := snd (fetch network s u i st) in
  accessToken st' = accessToken st /\ refreshToken st' = refreshToken st
  /\ window st' = window st /\ localStorage st' = localStorage st
  /\ location_href st' = location_href st
  /\ NEXT_PUBLIC_API_URL st' = NEXT_PUBLIC_API_URL st
  /\ calls st' = calls st ++ [mkCall s u i].
Proof. done. Qed.

(** [refreshAccessToken] leaves the page where it is. *)
Lemma refreshAccessToken_frame st :
  let st' := snd (refreshAccessToken parseTokens network st) in
  window st' = window st /\ location_href st' = location_href st.
Proof.
  unfold refreshAccessToken.
  destruct (getRefreshToken st) as [rt st1] eqn:Hg.
  pose proof (getRefreshToken_frame st) as (_ & Hw & _ & Hh & _ & _).
  rewrite Hg in Hw, Hh. simpl in Hw, Hh.
  destruct (truthy rt); simpl; [|done].
  destruct (network _ _) as [r|]; simpl.
  - destruct (ok r); simpl.
    + destruct (parseTokens (body r)) as [[a b]|]; simpl.
      * pose proof (setTokens_frame a b
          (withCalls (calls st1 ++
             [mkCall Renewal (getBaseUrl st1 +:+ "/auth/refresh")
                     (refreshInit (show rt))]) st1)) as (Hw' & Hh' & _).
        rewrite Hw', Hh'. done.
      * match goal with
        | |- context [clearTokens ?s] =>
            pose proof (clearTokens_clears s) as (_ & _ & Hw' & Hh' & _)
        end. rewrite Hw', Hh'. done.
    + match goal with
      | |- context [clearTokens ?s] =>
          pose proof (clearTokens_clears s) as (_ & _ & Hw' & Hh' & _)
      end. rewrite Hw', Hh'. done.
  - match goal with
    | |- context [clearTokens ?s] =>
        pose proof (clearTokens_clears s) as (_ & _ & Hw' & Hh' & _)
    end. rewrite Hw', Hh'. done.
Qed.

(** The ways in which renewal fails. *)
Lemma refreshAccessToken_fails st :
  truthy (fst (getRefreshToken st)) = false
  \/ network (calls st) (renewalCall st) = NetworkError
  \/ (exists r, network (calls st) (renewalCall st) = Responded r
                /\ (ok r = false \/ parseTokens (body r) = None)) ->
  fst (refreshAccessToken parseTokens network st) = false.
Proof.
  unfold refreshAccessToken, renewalCall.
  pose proof (getRefreshToken_frame st) as (_ & Hw & _ & _ & He & Hc).
  destruct (getRefreshToken st) as [rt st1] eqn:Hg. simpl in *.
  rewrite (getBaseUrl_reads st st1 Hw He).
  intros [Hno|Hcall].
  - by rewrite Hno.
  - destruct (truthy rt); simpl; [|done]. rewrite Hc.
    destruct Hcall as [->|(r & -> & Hbad)]; simpl; [done|].
    destruct (ok r); simpl; [|done].
    destruct Hbad as [Hbad|Hbad]; [done|]. by rewrite Hbad.
Qed.

(** C9. A response with a 2xx status whose body is empty or is not
    valid JSON makes [handleResponse] resolve with the empty object;
    nothing is thrown. *)
Theorem handleResponse_success_total (response : Response) :
  200 <= status response <= 299 ->
  body response = "" \/ JSON_parse (body response) = None ->
  handleResponse JSON_parse emptyObject response = Resolved emptyObject.
Proof.
  intros [Hlo Hhi] Hbody. unfold handleResponse, ok.
  apply Z.leb_le in Hlo, Hhi. rewrite Hlo, Hhi. simpl.
  destruct Hbody as [->|Hbad].
  - reflexivity.
  - rewrite Hbad. by destruct (bool_decide (body response = "")).
Qed.

(** The state in which [refreshAccessToken] runs after a first answer,
    and what it reads there. *)
Lemma firstAttempt_state u options st :
  let st2 := snd (firstAttempt network u options st) in
  fst (firstAttempt network u options st)
  = network (calls st) (firstCall u options st)
  /\ calls st2 = calls st ++ [firstCall u options st]
  /\ window st2 = window st
  /\ location_href st2 = location_href st
  /\ fst (getRefreshToken st2) = fst (getRefreshToken st)
  /\ getBaseUrl st2 = getBaseUrl st.
Proof.
  unfold firstAttempt, firstCall.
  pose proof (getAccessToken_frame st) as (Hr & Hw & Hl & Hh & He & Hc).
  destruct (getAccessToken st) as [token st1]. simpl in *.
  rewrite Hc. repeat split; try done.
  - apply getRefreshToken_reads; done.
  - apply getBaseUrl_reads; done.
Qed.

Lemma authFetch_unfold u options st :
  authFetch JSON_parse emptyObject parseTokens network u options st
  = let '(res, st2) := firstAttempt network u options st in
    match res with
    | NetworkError => (Rejected ThrownNetwork, st2)
    | Responded response =>
        if status response =? 401 then
          let '(refreshed, st3) := refreshAccessToken parseTokens network st2 in
          if refreshed then
            let '(token', st4) := getAccessToken st3 in
            let '(res', st5) :=
              fetch network Original u
                (withHeaders
                   (retryHeaders options (fst (getAccessToken st)) token')
                   options) st4 in
            match res' with
            | NetworkError => (Rejected ThrownNetwork, st5)
            | Responded response' =>
                (handleResponse JSON_parse emptyObject response', st5)
            end
          else
            let st4 := clearTokens st3 in
            let st5 := if window st4 then withHref "/login" st4 else st4 in
            (Rejected (ThrownApiError sessionExpired), st5)
        else (handleResponse JSON_parse emptyObject response, st2)
    end.
Proof.
  unfold authFetch, firstAttempt.
  destruct (getAccessToken st) as [token st1]. reflexivity.
Qed.

(** C5. When the first answer to a request sent through [authFetch]
    has status 401: with a refresh token in store and a renewal call
    that succeeds, the calls made are the first attempt, one renewal
    call and one second attempt carrying the new access token, and the
    answer to the second attempt decides the outcome; with no refresh
    token in store the first attempt is the only call and the outcome
    is the Session Expired error. *)
Theorem authFetch_renews_once_and_retries_once
    (u : string) (options : RequestInit) (st : Session) (r1 : Response) :
  network (calls st) (firstCall u options st) = Responded r1 ->
  status r1 = 401 ->
  (forall r2 access refresh,
      truthy (fst (getRefreshToken st)) = true ->
      network (calls st ++ [firstCall u options st]) (renewalCall st)
      = Responded r2 ->
      ok r2 = true ->
      parseTokens (body r2) = Some (access, refresh) ->
      let c1 := firstCall u options st in
      let c2 := renewalCall st in
      let c3 := retryCall u options st access in
      let res := authFetch JSON_parse emptyObject parseTokens network
                           u options st in
      calls (snd res) = calls st ++ [c1; c2; c3]
      /\ callsOf Renewal [c1; c2; c3] = [c2]
      /\ callsOf Original [c1; c2; c3] = [c1; c3]
      /\ headers (init c3) !! "Authorization" = Some ("Bearer " +:+ access)
      /\ fst res
         = match network (calls st ++ [c1; c2]) c3 with
           | Responded r3 => handleResponse JSON_parse emptyObject r3
           | NetworkError => Rejected ThrownNetwork
           end)
  /\ (truthy (fst (getRefreshToken st)) = false ->
      let res := authFetch JSON_parse emptyObject parseTokens network
                           u options st in
      calls (snd res) = calls st ++ [firstCall u options st]
      /\ callsOf Renewal (calls st ++ [firstCall u options st])
         = callsOf Renewal (calls st)
      /\ fst res = Rejected (ThrownApiError sessionExpired)).
Proof.
  intros H1 H401.
  pose proof (firstAttempt_state u options st)
    as (Hres & Hc2 & Hw2 & Hh2 & Hrt2 & Hb2).
  split.
  - intros r2 access refresh Hrt Hn2 Hok Htok c1 c2 c3 res.
    subst res. rewrite authFetch_unfold.
    destruct (firstAttempt network u options st) as [res st2].
    simpl in Hres, Hc2, Hw2, Hh2, Hrt2, Hb2.
    rewrite Hres, H1, H401. simpl.
    unfold refreshAccessToken.
    pose proof (getRefreshToken_frame st2) as (Ha3 & Hw3 & Hl3 & Hh3 & He3 & Hc3).
    pose proof (getRefreshToken_again st2) as Hagain.
    destruct (getRefreshToken st2) as [rt st3] eqn:Hg.
    simpl in Ha3, Hw3, Hl3, Hh3, He3, Hc3, Hagain, Hrt2.
    rewrite Hrt2, Hrt. simpl.
    rewrite (getBaseUrl_reads st2 st3 Hw3 He3), Hb2.
    rewrite Hc3, Hc2. fold (renewalCall st).
    fold c1 c2. fold c1 in Hn2. fold c2 in Hn2. rewrite Hn2, Hok. simpl.
    rewrite Htok.
    match goal with
    | |- context [getAccessToken (setTokens access refresh ?s)] =>
        pose proof (getAccessToken_setTokens access refresh s)
          as (Htok' & Hc4 & _ & _);
        destruct (getAccessToken (setTokens access refresh s))
          as [token' st4]
    end.
    simpl in Htok', Hc4. subst token'. unfold fetch. simpl.
    rewrite Hc4. fold (retryCall u options st access). fold c3.
    replace ((calls st ++ [c1]) ++ [c2]) with (calls st ++ [c1; c2])
      by (by rewrite <- app_assoc).
    split.
    { destruct (network (calls st ++ [c1; c2]) c3); simpl;
        by rewrite <- app_assoc. }
    split; [reflexivity|]. split; [reflexivity|].
    split; [apply lookup_insert_eq|].
    destruct (network (calls st ++ [c1; c2]) c3); reflexivity.
  - intros Hno res. subst res. rewrite authFetch_unfold.
    destruct (firstAttempt network u options st) as [res st2].
    simpl in Hres, Hc2, Hw2, Hh2, Hrt2, Hb2.
    rewrite Hres, H1, H401. simpl.
    unfold refreshAccessToken.
    pose proof (getRefreshToken_frame st2) as (Ha3 & Hw3 & Hl3 & Hh3 & He3 & Hc3).
    destruct (getRefreshToken st2) as [rt st3] eqn:Hg.
    simpl in Ha3, Hw3, Hl3, Hh3, He3, Hc3, Hrt2.
    rewrite Hrt2, Hno. simpl.
    pose proof (clearTokens_clears st3) as (_ & _ & Hw4 & _ & Hc4 & _).
    split.
    + destruct (window (clearTokens st3)); simpl; by rewrite Hc4, Hc3, Hc2.
    + split; [|reflexivity].
      unfold callsOf. rewrite filter_app. simpl.
      rewrite filter_cons_False by (simpl; discriminate).
      rewrite filter_nil. apply app_nil_r.
Qed.

(** C6, amended. When renewal after a 401 fails, [authFetch] clears the
    two tokens, rejects with the Session Expired error and, where a
    [window] exists, removes the stored tokens and the stored user from
    [localStorage] and sends the page to "/login" itself; only where no
    [window] exists does the location stay as it was. *)
Theorem authFetch_failed_renewal_clears_and_redirects
    (u : string) (options : RequestInit) (st : Session) (r1 : Response) :
  network (calls st) (firstCall u options st) = Responded r1 ->
  status r1 = 401 ->
  fst (refreshAccessToken parseTokens network
         (snd (firstAttempt network u options st))) = false ->
  let res := authFetch JSON_parse emptyObject parseTokens network
                       u options st in
  fst res = Rejected (ThrownApiError sessionExpired)
  /\ accessToken (snd res) = None
  /\ refreshToken (snd res) = None
  /\ (window st = true ->
      localStorage (snd res) !! "accessToken" = None
      /\ localStorage (snd res) !! "refreshToken" = None
      /\ localStorage (snd res) !! "user" = None
      /\ location_href (snd res) = "/login")
  /\ (window st = false -> location_href (snd res) = location_href st).
Proof.
  intros H1 H401 Hfail res. subst res. rewrite authFetch_unfold.
  pose proof (firstAttempt_state u options st)
    as (Hres & Hc2 & Hw2 & Hh2 & Hrt2 & Hb2).
  destruct (firstAttempt network u options st) as [res st2].
  simpl in Hres, Hc2, Hw2, Hh2, Hrt2, Hb2, Hfail.
  rewrite Hres, H1, H401. simpl.
  pose proof (refreshAccessToken_frame st2) as [Hw3 Hh3].
  destruct (refreshAccessToken parseTokens network st2) as [refreshed st3].
  simpl in Hfail, Hw3, Hh3. subst refreshed.
  pose proof (clearTokens_clears st3) as (Ha & Hr & Hw4 & Hh4 & _ & Hls).
  rewrite Hw4, Hw3, Hw2. rewrite Hw3, Hw2 in Hls.
  destruct (window st) eqn:Hw; simpl.
  - split; [done|]. split; [done|]. split; [done|].
    split; [|done]. intros _. destruct (Hls eq_refl) as (? & ? & ?). done.
  - split; [done|]. split; [done|]. split; [done|].
    split; [done|]. intros _. by rewrite Hh4, Hh3, Hh2.
Qed.

End WithRuntime.

Lemma handleResponse_success_total_witness :
  handleResponse parseBraced "{}" (mkResponse 204 "No Content" "") = Resolved "{}"
  /\ handleResponse parseBraced "{}" (mkResponse 200 "OK" "<html>") = Resolved "{}".
Proof.
  split.
  - apply (handleResponse_success_total string parseBraced "{}"
             (mkResponse 204 "No Content" "")).
    + simpl. lia.
    + left. reflexivity.
  - apply (handleResponse_success_total string parseBraced "{}"
             (mkResponse 200 "OK" "<html>")).
    + simpl. lia.
    + right. reflexivity.
Defined.

(** A session holding a refresh token renews once and retries once; a
    session without one makes no renewal call. *)
Lemma authFetch_renews_once_and_retries_once_witness :
  (let res := authFetch parseBraced "{}" parseRenewed renewingServer
                        "/api/bookings/user/u1" getBookings signedIn in
   calls (snd res)
   = calls signedIn
     ++ [firstCall "/api/bookings/user/u1" getBookings signedIn;
         renewalCall signedIn;
         retryCall "/api/bookings/user/u1" getBookings signedIn "new-access"])
  /\ (let res := authFetch parseBraced "{}" parseRenewed renewingServer
                           "/api/bookings/user/u1" getBookings noRefreshToken in
      calls (snd res)
      = calls noRefreshToken
        ++ [firstCall "/api/bookings/user/u1" getBookings noRefreshToken]
      /\ fst res = Rejected (ThrownApiError sessionExpired)).
Proof.
  split.
  - destruct (authFetch_renews_once_and_retries_once string parseBraced "{}"
                parseRenewed renewingServer "/api/bookings/user/u1"
                getBookings signedIn (mkResponse 401 "Unauthorized" ""))
      as [HA _]; [vm_compute; reflexivity|reflexivity|].
    destruct (HA (mkResponse 200 "OK" "renewed") "new-access" "new-refresh")
      as [Hcalls _]; [vm_compute; reflexivity|vm_compute; reflexivity
                     |reflexivity|reflexivity|].
    exact Hcalls.
  - destruct (authFetch_renews_once_and_retries_once string parseBraced "{}"
                parseRenewed renewingServer "/api/bookings/user/u1"
                getBookings noRefreshToken (mkResponse 401 "Unauthorized" ""))
      as [_ HB]; [vm_compute; reflexivity|reflexivity|].
    destruct HB as (Hcalls & _ & Hout); [vm_compute; reflexivity|].
    split; [exact Hcalls|exact Hout].
Defined.

(** C6, as the code has it. In a browser, a 401 with no refresh token
    in store ends with the page sent from the dashboard to "/login" by
    [authFetch] itself. *)
Lemma authFetch_redirects_to_login :
  let res := authFetch parseBraced "{}" parseRenewed refusingServer
                       "/api/bookings/user/u1" getBookings noRefreshToken in
  fst res = Rejected (ThrownApiError sessionExpired)
  /\ location_href noRefreshToken = "/dashboard"
  /\ location_href (snd res) = "/login"
  /\ location_href (snd res) <> location_href noRefreshToken.
Proof.
  vm_compute. repeat split; discriminate.
Qed.

Lemma authFetch_failed_renewal_clears_and_redirects_witness :
  let res := authFetch parseBraced "{}" parseRenewed refusingServer
                       "/api/bookings/user/u1" getBookings signedIn in
  fst res = Rejected (ThrownApiError sessionExpired)
  /\ accessToken (snd res) = None
  /\ refreshToken (snd res) = None.
Proof.
  destruct (authFetch_failed_renewal_clears_and_redirects string parseBraced
              "{}" parseRenewed refusingServer "/api/bookings/user/u1"
              getBookings signedIn (mkResponse 401 "Unauthorized" ""))
    as (Hout & Ha & Hr & _); [vm_compute; reflexivity|reflexivity
                             |vm_compute; reflexivity|].
  split; [exact Hout|]. split; [exact Ha|exact Hr].
Defined.

End ApiSpec.

(* ===================================================================== *)
(** * Properties of the invalidation after a booking *)
(* ===================================================================== *)

Module FlowSpec.
Import Hooks BookingDialog Samples.

Section Cache.
Context {P : Type}.
Implicit Types (cache : Cache P) (key : Key).

Lemma revalidationsOf_mutateMatching filter cache key :
  revalidationsOf key (mutateMatching filter cache)
  = if filter key && bool_decide (key ∈ map fst cache)
    then S (revalidationsOf key cache)
    else revalidationsOf key cache.
Proof.
  induction cache as [|[k e] rest IH]; simpl.
  - by rewrite andb_false_r.
  - destruct (decide (k = key)) as [->|Hne].
    + rewrite (bool_decide_eq_true_2 (key ∈ key :: map fst rest)) by left.
      rewrite andb_true_r.
      destruct (filter key); simpl; by rewrite bool_decide_eq_true_2.
    + assert (bool_decide (key ∈ k :: map fst rest) = bool_decide (key ∈ map fst rest))
        as ->.
      { apply bool_decide_ext. rewrite elem_of_cons.
        split; [intros [Heq|Hin]; [by subst|exact Hin]|by right]. }
      destruct (filter k); simpl; by rewrite bool_decide_eq_false_2.
Qed.

Lemma dataOf_mutateMatching filter cache key :
  dataOf key (mutateMatching filter cache)
  = if filter key then None else dataOf key cache.
Proof.
  induction cache as [|[k e] rest IH]; simpl.
  - by destruct (filter key).
  - destruct (decide (k = key)) as [->|Hne].
    + destruct (filter key); simpl; by rewrite bool_decide_eq_true_2.
    + destruct (filter k); simpl; by rewrite bool_decide_eq_false_2.
Qed.

Lemma keys_mutateMatching filter cache :
  map fst (mutateMatching filter cache) = map fst cache.
Proof.
  induction cache as [|[k e] rest IH]; simpl; [done|].
  rewrite IH. by destruct (filter k).
Qed.

Lemma revalidationsOf_mutateKey key' value cache key :
  revalidationsOf key (mutateKey key' value cache) = revalidationsOf key cache.
Proof.
  induction cache as [|[k e] rest IH]; simpl.
  - by destruct (bool_decide (key' = key)).
  - destruct (decide (k = key')) as [->|Hne].
    + rewrite bool_decide_eq_true_2 by done. simpl.
      by destruct (bool_decide (key' = key)).
    + rewrite bool_decide_eq_false_2 by done. simpl.
      by destruct (bool_decide (k = key)).
Qed.

Lemma dataOf_mutateKey key' value cache key :
  dataOf key (mutateKey key' value cache)
  = if bool_decide (key' = key) then Some value else dataOf key cache.
Proof.
  induction cache as [|[k e] rest IH]; simpl.
  - by destruct (bool_decide (key' = key)).
  - destruct (decide (k = key')) as [->|Hne].
    + rewrite bool_decide_eq_true_2 by done. simpl.
      by destruct (bool_decide (key' = key)).
    + rewrite bool_decide_eq_false_2 by done. simpl.
      destruct (decide (k = key)) as [->|Hne'].
      * rewrite bool_decide_eq_true_2 by done.
        by rewrite bool_decide_eq_false_2 by done.
      * rewrite (bool_decide_eq_false_2 (k = key)) by done. apply IH.
Qed.

(** No key passes both filters. *)
Lemma filters_disjoint t key :
  bookingsFilter key = true -> resourcesFilter (Some t) key = false.
Proof.
  destruct key as [[|[s|n] parts]|s]; simpl; try done.
  destruct (decide (s = "resources")) as [->|Hne]; [done|].
  by rewrite (bool_decide_eq_false_2 (s = "resources")).
Qed.

End Cache.

(** C7, as the code has it. After a confirmed booking of a Room, the
    cached availability of Rooms for 4 November has been asked no
    revalidation and still holds its data, while the Room catalogue
    entry, which is neither a booking-ledger nor an availability entry,
    has been revalidated. *)
Lemma handleConfirm_leaves_availability_entries :
  let cache' := snd (handleConfirm 1793700000000 (Some roomA) Created
                                   openDialog warmCache) in
  revalidationsOf (availabilityKey Room "2026-11-04") cache' = 0%nat
  /\ dataOf (availabilityKey Room "2026-11-04") cache'
     = Some (Fetched "day 4")
  /\ revalidationsOf (resourcesKey Room 100) warmCache = 0%nat
  /\ revalidationsOf (resourcesKey Room 100) cache' = 1%nat.
Proof. vm_compute. repeat split. Qed.

(** C7, amended. A confirmed booking of resource [r] asks one
    revalidation of every cached entry whose key opens with
    "user-bookings" or "available-resources" and of every "resources"
    entry of the type of [r], writes the current time into the
    refresh-signal entry, and asks no revalidation of any other entry;
    the "availability" entries are among those it leaves alone. *)
Theorem handleConfirm_invalidates {P : Type} (now : Z) (r : Resource)
    (ui : Dialog) (cache : Cache P) (key : Key) :
  let cache' := snd (handleConfirm now (Some r) Created ui cache) in
  (flowFilter (type r) key = true -> key ∈ map fst cache ->
   revalidationsOf key cache' = S (revalidationsOf key cache)
   /\ dataOf key cache' = None)
  /\ (flowFilter (type r) key = false ->
      revalidationsOf key cache' = revalidationsOf key cache
      /\ (key <> refreshSignalKey -> dataOf key cache' = dataOf key cache))
  /\ dataOf refreshSignalKey cache' = Some (Stamp now)
  /\ (forall userId pageNumber pageSize,
        flowFilter (type r) (userBookingsKey userId pageNumber pageSize) = true)
  /\ (forall t startUtc endUtc,
        flowFilter (type r) (availableResourcesKey t startUtc endUtc) = true)
  /\ (forall t pageSize,
        flowFilter (type r) (resourcesKey t pageSize)
        = bool_decide (t = type r))
  /\ (forall t dateStr,
        flowFilter (type r) (availabilityKey t dateStr) = false)
  /\ flowFilter (type r) refreshSignalKey = false.
Proof.
  simpl. unfold invalidateResources, invalidateBookings.
  split; [|split; [|split; [|split; [|split; [|split; [|split]]]]]].
  - intros Hf Hin. unfold flowFilter in Hf.
    rewrite revalidationsOf_mutateKey, dataOf_mutateKey.
    rewrite !revalidationsOf_mutateMatching, !dataOf_mutateMatching.
    rewrite keys_mutateMatching.
    rewrite (bool_decide_eq_true_2 _ Hin), !andb_true_r.
    assert (refreshSignalKey <> key) as Hsig.
    { intros <-. simpl in Hf. discriminate. }
    rewrite (bool_decide_eq_false_2 _ Hsig).
    destruct (bookingsFilter key) eqn:Hb.
    + rewrite (filters_disjoint (type r) key Hb). done.
    + simpl in Hf. rewrite Hf. done.
  - intros Hf. unfold flowFilter in Hf.
    apply orb_false_iff in Hf as [Hb Hr].
    rewrite revalidationsOf_mutateKey, dataOf_mutateKey.
    rewrite !revalidationsOf_mutateMatching, !dataOf_mutateMatching.
    rewrite Hb, Hr. simpl. split; [done|].
    intros Hsig. by rewrite bool_decide_eq_false_2.
  - rewrite dataOf_mutateKey. by rewrite bool_decide_eq_true_2.
  - done.
  - done.
  - intros t pageSize. unfold flowFilter. simpl.
    destruct t, (type r); done.
  - done.
  - done.
Qed.

Lemma handleConfirm_invalidates_witness :
  let cache' := snd (handleConfirm 1793700000000 (Some roomA) Created
                                   openDialog warmCache) in
  revalidationsOf (userBookingsKey "u1" 1 100) cache' = 1%nat
  /\ revalidationsOf (availabilityKey Room "2026-11-03") cache' = 0%nat.
Proof.
  destruct (handleConfirm_invalidates 1793700000000 roomA openDialog
              warmCache (userBookingsKey "u1" 1 100)) as (Hyes & _).
  destruct (handleConfirm_invalidates 1793700000000 roomA openDialog
              warmCache (availabilityKey Room "2026-11-03")) as (_ & Hno & _).
  split.
  - destruct Hyes as [Hyes _]; [reflexivity|vm_compute; left|exact Hyes].
  - destruct Hno as [Hno _]; [reflexivity|exact Hno].
Defined.

(** A failed booking leaves the cache as it was. *)
Lemma handleConfirm_failure_keeps_cache {P : Type} now r e ui (cache : Cache P) :
  snd (handleConfirm now (Some r) (RejectedApi e) ui cache) = cache
  /\ snd (handleConfirm now (Some r) RejectedOther ui cache) = cache.
Proof. done. Qed.

End FlowSpec.

(* ===================================================================== *)
(** * Properties of the effect on the number of bookings *)
(* ===================================================================== *)

Module DashboardSpec.
Import Dashboard.

Lemma runEffect_lookup (obs : list (option nat)) (prev : option nat) i o :
  obs !! i = Some o ->
  exists p,
    match i with
    | O => p = prev
    | S j => obs !! j = Some p
    end
    /\ runEffect prev obs !! i = Some (fst (bookingsCountEffect p o)).
Proof.
  revert prev i. induction obs as [|x rest IH]; intros prev i Hi.
  - by rewrite lookup_nil in Hi.
  - destruct i as [|i]; simpl in *.
    + injection Hi as ->. by exists prev.
    + destruct (IH x i Hi) as (p & Hp & Hrun).
      exists p. split; [|exact Hrun].
      destruct i as [|j]; simpl; [by subst|exact Hp].
Qed.

Lemma runEffect_after_null (obs : list (option nat)) i o :
  obs !! i = Some o ->
  match i with
  | O => True
  | S j => obs !! j = Some None
  end ->
  observe obs !! i = Some false.
Proof.
  intros Hi Hprev.
  destruct (runEffect_lookup obs None i o Hi) as (p & Hp & Hrun).
  unfold observe. rewrite Hrun. f_equal.
  assert (p = None) as ->.
  { destruct i as [|j]; [exact Hp|congruence]. }
  reflexivity.
Qed.

(** C8, as the code has it. The bookings show 3, then the ledger holds no
    data for one render, then they show 5: the effect fires at the gap,
    where no count is observed, and stays silent at the 5 that follows,
    though 5 differs both from the observation before it and from the
    last count seen. So the effect does not fire at every change of the
    observed count. *)
Lemma bookingsCountEffect_silent_after_gap :
  observe [Some 3%nat; None; Some 5%nat] = [false; true; false]
  /\ ~ (forall (obs : list (option nat)) i o,
          obs !! i = Some o ->
          observe obs !! i
          = Some match i with
                 | O => false
                 | S j => bool_decide (obs !! j <> Some o)
                 end).
Proof.
  split; [reflexivity|].
  intros H.
  specialize (H [Some 3%nat; None; Some 5%nat] 2%nat (Some 5%nat) eq_refl).
  vm_compute in H. discriminate.
Qed.

(** C8, amended. Over every sequence of observations, each a count or
    null (no data), the effect revalidates availability at an
    observation exactly when the observation just before it was a count
    and the new observation, a count or null, differs from that count.
    It never fires when two successive observations agree, at the
    observation that follows a null, or at the first observation; it
    fires once per observation at most, and not at all while the
    observation stays the same. *)
Theorem bookingsCountEffect_fires_on_change_from_count
    (obs : list (option nat)) (i : nat) (o : option nat) :
  obs !! i = Some o ->
  observe obs !! i
  = Some match i with
         | O => false
         | S j => match obs !! j with
                  | Some (Some p) => bool_decide (o <> Some p)
                  | _ => false
                  end
         end
  /\ length (observe obs) = length obs
  /\ (forall k q,
        obs !! k = Some q -> obs !! S k = Some q ->
        observe obs !! S k = Some false)
  /\ (forall k q,
        obs !! k = Some None -> obs !! S k = Some q ->
        observe obs !! S k = Some false)
  /\ (forall (q : option nat) rest, observe (q :: rest) !! 0%nat = Some false)
  /\ (forall (q : option nat) n,
        observe (replicate n q) = replicate n false).
Proof.
  intros Hi. split; [|split; [|split; [|split; [|split]]]].
  - destruct (runEffect_lookup obs None i o Hi) as (p & Hp & Hrun).
    unfold observe. rewrite Hrun. f_equal.
    destruct i as [|j]; [by subst|]. rewrite Hp.
    destruct p as [p|]; [|reflexivity]. unfold bookingsCountEffect. simpl.
    destruct (decide (o = Some p)) as [->|Hne].
    + rewrite (bool_decide_eq_true_2 (Some p = Some p)) by done.
      by rewrite bool_decide_eq_false_2 by (intros H; by apply H).
    + rewrite (bool_decide_eq_false_2 (o = Some p)) by done.
      by rewrite bool_decide_eq_true_2 by done.
  - unfold observe. clear Hi. generalize (@None nat) as prev.
    induction obs as [|x rest IH]; intros prev; [done|].
    unfold bookingsCountEffect in *. simpl. f_equal. apply IH.
  - intros k q Hk HSk.
    destruct (runEffect_lookup _ None _ _ HSk) as (p & Hp & Hrun).
    unfold observe. rewrite Hrun. f_equal. simpl in Hp.
    assert (p = q) as -> by congruence. simpl.
    rewrite (bool_decide_eq_true_2 (q = q)) by done. apply andb_false_r.
  - intros k q Hk HSk. by apply (runEffect_after_null obs (S k) q).
  - done.
  - intros q n. unfold observe. destruct n as [|n]; [done|]. simpl. f_equal.
    induction n as [|n IH]; [done|]. simpl.
    rewrite (bool_decide_eq_true_2 (q = q)) by done.
    rewrite andb_false_r. by rewrite IH.
Qed.

(** Two renders without data, the counts 2, 2, 3, a render without data,
    then 3 and 4: the effect fires when 3 follows 2, at the gap after 3,
    and when 4 follows 3; it is silent at the 3 that follows the gap. *)
Lemma bookingsCountEffect_fires_on_change_from_count_witness :
  observe [None; None; Some 2; Some 2; Some 3; None; Some 3; Some 4]%nat
    !! 4%nat = Some true
  /\ observe [None; None; Some 2; Some 2; Some 3; None; Some 3; Some 4]%nat
     = [false; false; false; false; true; true; false; true].
Proof.
  split; [|reflexivity].
  exact (proj1 (bookingsCountEffect_fires_on_change_from_count
                  [None; None; Some 2; Some 2; Some 3; None; Some 3; Some 4]%nat
                  4 (Some 3%nat) eq_refl)).
Defined.

End DashboardSpec.

(* ===================================================================== *)
(** * Further properties of the slot status *)
(* ===================================================================== *)

Module SlotGridLaws.
Import JsDate SlotGrid Samples MoreSamples.

Lemma findOwn_owner Date_parse rid sStart sEnd (bookings : list Booking) b :
  findOwn Date_parse rid sStart sEnd bookings = Some b ->
  b ∈ bookings /\ ownsSlot Date_parse rid sStart sEnd b = true.
Proof.
  induction bookings as [|x rest IH]; simpl; [discriminate|].
  destruct (ownsSlot Date_parse rid sStart sEnd x) eqn:Hx.
  - intros [= <-]. split; [left|exact Hx].
  - intros Hf. destruct (IH Hf) as [Hin Ho]. split; [by right|exact Ho].
Qed.

Lemma findOwn_None_all Date_parse rid sStart sEnd (bookings : list Booking) :
  findOwn Date_parse rid sStart sEnd bookings = None ->
  forall b, b ∈ bookings -> ownsSlot Date_parse rid sStart sEnd b = false.
Proof.
  induction bookings as [|x rest IH]; simpl; intros Hf b Hb.
  - inversion Hb.
  - destruct (ownsSlot Date_parse rid sStart sEnd x) eqn:Hx; [discriminate|].
    apply elem_of_cons in Hb as [->|Hb]; [exact Hx|by apply IH].
Qed.

(** The five statuses, each with the exact condition under which
    [getSlotStatus] gives it: [past] when the slot has ended;
    otherwise [disabled] when the date is not bookable; otherwise
    [yours] when some listed booking owns the slot; otherwise
    [available] or [unavailable] as the set holds the key or not. *)
Theorem getSlotStatus_decision
    (Date_parse : string -> TimeValue) (now : Z) (rid : string) (hour : Z)
    (selectedDate : Date) (userBookings : list Booking)
    (availableSet : gset string) (isBookable : bool) :
  let s := status (getSlotStatus Date_parse now rid hour selectedDate
                                 userBookings availableSet isBookable) in
  let ended := num_le (slotEnd selectedDate hour) (Some now) in
  let owned := exists b, b ∈ userBookings
                 /\ ownsSlot Date_parse rid (slotStart selectedDate hour)
                             (slotEnd selectedDate hour) b = true in
  (s = past <-> ended = true)
  /\ (s = disabled <-> ended = false /\ isBookable = false)
  /\ (s = yours <-> ended = false /\ isBookable = true /\ owned)
  /\ (s = available <->
      ended = false /\ isBookable = true /\ ~ owned
      /\ slotKey rid hour ∈ availableSet)
  /\ (s = unavailable <->
      ended = false /\ isBookable = true /\ ~ owned
      /\ slotKey rid hour ∉ availableSet).
Proof.
  intros s ended owned. subst s ended. unfold getSlotStatus.
  destruct (num_le (slotEnd selectedDate hour) (Some now)) eqn:Hp; simpl.
  { clearbody owned. intuition (discriminate || congruence). }
  destruct isBookable; simpl.
  2:{ clearbody owned. intuition (discriminate || congruence). }
  destruct (findOwn Date_parse rid (slotStart selectedDate hour)
              (slotEnd selectedDate hour) userBookings) as [b|] eqn:Hf; simpl.
  - apply findOwn_owner in Hf as [Hin Ho].
    assert (owned) as Hown by (by exists b).
    clearbody owned. intuition (discriminate || congruence).
  - assert (~ owned) as Hno.
    { intros (b & Hin & Ho).
      rewrite (findOwn_None_all _ _ _ _ _ Hf b Hin) in Ho. discriminate. }
    clearbody owned.
    destruct (decide (slotKey rid hour ∈ availableSet)) as [Hk|Hk].
    + rewrite bool_decide_eq_true_2 by exact Hk. simpl.
      intuition (discriminate || congruence).
    + rewrite bool_decide_eq_false_2 by exact Hk. simpl.
      intuition (discriminate || congruence).
Qed.

(** When several listed bookings own a slot, the one that comes first
    in the list gives the [bookingId]; and only [yours] carries a
    [bookingId]. *)
Theorem getSlotStatus_names_first_owner
    (Date_parse : string -> TimeValue) (now : Z) (rid : string) (hour : Z)
    (selectedDate : Date) (before after : list Booking) (b : Booking)
    (availableSet : gset string) :
  num_le (slotEnd selectedDate hour) (Some now) = false ->
  (forall x, x ∈ before ->
     ownsSlot Date_parse rid (slotStart selectedDate hour)
              (slotEnd selectedDate hour) x = false) ->
  ownsSlot Date_parse rid (slotStart selectedDate hour)
           (slotEnd selectedDate hour) b = true ->
  getSlotStatus Date_parse now rid hour selectedDate (before ++ b :: after)
                availableSet true
  = mkSlotInfo yours (Some (id b))
  /\ (forall bookings set bookable,
        status (getSlotStatus Date_parse now rid hour selectedDate bookings
                              set bookable) <> yours ->
        bookingId (getSlotStatus Date_parse now rid hour selectedDate bookings
                                 set bookable) = None).
Proof.
  intros Hnp Hbefore Hb. split.
  - unfold getSlotStatus. rewrite Hnp. simpl.
    assert (findOwn Date_parse rid (slotStart selectedDate hour)
              (slotEnd selectedDate hour) (before ++ b :: after) = Some b)
      as ->; [|reflexivity].
    induction before as [|x rest IH]; simpl.
    + by rewrite Hb.
    + rewrite (Hbefore x) by left. apply IH.
      intros y Hy. apply Hbefore. by right.
  - intros bookings set bookable. unfold getSlotStatus.
    destruct (num_le _ _); simpl; [done|].
    destruct bookable; simpl; [|done].
    destruct (findOwn _ _ _ _ _); simpl; [done|].
    by destruct (bool_decide _).
Qed.

Lemma getSlotStatus_names_first_owner_witness :
  getSlotStatus Date_parse_iso at0800 "r1" 10 nov3
                ([finished] ++ overlapping :: [upcoming]) freeSet true
  = mkSlotInfo yours (Some "b4").
Proof.
  refine (proj1 (getSlotStatus_names_first_owner Date_parse_iso at0800 "r1" 10
                   nov3 [finished] [upcoming] overlapping freeSet _ _ _)).
  - vm_compute. reflexivity.
  - intros x Hx. apply list_elem_of_singleton in Hx as ->.
    vm_compute. reflexivity.
  - vm_compute. reflexivity.
Defined.

Lemma status_past_iff Date_parse now rid hour selectedDate
    (bookings : list Booking) (set : gset string) bookable :
  status (getSlotStatus Date_parse now rid hour selectedDate bookings set
                        bookable) = past
  <-> num_le (slotEnd selectedDate hour) (Some now) = true.
Proof.
  unfold getSlotStatus.
  destruct (num_le (slotEnd selectedDate hour) (Some now)); simpl; [done|].
  destruct bookable; simpl; [|done].
  destruct (findOwn _ _ _ _ _); simpl; [done|].
  by destruct (bool_decide _).
Qed.

(** Time only moves a slot into the past: a slot that is [past] at one
    instant is [past] at every later instant, whatever else changes in
    the meantime. *)
Theorem getSlotStatus_past_is_final
    (Date_parse Date_parse' : string -> TimeValue) (now now' : Z)
    (rid : string) (hour : Z) (selectedDate : Date)
    (bookings bookings' : list Booking) (set set' : gset string)
    (bookable bookable' : bool) :
  now <= now' ->
  status (getSlotStatus Date_parse now rid hour selectedDate bookings set
                        bookable) = past ->
  status (getSlotStatus Date_parse' now' rid hour selectedDate bookings' set'
                        bookable') = past.
Proof.
  intros Hle Hpast.
  pose proof (status_past_iff Date_parse now rid hour selectedDate
                bookings set bookable) as Hiff.
  pose proof (status_past_iff Date_parse' now' rid hour selectedDate
                bookings' set' bookable') as Hiff'.
  apply Hiff'. apply Hiff in Hpast.
  destruct (slotEnd selectedDate hour) as [e|]; simpl in *; [|discriminate].
  apply Z.leb_le in Hpast. apply Z.leb_le. lia.
Qed.

Lemma getSlotStatus_past_is_final_witness :
  status (getSlotStatus Date_parse_iso (at1000 + 1) "r1" 9 nov3 [] ∅ false)
  = past.
Proof.
  apply (getSlotStatus_past_is_final Date_parse_iso Date_parse_iso
           at1000 (at1000 + 1) "r1" 9 nov3 [booking10] [] freeSet ∅ true false).
  - vm_compute. discriminate.
  - vm_compute. reflexivity.
Defined.

End SlotGridLaws.

(* ===================================================================== *)
(** * The strings of the dialog and the instants of the grid *)
(* ===================================================================== *)

Module DialogLaws.
Import JsDate SlotGrid Pages Samples MoreSamples.

Lemma pad2_table :
  forallb (fun n =>
             match padStart 2 (pretty n) with
             | String a (String b EmptyString) =>
                 match number_of [a; b] with
                 | Some v => v =? n
                 | None => false
                 end
             | _ => false
             end) (seqZ 0 100) = true.
Proof. vm_compute. reflexivity. Qed.

Lemma year4_table :
  forallb (fun n =>
             match pretty n with
             | String a (String b (String c (String d EmptyString))) =>
                 match number_of [a; b; c; d] with
                 | Some v => v =? n
                 | None => false
                 end
             | _ => false
             end) (seqZ 1000 9000) = true.
Proof. vm_compute. reflexivity. Qed.

(** Numbers from 0 to 99 are written with two digits that read back
    as the number. *)
Lemma pad2_shape n :
  0 <= n <= 99 ->
  exists a b, padStart 2 (pretty n) = String a (String b "")
              /\ number_of [a; b] = Some n.
Proof.
  intros Hn. pose proof pad2_table as Ht.
  rewrite forallb_forall in Ht. specialize (Ht n).
  assert (In n (seqZ 0 100)) as Hin
    by (apply list_elem_of_In, elem_of_seqZ; lia).
  specialize (Ht Hin).
  destruct (padStart 2 (pretty n)) as [|a [|b [|c s]]]; try discriminate.
  exists a, b. split; [reflexivity|].
  destruct (number_of [a; b]); [|discriminate].
  apply Z.eqb_eq in Ht. by subst.
Qed.

(** Years from 1000 to 9999 are written with four digits that read
    back as the year. *)
Lemma year4_shape y :
  1000 <= y <= 9999 ->
  exists a b c d,
    pretty y = String a (String b (String c (String d "")))
    /\ number_of [a; b; c; d] = Some y.
Proof.
  intros Hy. pose proof year4_table as Ht.
  rewrite forallb_forall in Ht. specialize (Ht y).
  assert (In y (seqZ 1000 9000)) as Hin
    by (apply list_elem_of_In, elem_of_seqZ; lia).
  specialize (Ht Hin).
  destruct (pretty y) as [|a [|b [|c [|d [|e s]]]]]; try discriminate.
  exists a, b, c, d. split; [reflexivity|].
  destruct (number_of [a; b; c; d]); [|discriminate].
  apply Z.eqb_eq in Ht. by subst.
Qed.

Lemma DaysInMonth_bounds y m : 28 <= DaysInMonth y m <= 31.
Proof.
  unfold DaysInMonth, InLeapYear.
  repeat (case_match; try lia).
Qed.

Lemma plainDay_instant date hour :
  plainDay date -> 0 <= hour <= 24 ->
  Date_UTC (getFullYear date) (getMonth date) (getDate date) hour 0 0
  = Some (MakeDate (MakeDay (getFullYear date) (getMonth date) (getDate date))
                   (MakeTime hour 0 0 0)).
Proof.
  intros (Hy & Hm & Hd) Hh.
  pose proof (DaysInMonth_bounds (getFullYear date) (getMonth date)) as Hdim.
  unfold Date_UTC, MakeFullYear.
  replace (getFullYear date <=? 99) with false by (symmetry; apply Z.leb_gt; lia).
  rewrite andb_false_r.
  unfold TimeClip.
  replace (8640000000000000 <? _) with false; [reflexivity|].
  symmetry. apply Z.ltb_ge.
  unfold MakeDate, MakeDay, MakeTime, DayFromYear, MonthStart, InLeapYear,
    msPerDay, msPerHour, msPerMinute, msPerSecond.
  rewrite (Z.div_small (getMonth date) 12) by lia.
  rewrite (Z.mod_small (getMonth date) 12) by lia.
  rewrite Z.add_0_r.
  set (leap := if DaysInYear (getFullYear date) =? 366 then 1 else 0).
  assert (0 <= leap <= 1) by (subst leap; case_match; lia).
  set (ms := if getMonth date =? 0 then 0 else _).
  assert (0 <= ms <= 335) by (subst ms; repeat (case_match; try lia)).
  apply Z.abs_le. Z.div_mod_to_equations. lia.
Qed.

Lemma toUtcIso_parse (date : Date) (h : Z) :
  plainDay date -> 0 <= h <= 23 ->
  Date_parse_iso (toUtcIso date h) = slotStart date h.
Proof.
  intros (Hy & Hm & Hd) Hh.
  pose proof (DaysInMonth_bounds (getFullYear date) (getMonth date)) as Hdim.
  destruct (year4_shape _ Hy) as (y1 & y2 & y3 & y4 & Hys & Hyn).
  destruct (pad2_shape (getMonth date + 1)) as (m1 & m2 & Hms & Hmn); [lia|].
  destruct (pad2_shape (getDate date)) as (d1 & d2 & Hds & Hdn); [lia|].
  destruct (pad2_shape h) as (h1 & h2 & Hhs & Hhn); [lia|].
  unfold toUtcIso. rewrite Hys, Hms, Hds, Hhs.
  unfold Date_parse_iso.
  change (list_ascii_of_string _)
    with [y1; y2; y3; y4; "-"; m1; m2; "-"; d1; d2; "T"; h1; h2;
          ":"; "0"; "0"; ":"; "0"; "0"; "Z"]%char.
  cbv beta iota. rewrite !Ascii.eqb_refl.
  change (true && true && true && true && true && true) with true.
  cbv beta iota.
  rewrite Hyn, Hmn, Hdn, Hhn.
  change (number_of ["0"%char; "0"%char]) with (Some 0).
  replace (getMonth date + 1 - 1) with (getMonth date) by lia.
  replace (1 <=? getMonth date + 1) with true by (symmetry; apply Z.leb_le; lia).
  replace (getMonth date + 1 <=? 12) with true by (symmetry; apply Z.leb_le; lia).
  replace (1 <=? getDate date) with true by (symmetry; apply Z.leb_le; lia).
  replace (getDate date <=? DaysInMonth (getFullYear date) (getMonth date))
    with true by (symmetry; apply Z.leb_le; lia).
  replace (h <=? 23) with true by (symmetry; apply Z.leb_le; lia).
  cbn [andb Z.leb Z.compare].
  unfold slotStart, Date_UTC, MakeFullYear.
  replace (getFullYear date <=? 99) with false
    by (symmetry; apply Z.leb_gt; lia).
  rewrite andb_false_r. reflexivity.
Qed.

(** The string [toUtcIso] writes for a day and an hour from 0 to 23
    reads back as the instant the grid computes for the start of that
    slot; with the hour after it, as the end of the slot. The dialog
    therefore submits exactly the interval the grid draws. *)
Theorem toUtcIso_reads_as_slot (date : Date) (hour : Z) :
  plainDay date ->
  0 <= hour <= 23 ->
  Date_parse_iso (toUtcIso date hour) = slotStart date hour
  /\ (hour <= 22 -> Date_parse_iso (toUtcIso date (hour + 1)) = slotEnd date hour).
Proof.
  intros Hday Hh. split; [by apply toUtcIso_parse|].
  intros Hh'. unfold slotEnd. apply (toUtcIso_parse date (hour + 1) Hday). lia.
Qed.

Lemma nov3_plainDay : plainDay nov3.
Proof. vm_compute. repeat split; discriminate. Defined.

Lemma toUtcIso_reads_as_slot_witness :
  toUtcIso nov3 10 = "2026-11-03T10:00:00Z"
  /\ Date_parse_iso (toUtcIso nov3 10) = slotStart nov3 10.
Proof.
  split; [reflexivity|].
  refine (proj1 (toUtcIso_reads_as_slot nov3 10 nov3_plainDay _)). lia.
Defined.

(** A booking made through the dialog for one slot owns that slot of
    the grid and no other slot of the day: among the hours 0 to 22, the
    booking written for [hour] owns the slot of [hour'] exactly when
    the two hours are the same. *)
Theorem dialog_booking_owns_its_slot_only
    (date : Date) (hour hour' : Z) (b : Booking) :
  plainDay date ->
  0 <= hour <= 22 ->
  0 <= hour' <= 22 ->
  bstatus b = "Active" ->
  startUtc b = toUtcIso date hour ->
  endUtc b = toUtcIso date (hour + 1) ->
  ownsSlot Date_parse_iso (resourceId b) (slotStart date hour')
           (slotEnd date hour') b
  = bool_decide (hour' = hour).
Proof.
  intros Hday Hh Hh' Hact Hs He.
  pose proof (toUtcIso_parse date hour Hday ltac:(lia)) as Hps.
  pose proof (toUtcIso_parse date (hour + 1) Hday ltac:(lia)) as Hpe.
  change (slotStart date (hour + 1)) with (slotEnd date hour) in Hpe.
  unfold ownsSlot, overlaps. rewrite Hs, He, Hps, Hpe.
  rewrite !bool_decide_eq_true_2 by done. simpl.
  unfold slotStart, slotEnd.
  rewrite !(plainDay_instant date) by (done || lia).
  simpl. unfold MakeDate, MakeTime, msPerDay, msPerHour, msPerMinute,
    msPerSecond.
  set (day := MakeDay _ _ _).
  destruct (decide (hour' = hour)) as [->|Hne].
  - rewrite bool_decide_eq_true_2 by done.
    apply andb_true_intro. split; apply Z.ltb_lt; lia.
  - rewrite bool_decide_eq_false_2 by done.
    apply andb_false_iff.
    destruct (Z.lt_ge_cases hour' hour).
    + right. apply Z.ltb_ge. lia.
    + left. apply Z.ltb_ge. lia.
Qed.

Lemma dialog_booking_owns_its_slot_only_witness :
  ownsSlot Date_parse_iso "r1" (slotStart nov3 10) (slotEnd nov3 10) upcoming
  = true
  /\ ownsSlot Date_parse_iso "r1" (slotStart nov3 11) (slotEnd nov3 11) upcoming
     = false.
Proof.
  split.
  - apply (dialog_booking_owns_its_slot_only nov3 10 10 upcoming
             nov3_plainDay); (lia || reflexivity).
  - apply (dialog_booking_owns_its_slot_only nov3 10 11 upcoming
             nov3_plainDay); (lia || reflexivity).
Defined.

End DialogLaws.

(* ===================================================================== *)
(** * Further properties of the availability reduction *)
(* ===================================================================== *)

Module AvailabilityLaws.
Import JsDate Availability Availability2 Samples.

(** ** Reading the hour *)

Lemma isDigit_not_colon c : isDigit c = true -> Ascii.eqb c ":" = false.
Proof.
  destruct c as [[] [] [] [] [] [] [] []]; vm_compute; congruence.
Qed.

Lemma digit_val_bounds c v : digit_val c = Some v -> 0 <= v <= 9.
Proof.
  unfold digit_val.
  destruct ((48 <=? Z.of_N (N_of_ascii c)) && (Z.of_N (N_of_ascii c) <=? 57))
    eqn:Hc; [|discriminate].
  apply andb_true_iff in Hc as [H1 H2].
  apply Z.leb_le in H1, H2. intros [= <-]. lia.
Qed.

Lemma isDigit_val c : isDigit c = true -> exists v, digit_val c = Some v.
Proof. unfold isDigit. destruct (digit_val c); [eauto|discriminate]. Qed.

Lemma number_of_pair a b :
  isDigit a = true -> isDigit b = true ->
  exists v, number_of [a; b] = Some v /\ 0 <= v <= 99.
Proof.
  intros [va Ha]%isDigit_val [vb Hb]%isDigit_val.
  pose proof (digit_val_bounds _ _ Ha). pose proof (digit_val_bounds _ _ Hb).
  exists (10 * va + vb). unfold number_of. simpl. rewrite Ha. simpl.
  rewrite Hb. split; [f_equal; lia|lia].
Qed.

Lemma matchHHMM_skip a b c d e tl :
  isDigit a && isDigit b && Ascii.eqb c ":" && isDigit d && isDigit e = false ->
  matchHHMM (a :: b :: c :: d :: e :: tl) = matchHHMM (b :: c :: d :: e :: tl).
Proof. intros H. simpl. rewrite H. reflexivity. Qed.

Lemma matchHHMM_hit a b d e tl :
  isDigit a = true -> isDigit b = true ->
  isDigit d = true -> isDigit e = true ->
  matchHHMM (a :: b :: ":"%char :: d :: e :: tl) = Some (a, b).
Proof. intros Ha Hb Hd He. simpl. rewrite Ha, Hb, Hd, He. reflexivity. Qed.

Lemma matchHHMM_digits cs a b :
  matchHHMM cs = Some (a, b) -> isDigit a = true /\ isDigit b = true.
Proof.
  induction cs as [|x rest IH]; simpl; [discriminate|].
  destruct rest as [|y [|c [|d [|e tl]]]]; try discriminate.
  destruct (isDigit x && isDigit y && Ascii.eqb c ":" && isDigit d && isDigit e)
    eqn:Hc.
  - intros [= <- <-].
    apply andb_true_iff in Hc as [Hc _]. apply andb_true_iff in Hc as [Hc _].
    apply andb_true_iff in Hc as [Hc _]. by apply andb_true_iff in Hc.
  - exact IH.
Qed.

(** A boundary written as a timestamp [YYYY-MM-DDTHH:MM...] yields the
    hour as written, whatever follows the minutes (seconds, fraction,
    zone offset): the string-to-date parser is not consulted and no
    conversion to UTC takes place. A boundary that opens with [HH:MM]
    yields [HH]. The hour lies between 0 and 99. *)
Theorem parseHour_reads_the_written_hour
    (Date_parse : string -> TimeValue)
    (y1 y2 y3 y4 mo1 mo2 d1 d2 h1 h2 m1 m2 : ascii) (rest : string) :
  isDigit y1 = true -> isDigit y2 = true -> isDigit y3 = true ->
  isDigit y4 = true -> isDigit mo1 = true -> isDigit mo2 = true ->
  isDigit d1 = true -> isDigit d2 = true -> isDigit h1 = true ->
  isDigit h2 = true -> isDigit m1 = true -> isDigit m2 = true ->
  exists hour,
    number_of [h1; h2] = Some hour /\ 0 <= hour <= 99
    /\ parseHour Date_parse
         (String y1 (String y2 (String y3 (String y4 (String "-"
          (String mo1 (String mo2 (String "-" (String d1 (String d2
          (String "T" (String h1 (String h2 (String ":"
          (String m1 (String m2 rest))))))))))))))))
       = Some hour
    /\ parseHour Date_parse
         (String h1 (String h2 (String ":" (String m1 (String m2 rest)))))
       = Some hour.
Proof.
  intros Hy1 Hy2 Hy3 Hy4 Hmo1 Hmo2 Hd1 Hd2 Hh1 Hh2 Hm1 Hm2.
  destruct (number_of_pair h1 h2 Hh1 Hh2) as (hour & Hnum & Hrange).
  exists hour. split; [exact Hnum|]. split; [exact Hrange|].
  unfold parseHour. cbn [list_ascii_of_string].
  split.
  - rewrite matchHHMM_skip
      by (rewrite (isDigit_not_colon y3 Hy3), !andb_false_r; reflexivity).
    rewrite matchHHMM_skip
      by (rewrite (isDigit_not_colon y4 Hy4), !andb_false_r; reflexivity).
    rewrite matchHHMM_skip
      by (change (Ascii.eqb "-" ":") with false;
          rewrite !andb_false_r; reflexivity).
    rewrite matchHHMM_skip
      by (change (isDigit "-") with false;
          rewrite !andb_false_r; reflexivity).
    rewrite matchHHMM_skip by reflexivity.
    rewrite matchHHMM_skip
      by (change (Ascii.eqb "-" ":") with false;
          rewrite !andb_false_r; reflexivity).
    rewrite matchHHMM_skip
      by (change (isDigit "-") with false;
          rewrite !andb_false_r; reflexivity).
    rewrite matchHHMM_skip by reflexivity.
    rewrite matchHHMM_skip
      by (change (Ascii.eqb "T" ":") with false;
          rewrite !andb_false_r; reflexivity).
    rewrite matchHHMM_skip
      by (change (isDigit "T") with false;
          rewrite !andb_false_r; reflexivity).
    rewrite matchHHMM_skip by reflexivity.
    rewrite matchHHMM_hit by assumption. exact Hnum.
  - rewrite matchHHMM_hit by assumption. exact Hnum.
Qed.

Lemma parseHour_reads_the_written_hour_witness :
  parseHour (fun _ => None) "2026-02-20T07:30:00+02:00" = Some 7.
Proof.
  destruct (parseHour_reads_the_written_hour (fun _ => None)
              "2" "0" "2" "6" "0" "2" "2" "0" "0" "7" "3" "0" ":00+02:00")
    as (hour & Hnum & _ & Hiso & _); [reflexivity ..|].
  rewrite Hiso. rewrite <- Hnum. reflexivity.
Defined.

(** Whatever the boundary, the hour [parseHour] yields lies between 0
    and 99, and between 0 and 23 when it comes from the parsed
    instant. *)
Lemma parseHour_range Date_parse t h :
  parseHour Date_parse t = Some h -> 0 <= h <= 99.
Proof.
  unfold parseHour.
  destruct (matchHHMM (list_ascii_of_string t)) as [[a b]|] eqn:Hm.
  - apply matchHHMM_digits in Hm as [Ha Hb].
    destruct (number_of_pair a b Ha Hb) as (v & Hv & Hr).
    rewrite Hv. intros [= <-]. exact Hr.
  - destruct (Date_parse t) as [tv|]; [|discriminate].
    intros [= <-]. unfold HourFromTime.
    pose proof (Z.mod_pos_bound (tv / msPerHour) 24). lia.
Qed.

(** ** What the map holds *)

Section Invariant.
Variable Date_parse : string -> TimeValue.

Lemma addHour_hourKeyed rid (map : HourMap) h :
  0 <= h <= 98 -> hourKeyed map -> hourKeyed (addHour rid map h).
Proof.
  intros Hh Hinv k set. unfold addHour.
  destruct (decide (k = pretty h)) as [->|Hne].
  - rewrite lookup_insert_eq. intros [= <-]. split; [by exists h|].
    intros Hempty.
    assert (rid ∈ ({[rid]} ∪ default ∅ (map !! pretty h) : gset string)) as Hin
      by (apply elem_of_union_l, elem_of_singleton; reflexivity).
    rewrite Hempty in Hin. by apply not_elem_of_empty in Hin.
  - rewrite lookup_insert_ne by done. apply Hinv.
Qed.

Lemma addHours_hourKeyed rid s e (map : HourMap) :
  0 <= s -> e <= 99 -> hourKeyed map -> hourKeyed (addHours rid s e map).
Proof.
  intros Hs He. unfold addHours.
  assert (Hall : forall h, h ∈ seqZ s (e - s) -> 0 <= h <= 98).
  { intros h Hh%elem_of_seqZ. lia. }
  revert map Hall. generalize (seqZ s (e - s)) as hours.
  induction hours as [|h rest IH]; intros map Hall Hinv; simpl; [done|].
  apply IH.
  - intros h' Hh'. apply Hall. by right.
  - apply addHour_hourKeyed; [apply Hall; left|done].
Qed.

Lemma reduceSlot_hourKeyed rid (map map' : HourMap) ts :
  reduceSlot Date_parse rid map ts = Ok map' ->
  hourKeyed map -> hourKeyed map'.
Proof.
  unfold reduceSlot. destruct (bool_decide (status ts = "available")); simpl.
  - destruct (startTime ts) as [s|]; simpl; [|discriminate].
    destruct (endTime ts) as [e|]; simpl; [|discriminate].
    destruct (parseHour Date_parse s) as [sh|] eqn:Hsh;
      destruct (parseHour Date_parse e) as [eh|] eqn:Heh;
      intros [= <-]; try done.
    apply parseHour_range in Hsh, Heh.
    apply addHours_hourKeyed; lia.
  - by intros [= <-].
Qed.

Lemma forOf_hourKeyed {A} (body : HourMap -> A -> JsResult HourMap)
    (xs : list A) (map map' : HourMap) :
  (forall m m' x, body m x = Ok m' -> hourKeyed m -> hourKeyed m') ->
  forOf body map xs = Ok map' -> hourKeyed map -> hourKeyed map'.
Proof.
  intros Hbody. revert map. induction xs as [|x rest IH]; intros map; simpl.
  - by intros [= <-].
  - destruct (body map x) as [m1|] eqn:H1; simpl; [|discriminate].
    intros Hrest Hinv. apply (IH m1 Hrest). by eapply Hbody.
Qed.

End Invariant.

Lemma availabilityMap_keeps_hourKeyed
    (Date_parse : string -> TimeValue) (apiResult : AvailabilityResponse)
    (map : HourMap) :
  availabilityMap Date_parse apiResult = Ok map -> hourKeyed map.
Proof.
  intros Hok. unfold availabilityMap in Hok.
  eapply (forOf_hourKeyed (reduceResource Date_parse)); [|exact Hok|].
  - intros m m' res Hres. unfold reduceResource in Hres.
    eapply forOf_hourKeyed; [|exact Hres].
    intros m1 m2 ts. apply reduceSlot_hourKeyed.
  - intros k set Hk. by rewrite lookup_empty in Hk.
Qed.

Lemma mixedDay_reduces :
  exists map : HourMap, availabilityMap Date_parse_iso mixedDay = Ok map.
Proof.
  exact (AvailabilitySpec.availabilityMap_completes Date_parse_iso mixedDay
           AvailabilitySpec.mixedDay_boundariesPresent).
Defined.

(** Every key of the map the reduction yields is the decimal form of an
    hour between 0 and 98, no set it stores is empty, and a resource is
    listed only at such hours. *)
Theorem availabilityMap_hourKeyed
    (Date_parse : string -> TimeValue) (apiResult : AvailabilityResponse)
    (map : HourMap) :
  availabilityMap Date_parse apiResult = Ok map ->
  hourKeyed map /\ (forall h R, listed map h R -> 0 <= h <= 98).
Proof.
  intros Hok.
  pose proof (availabilityMap_keeps_hourKeyed _ _ _ Hok) as Hinv.
  split; [exact Hinv|].
  intros h R (set & Hset & _).
  destruct (Hinv _ _ Hset) as [(h' & Hh' & Heq) _].
  apply (inj pretty) in Heq. by subst.
Qed.

Lemma availabilityMap_hourKeyed_witness :
  exists map : HourMap,
    availabilityMap Date_parse_iso mixedDay = Ok map /\ hourKeyed map.
Proof.
  destruct mixedDay_reduces as [map Hmap].
  exists map. split; [exact Hmap|].
  exact (proj1 (availabilityMap_hourKeyed Date_parse_iso mixedDay map Hmap)).
Defined.

(** ** The lookup set of the grid *)

Lemma occurs_app_underscore s d :
  occurs "_" (s +:+ String "_" d) = true.
Proof.
  induction s as [|a s IH]; simpl; [reflexivity|].
  rewrite IH. apply orb_true_r.
Qed.

(** A key splits in one way only into an id and an hour key that holds
    no underscore. *)
Lemma key_split s1 s2 d1 d2 :
  occurs "_" d1 = false -> occurs "_" d2 = false ->
  s1 +:+ String "_" d1 = s2 +:+ String "_" d2 ->
  s1 = s2 /\ d1 = d2.
Proof.
  intros H1 H2. revert s2. induction s1 as [|a s1 IH]; intros s2 Heq.
  - destruct s2 as [|b s2]; simpl in Heq.
    + by injection Heq as ->.
    + injection Heq as <- ->.
      rewrite occurs_app_underscore in H1. discriminate.
  - destruct s2 as [|b s2]; simpl in Heq.
    + injection Heq as -> <-.
      rewrite occurs_app_underscore in H2. discriminate.
    + injection Heq as -> Heq. destruct (IH _ Heq) as [-> ->]. done.
Qed.

Lemma pretty_N_char_plain x : Ascii.eqb (pretty_N_char x) "_" = false.
Proof. unfold pretty_N_char. repeat case_match; reflexivity. Qed.

Lemma pretty_N_go_plain x s :
  occurs "_" s = false -> occurs "_" (pretty_N_go x s) = false.
Proof.
  revert s. induction (N.lt_wf_0 x) as [x _ IH]. intros s Hs.
  destruct (decide (0 < x)%N) as [Hx|Hx].
  - rewrite pretty_N_go_step by exact Hx.
    apply IH; [by apply N.div_lt|].
    simpl. by rewrite pretty_N_char_plain, Hs.
  - replace x with 0%N by lia. by rewrite pretty_N_go_0.
Qed.

(** The decimal form of an integer holds no underscore. *)
Lemma pretty_Z_plain (h : Z) : occurs "_" (pretty h) = false.
Proof.
  assert (Hpos : forall p : positive, occurs "_" (pretty p) = false).
  { intros p. unfold pretty, pretty_positive, pretty, pretty_N.
    rewrite decide_False by done. by apply pretty_N_go_plain. }
  destruct h as [|p|p]; unfold pretty, pretty_Z; [reflexivity|apply Hpos|].
  simpl. apply Hpos.
Qed.

Lemma availableSetOf_holds (map : HourMap) key :
  key ∈ SlotGrid.availableSetOf map
  <-> exists hourKey rids rid,
        map !! hourKey = Some rids /\ rid ∈ rids
        /\ key = rid +:+ "_" +:+ hourKey.
Proof.
  unfold SlotGrid.availableSetOf. revert key.
  apply (map_fold_weak_ind
    (fun (acc : gset string) (m : HourMap) =>
       forall key, key ∈ acc
         <-> exists hourKey rids rid,
               m !! hourKey = Some rids /\ rid ∈ rids
               /\ key = rid +:+ "_" +:+ hourKey)).
  - intros key. split; [intros H; by apply not_elem_of_empty in H|].
    intros (hk & rids & rid & Hk & _). by rewrite lookup_empty in Hk.
  - intros hk rids m acc Hfresh IH key.
    assert (Hinner : key ∈ set_fold
              (fun rid acc' => {[rid +:+ "_" +:+ hk]} ∪ acc') acc rids
            <-> key ∈ acc \/ exists rid, rid ∈ rids /\ key = rid +:+ "_" +:+ hk).
    { apply (set_fold_ind_L
        (fun (acc' : gset string) (X : gset string) =>
           key ∈ acc' <-> key ∈ acc
             \/ exists rid, rid ∈ X /\ key = rid +:+ "_" +:+ hk)).
      - split; [by left|]. intros [H|(rid & Hin & _)]; [done|].
        by apply not_elem_of_empty in Hin.
      - intros rid X acc' Hnew IHs. rewrite elem_of_union, elem_of_singleton, IHs.
        split.
        + intros [->|[H|(rid' & Hin & ->)]].
          * right. exists rid. split; [|done].
            apply elem_of_union_l, elem_of_singleton. done.
          * by left.
          * right. exists rid'. split; [|done]. by apply elem_of_union_r.
        + intros [H|(rid' & Hin & ->)]; [by right; left|].
          apply elem_of_union in Hin as [Hin|Hin].
          * apply elem_of_singleton in Hin as ->. by left.
          * right. right. by exists rid'. }
    rewrite Hinner, IH. split.
    + intros [(hk' & rids' & rid & Hk & Hin & ->)|(rid & Hin & ->)].
      * exists hk', rids', rid. split; [|done].
        rewrite lookup_insert_ne; [done|]. intros <-. congruence.
      * exists hk, rids, rid. by rewrite lookup_insert_eq.
    + intros (hk' & rids' & rid & Hk & Hin & ->).
      destruct (decide (hk = hk')) as [<-|Hne].
      * rewrite lookup_insert_eq in Hk. injection Hk as <-.
        right. by exists rid.
      * rewrite lookup_insert_ne in Hk by done.
        left. by exists hk', rids', rid.
Qed.

Lemma availableSetOf_matches_map (map : HourMap) (R : string) (h : Z) :
  hourKeyed map ->
  SlotGrid.slotKey R h ∈ SlotGrid.availableSetOf map <-> listed map h R.
Proof.
  intros Hinv. rewrite availableSetOf_holds. unfold SlotGrid.slotKey, listed.
  split.
  - intros (hk & rids & rid & Hk & Hin & Heq).
    destruct (Hinv _ _ Hk) as [(h' & _ & ->) _].
    apply key_split in Heq as [-> Heq]; [|apply pretty_Z_plain..].
    exists rids. by rewrite Heq.
  - intros (set & Hset & Hin). by exists (pretty h), set, R.
Qed.

(** From the response to the grid: the lookup set the grid builds from
    the reduced map holds the key of resource [R] and hour [h] exactly
    when the response has, for a resource with id [R], an available
    slot whose extracted hours enclose [h]. Ids that contain
    underscores are not mistaken for one another. *)
Theorem grid_lookup_matches_response
    (Date_parse : string -> TimeValue) (apiResult : AvailabilityResponse)
    (map : HourMap) (R : string) (h : Z) :
  availabilityMap Date_parse apiResult = Ok map ->
  SlotGrid.slotKey R h ∈ SlotGrid.availableSetOf map
  <-> exists res ts,
        res ∈ orEmpty (resources apiResult) /\ id res = R
        /\ ts ∈ orEmpty (timeSlots res) /\ covers Date_parse ts h.
Proof.
  intros Hok.
  rewrite (availableSetOf_matches_map map R h
             (availabilityMap_keeps_hourKeyed _ _ _ Hok)).
  by apply AvailabilitySpec.availabilityMap_listed.
Qed.

Lemma grid_lookup_matches_response_witness :
  exists map : HourMap,
    availabilityMap Date_parse_iso mixedDay = Ok map
    /\ (SlotGrid.slotKey "r2" 8 ∈ SlotGrid.availableSetOf map
        <-> exists res ts,
              res ∈ orEmpty (resources mixedDay) /\ id res = "r2"
              /\ ts ∈ orEmpty (timeSlots res) /\ covers Date_parse_iso ts 8).
Proof.
  destruct mixedDay_reduces as [map Hmap].
  exists map. split; [exact Hmap|].
  exact (grid_lookup_matches_response Date_parse_iso mixedDay map "r2" 8 Hmap).
Defined.

(** ** Order, and missing boundaries *)

Lemma hourKeyed_eq (m1 m2 : HourMap) :
  hourKeyed m1 -> hourKeyed m2 ->
  (forall h R, listed m1 h R <-> listed m2 h R) ->
  m1 = m2.
Proof.
  intros H1 H2 Hsame.
  assert (Hhalf : forall (a b : HourMap), hourKeyed a -> hourKeyed b ->
            (forall h R, listed a h R <-> listed b h R) ->
            forall k set, a !! k = Some set -> b !! k = Some set).
  { intros a b Ha Hb Hab k set Hk.
    destruct (Ha _ _ Hk) as [(h & _ & ->) Hne].
    apply set_choose_L in Hne as [R HR].
    assert (listed b h R) as (set' & Hset' & _)
      by (apply Hab; by exists set).
    rewrite Hset'. f_equal. apply set_eq. intros x. split.
    - intros Hx. assert (listed a h x) as (s'' & Hs'' & Hx'')
        by (apply Hab; by exists set').
      congruence.
    - intros Hx. assert (listed b h x) as (s'' & Hs'' & Hx'')
        by (apply Hab; by exists set).
      congruence. }
  apply map_eq. intros k.
  destruct (m1 !! k) as [set|] eqn:Hk1.
  - symmetry. by apply (Hhalf m1 m2).
  - destruct (m2 !! k) as [set|] eqn:Hk2; [|done].
    apply (Hhalf m2 m1) in Hk2; [congruence|done|done|].
    intros h R. symmetry. apply Hsame.
Qed.

(** The map does not depend on the order in which the response lists
    its resources: a response with the same resources in another order
    reduces to the same map. *)
Theorem availabilityMap_order_irrelevant
    (Date_parse : string -> TimeValue) (rs rs' : list ResourceAvailability)
    (map : HourMap) :
  rs ≡ₚ rs' ->
  availabilityMap Date_parse (mkResp (Some rs)) = Ok map ->
  availabilityMap Date_parse (mkResp (Some rs')) = Ok map.
Proof.
  intros Hperm Hok.
  pose proof (AvailabilitySpec.availabilityMap_completes_only_if _ _ _ Hok)
    as Hb.
  assert (boundariesPresent (mkResp (Some rs'))) as Hb'.
  { intros res ts Hres Hts Hst. apply (Hb res ts); [|exact Hts|exact Hst].
    simpl in *. by rewrite Hperm. }
  destruct (AvailabilitySpec.availabilityMap_completes Date_parse _ Hb')
    as [map' Hok'].
  rewrite Hok'. f_equal. apply hourKeyed_eq.
  - by eapply availabilityMap_keeps_hourKeyed.
  - by eapply availabilityMap_keeps_hourKeyed.
  - intros h R.
    rewrite (AvailabilitySpec.availabilityMap_listed _ _ _ h R Hok').
    rewrite (AvailabilitySpec.availabilityMap_listed _ _ _ h R Hok).
    simpl. split; intros (res & ts & Hres & Hrest); exists res, ts;
      (split; [|exact Hrest]); [by rewrite Hperm|by rewrite <- Hperm].
Qed.

Lemma availabilityMap_order_irrelevant_witness :
  exists map : HourMap,
    availabilityMap Date_parse_iso mixedDay = Ok map
    /\ availabilityMap Date_parse_iso mixedDayReordered = Ok map.
Proof.
  destruct mixedDay_reduces as [map Hmap].
  exists map. split; [exact Hmap|].
  refine (availabilityMap_order_irrelevant Date_parse_iso _ _ map _ Hmap).
  apply perm_swap.
Defined.

(** An available slot without [startTime] or without [endTime],
    wherever it stands in the response, makes the whole reduction throw
    a [TypeError]: no partial map comes back. *)
Theorem availabilityMap_throws_on_missing_boundary
    (Date_parse : string -> TimeValue) (apiResult : AvailabilityResponse) :
  boundaryMissing apiResult ->
  availabilityMap Date_parse apiResult = Throw TypeError.
Proof.
  intros (res & ts & Hres & Hts & Hst & Hmiss).
  destruct (availabilityMap Date_parse apiResult) as [map|[]] eqn:Hr;
    [|reflexivity].
  apply AvailabilitySpec.availabilityMap_completes_only_if in Hr.
  destruct (Hr res ts Hres Hts Hst) as [[s Hs] [e He]].
  destruct Hmiss; congruence.
Qed.

Lemma availabilityMap_throws_on_missing_boundary_witness :
  availabilityMap Date_parse_iso noStartTime = Throw TypeError.
Proof.
  apply availabilityMap_throws_on_missing_boundary.
  exists (mkRes "r1" (Some [mkSlot None (Some "08:00") "available"])),
         (mkSlot None (Some "08:00") "available").
  split; [left|]. split; [left|]. split; [reflexivity|by left].
Defined.

End AvailabilityLaws.

(* ===================================================================== *)
(** * The booking horizon across clock changes *)
(* ===================================================================== *)

Module HorizonLaws.
Import JsDate DateNav.

(** In any time zone whose offset moves by less than a day between the
    two local midnights: a date is bookable when it lies 0, 1 or 2
    calendar days ahead, and when it lies 3 days ahead provided the
    offset at its midnight is not below the offset at today's midnight.
    It is never bookable when it lies in the past or 4 days or more
    ahead. (Years are written with more than two digits.) *)
Theorem isBookableDate_across_clock_changes
    (LocalTZA : Z -> Z) (now date : Date) :
  100 <= getFullYear now ->
  100 <= getFullYear date ->
  is_Some (midnightOf LocalTZA now) ->
  is_Some (midnightOf LocalTZA date) ->
  Z.abs (LocalTZA (dayNumber date * msPerDay)
         - LocalTZA (dayNumber now * msPerDay)) < msPerDay ->
  isBookableDate LocalTZA now date = true
  <-> 0 <= dayNumber date - dayNumber now <= 2
      \/ (dayNumber date - dayNumber now = 3
          /\ LocalTZA (dayNumber now * msPerDay)
             <= LocalTZA (dayNumber date * msPerDay)).
Proof.
  intros Hy0 Hy1 [t0 H0] [t1 H1] Hoff.
  unfold isBookableDate, diffDays. rewrite H0, H1.
  unfold midnightOf, Date_local in H0, H1.
  apply HorizonSpec.TimeClip_Some in H0, H1.
  unfold MakeFullYear in H0, H1.
  replace (getFullYear now <=? 99) with false in H0
    by (symmetry; apply Z.leb_gt; lia).
  replace (getFullYear date <=? 99) with false in H1
    by (symmetry; apply Z.leb_gt; lia).
  rewrite andb_false_r in H0, H1.
  fold (dayNumber now) in H0. fold (dayNumber date) in H1.
  unfold MakeDate, MakeTime in H0, H1.
  replace (dayNumber now * msPerDay
           + (0 * msPerHour + 0 * msPerMinute + 0 * msPerSecond + 0))
    with (dayNumber now * msPerDay) in H0 by lia.
  replace (dayNumber date * msPerDay
           + (0 * msPerHour + 0 * msPerMinute + 0 * msPerSecond + 0))
    with (dayNumber date * msPerDay) in H1 by lia.
  rewrite andb_true_iff, !Qle_bool_iff. unfold Qle. simpl.
  destruct (decide (dayNumber date = dayNumber now)) as [Heq|Hne].
  - rewrite Heq in *. subst t0 t1. lia.
  - set (o0 := LocalTZA (dayNumber now * msPerDay)) in *.
    set (o1 := LocalTZA (dayNumber date * msPerDay)) in *.
    unfold msPerDay in *. subst t0 t1. lia.
Qed.

(** On 30 October 2026 in the US Eastern zone: 1 November is bookable,
    2 November, three days ahead and past the end of daylight time, is
    not. *)
Lemma isBookableDate_across_clock_changes_witness :
  isBookableDate newYork2026 (localDate 2026 9 30 9 0)
                 (localDate 2026 10 1 0 0) = true
  /\ isBookableDate newYork2026 (localDate 2026 9 30 9 0)
                    (localDate 2026 10 2 0 0) <> true.
Proof.
  split.
  - apply (isBookableDate_across_clock_changes newYork2026
             (localDate 2026 9 30 9 0) (localDate 2026 10 1 0 0)).
    + simpl. lia.
    + simpl. lia.
    + eexists. vm_compute. reflexivity.
    + eexists. vm_compute. reflexivity.
    + vm_compute. reflexivity.
    + left. vm_compute. split; discriminate.
  - intros H.
    apply (isBookableDate_across_clock_changes newYork2026
             (localDate 2026 9 30 9 0) (localDate 2026 10 2 0 0)) in H.
    + destruct H as [[_ H]|[_ H]]; vm_compute in H; by apply H.
    + simpl. lia.
    + simpl. lia.
    + eexists. vm_compute. reflexivity.
    + eexists. vm_compute. reflexivity.
    + vm_compute. reflexivity.
Defined.

End HorizonLaws.

(* ===================================================================== *)
(** * Further properties of the request client *)
(* ===================================================================== *)

Module ApiLaws.
Import Api Pages Samples MoreSamples.

(** ** The token store *)

Lemma token_store_reads (access refresh : string) (st : Session) :
  fst (getAccessToken (setTokens access refresh st)) = Some access
  /\ fst (getRefreshToken (setTokens access refresh st)) = Some refresh
  /\ fst (getAccessToken (reloaded (setTokens access refresh st)))
     = (if window st then Some access else None)
  /\ fst (getRefreshToken (reloaded (setTokens access refresh st)))
     = (if window st then Some refresh else None)
  /\ fst (getAccessToken (clearTokens st)) = None
  /\ fst (getRefreshToken (clearTokens st)) = None
  /\ fst (getAccessToken (reloaded (clearTokens st))) = None
  /\ fst (getRefreshToken (reloaded (clearTokens st))) = None.
Proof.
  destruct st as [a r w ls h e cs].
  unfold getAccessToken, getRefreshToken, setTokens, clearTokens, reloaded.
  simpl. destruct w; simpl.
  - destruct (bool_decide (access = "")), (bool_decide (refresh = ""));
      simpl; rewrite ?lookup_insert_eq;
      rewrite ?(lookup_insert_ne _ "refreshToken" "accessToken") by done;
      rewrite ?lookup_insert_eq;
      rewrite ?lookup_delete_eq;
      rewrite ?(lookup_delete_ne _ "user" "refreshToken") by done;
      rewrite ?(lookup_delete_ne _ "user" "accessToken") by done;
      rewrite ?(lookup_delete_ne _ "refreshToken" "accessToken") by done;
      rewrite ?lookup_delete_eq; done.
  - destruct (bool_decide (access = "")), (bool_decide (refresh = "")); done.
Qed.

(** Tokens stored with [setTokens] are read back as stored, also when
    empty; after a reload of the page they are read back from
    [localStorage] in a browser and are gone where there is no
    [window]. After [clearTokens] both reads give [null], before and
    after a reload. *)
Theorem token_store_round_trip (access refresh : string) (st : Session) :
  fst (getAccessToken (setTokens access refresh st)) = Some access
  /\ fst (getRefreshToken (setTokens access refresh st)) = Some refresh
  /\ fst (getAccessToken (reloaded (setTokens access refresh st)))
     = (if window st then Some access else None)
  /\ fst (getRefreshToken (reloaded (setTokens access refresh st)))
     = (if window st then Some refresh else None)
  /\ fst (getAccessToken (clearTokens st)) = None
  /\ fst (getRefreshToken (clearTokens st)) = None
  /\ fst (getAccessToken (reloaded (clearTokens st))) = None
  /\ fst (getRefreshToken (reloaded (clearTokens st))) = None.
Proof. apply token_store_reads. Qed.

(** The token functions touch nothing but their own keys of
    [localStorage]: [setTokens] writes "accessToken" and "refreshToken"
    and leaves every other key, the stored user among them, as it was;
    [clearTokens] removes those two and "user" and leaves every other
    key; where no [window] exists neither touches the storage. In a
    browser the stored tokens agree with the module's variables after
    either of them. *)
Theorem token_store_touches_only_its_keys
    (access refresh : string) (st : Session) (k : string) :
  (k <> "accessToken" -> k <> "refreshToken" ->
   localStorage (setTokens access refresh st) !! k = localStorage st !! k)
  /\ (k <> "accessToken" -> k <> "refreshToken" -> k <> "user" ->
      localStorage (clearTokens st) !! k = localStorage st !! k)
  /\ (window st = false ->
      localStorage (setTokens access refresh st) = localStorage st
      /\ localStorage (clearTokens st) = localStorage st)
  /\ (window st = true ->
      localStorage (setTokens access refresh st) !! "accessToken"
      = accessToken (setTokens access refresh st)
      /\ localStorage (setTokens access refresh st) !! "refreshToken"
         = refreshToken (setTokens access refresh st)
      /\ localStorage (clearTokens st) !! "accessToken"
         = accessToken (clearTokens st)
      /\ localStorage (clearTokens st) !! "refreshToken"
         = refreshToken (clearTokens st)).
Proof.
  destruct st as [a r w ls h e cs]. unfold setTokens, clearTokens. simpl.
  split; [|split; [|split]].
  - intros H1 H2. destruct w; simpl; [|done].
    by rewrite !lookup_insert_ne.
  - intros H1 H2 H3. destruct w; simpl; [|done].
    by rewrite !lookup_delete_ne.
  - by intros ->.
  - intros ->. simpl.
    rewrite (lookup_insert_ne _ "refreshToken" "accessToken") by done.
    rewrite !lookup_insert_eq.
    rewrite (lookup_delete_ne _ "user" "accessToken") by done.
    rewrite (lookup_delete_ne _ "refreshToken" "accessToken") by done.
    rewrite (lookup_delete_ne _ "user" "refreshToken") by done.
    by rewrite !lookup_delete_eq.
Qed.

Lemma token_store_touches_only_its_keys_witness :
  localStorage (setTokens "fresh" "spare" signedIn) !! "user" = Some "u1"
  /\ localStorage (setTokens "fresh" "spare" signedIn) !! "accessToken"
     = Some "fresh".
Proof.
  destruct (token_store_touches_only_its_keys "fresh" "spare" signedIn "user")
    as (Hkeep & _ & _ & Hagree).
  split.
  - rewrite Hkeep by discriminate. reflexivity.
  - destruct Hagree as (Ha & _); [reflexivity|]. rewrite Ha. reflexivity.
Defined.

(** After [clearTokens] the next request carries no credential of the
    module's making: its Authorization header is whatever the caller's
    options held. After [setTokens] with a non-empty access token it is
    the bearer form of that token, whatever the options held. *)
Theorem firstCall_credential
    (u : string) (options : RequestInit) (access refresh : string)
    (st : Session) :
  access <> "" ->
  headers (init (firstCall u options (clearTokens st))) !! "Authorization"
  = headers options !! "Authorization"
  /\ headers (init (firstCall u options (setTokens access refresh st)))
       !! "Authorization"
     = Some ("Bearer " +:+ access).
Proof.
  intros Hne.
  pose proof (token_store_reads access refresh st)
    as (Hset & _ & _ & _ & Hclear & _).
  unfold firstCall. simpl. rewrite Hset, Hclear.
  unfold authHeaders. simpl.
  rewrite (bool_decide_eq_false_2 _ Hne). simpl.
  split; [|apply lookup_insert_eq].
  unfold baseHeaders. rewrite lookup_union.
  rewrite lookup_singleton_ne by done.
  by destruct (headers options !! "Authorization").
Qed.

Lemma firstCall_credential_witness :
  headers (init (firstCall "/api/bookings" getBookings (clearTokens signedIn)))
    !! "Authorization" = None
  /\ headers (init (firstCall "/api/bookings" getBookings
                      (setTokens "fresh" "spare" noRefreshToken)))
       !! "Authorization" = Some "Bearer fresh".
Proof.
  split.
  - rewrite (proj1 (firstCall_credential "/api/bookings" getBookings
                      "fresh" "spare" signedIn ltac:(discriminate))).
    reflexivity.
  - exact (proj2 (firstCall_credential "/api/bookings" getBookings
                    "fresh" "spare" noRefreshToken ltac:(discriminate))).
Defined.

(** ** [getBaseUrl] *)

Lemma rev_app_append s1 s2 acc :
  String.rev_app (s1 +:+ s2) acc = String.rev_app s2 (String.rev_app s1 acc).
Proof. revert acc. induction s1 as [|a s1 IH]; intros acc; simpl; [done|apply IH]. Qed.

Lemma endsWith_append s : endsWith (s +:+ "/api") "/api" = true.
Proof.
  unfold endsWith, String.rev. rewrite rev_app_append.
  generalize (String.rev_app s "") as t. intros t.
  destruct t; vm_compute; reflexivity.
Qed.

(** The base address always ends in "/api": it is "/api" in a browser;
    on the server it is the configured address when that ends in "/api"
    already, the configured address with "/api" appended when it does
    not, and "https://localhost:7110/api" when no address (or the empty
    one) is configured. *)
Theorem getBaseUrl_ends_with_api (st : Session) :
  endsWith (getBaseUrl st) "/api" = true
  /\ (window st = true -> getBaseUrl st = "/api")
  /\ (forall raw,
        window st = false -> NEXT_PUBLIC_API_URL st = Some raw ->
        endsWith raw "/api" = true -> getBaseUrl st = raw)
  /\ (forall raw,
        window st = false -> NEXT_PUBLIC_API_URL st = Some raw ->
        raw <> "" -> endsWith raw "/api" = false ->
        getBaseUrl st = raw +:+ "/api")
  /\ (window st = false -> truthy (NEXT_PUBLIC_API_URL st) = false ->
      getBaseUrl st = "https://localhost:7110/api").
Proof.
  unfold getBaseUrl. split; [|split; [|split; [|split]]].
  - destruct (window st); [reflexivity|].
    set (raw := if truthy (NEXT_PUBLIC_API_URL st)
                then show (NEXT_PUBLIC_API_URL st)
                else "https://localhost:7110").
    destruct (endsWith raw "/api") eqn:He; [exact He|apply endsWith_append].
  - by intros ->.
  - intros raw -> -> He. simpl.
    assert (raw <> "") as Hne by (intros ->; discriminate).
    rewrite (bool_decide_eq_false_2 _ Hne). simpl. by rewrite He.
  - intros raw -> -> Hne He. simpl.
    rewrite (bool_decide_eq_false_2 _ Hne). simpl. by rewrite He.
  - intros -> ->. reflexivity.
Qed.

Lemma getBaseUrl_ends_with_api_witness :
  getBaseUrl serverSide = "https://booking.example/api"
  /\ getBaseUrl signedIn = "/api".
Proof.
  split.
  - exact (proj1 (proj2 (proj2 (proj2 (getBaseUrl_ends_with_api serverSide))))
             "https://booking.example" eq_refl eq_refl
             ltac:(discriminate) eq_refl).
  - exact (proj1 (proj2 (getBaseUrl_ends_with_api signedIn)) eq_refl).
Defined.

(** ** [refreshAccessToken] and [authFetch] *)

Section WithRuntime.
Variable Json : Type.
Variable JSON_parse : string -> option Json.
Variable emptyObject : Json.
Variable parseTokens : string -> option (string * string).
Variable network : list Call -> Call -> FetchResult.

Lemma refreshAccessToken_calls st :
  calls (snd (refreshAccessToken parseTokens network st))
  = calls st ++ (if truthy (fst (getRefreshToken st))
                 then [renewalCall st] else []).
Proof.
  unfold refreshAccessToken, renewalCall.
  pose proof (ApiSpec.getRefreshToken_frame st) as (_ & Hw & _ & _ & He & Hc).
  destruct (getRefreshToken st) as [rt st1]. simpl in *.
  rewrite (ApiSpec.getBaseUrl_reads st st1 Hw He).
  destruct (truthy rt); simpl; [|by rewrite Hc, app_nil_r].
  destruct (network _ _) as [r|]; simpl.
  - destruct (ok r); simpl.
    + destruct (parseTokens (body r)) as [[a b]|]; simpl.
      * match goal with
        | |- context [setTokens a b ?s] =>
            pose proof (ApiSpec.setTokens_frame a b s) as (_ & _ & Hc')
        end. rewrite Hc'. simpl. by rewrite Hc.
      * match goal with
        | |- context [clearTokens ?s] =>
            pose proof (ApiSpec.clearTokens_clears s) as (_ & _ & _ & _ & Hc' & _)
        end. rewrite Hc'. simpl. by rewrite Hc.
    + match goal with
      | |- context [clearTokens ?s] =>
          pose proof (ApiSpec.clearTokens_clears s) as (_ & _ & _ & _ & Hc' & _)
      end. rewrite Hc'. simpl. by rewrite Hc.
  - match goal with
    | |- context [clearTokens ?s] =>
        pose proof (ApiSpec.clearTokens_clears s) as (_ & _ & _ & _ & Hc' & _)
    end. rewrite Hc'. simpl. by rewrite Hc.
Qed.

Lemma handleResponse_resolved response v :
  handleResponse JSON_parse emptyObject response = Resolved v ->
  ok response = true.
Proof.
  unfold handleResponse. destruct (ok response); [done|]. simpl.
  by destruct (JSON_parse (body response)).
Qed.

(** Whatever the far end answers, one call of [authFetch] makes the
    first attempt and after it at most one renewal call and at most one
    further attempt: never more than three calls, never a second
    renewal, never a third attempt. *)
Theorem authFetch_call_bound
    (u : string) (options : RequestInit) (st : Session) :
  exists later,
    calls (snd (authFetch JSON_parse emptyObject parseTokens network
                          u options st))
    = calls st ++ firstCall u options st :: later
    /\ (length later <= 2)%nat
    /\ (length (callsOf Renewal later) <= 1)%nat
    /\ (length (callsOf Original later) <= 1)%nat.
Proof.
  rewrite ApiSpec.authFetch_unfold.
  pose proof (ApiSpec.firstAttempt_state network u options st)
    as (Hres & Hc2 & _).
  destruct (firstAttempt network u options st) as [res st2].
  simpl in Hres, Hc2.
  destruct res as [r|]; [|exists []; simpl; rewrite Hc2; repeat split; lia].
  destruct (status r =? 401);
    [|exists []; simpl; rewrite Hc2; repeat split; lia].
  pose proof (refreshAccessToken_calls st2) as Hc3.
  destruct (refreshAccessToken parseTokens network st2) as [refreshed st3].
  simpl in Hc3. destruct refreshed.
  - pose proof (ApiSpec.getAccessToken_frame st3) as (_ & _ & _ & _ & _ & Hc4).
    destruct (getAccessToken st3) as [token' st4]. simpl in Hc4.
    set (c3 := mkCall Original u
                 (withHeaders
                    (retryHeaders options (fst (getAccessToken st)) token')
                    options)).
    exists ((if truthy (fst (getRefreshToken st2))
             then [renewalCall st2] else []) ++ [c3]).
    split.
    + assert (calls (snd (fetch network Original u
                (withHeaders (retryHeaders options (fst (getAccessToken st)) token')
                   options) st4))
              = calls st4 ++ [c3]) as Hc5 by reflexivity.
      destruct (fetch network Original u _ st4) as [[r'|] st5];
        simpl in *; rewrite Hc5, Hc4, Hc3, Hc2;
        by rewrite <- !app_assoc.
    + destruct (truthy (fst (getRefreshToken st2))); simpl;
        repeat split; lia.
  - exists (if truthy (fst (getRefreshToken st2))
            then [renewalCall st2] else []).
    pose proof (ApiSpec.clearTokens_clears st3) as (_ & _ & _ & _ & Hc4 & _).
    split.
    + cbv zeta. cbn [snd].
      assert (calls (if window (clearTokens st3)
                     then withHref "/login" (clearTokens st3)
                     else clearTokens st3) = calls (clearTokens st3)) as ->
        by (by destruct (window (clearTokens st3))).
      rewrite Hc4, Hc3, Hc2. by rewrite <- app_assoc.
    + destruct (truthy (fst (getRefreshToken st2))); simpl;
        repeat split; lia.
Qed.

(** A first answer whose status is not 401 is handed to
    [handleResponse] as it is: one call is made, none of them a
    renewal, and the session is left as [getAccessToken] left it, with
    its refresh token, its storage and the location of the page
    untouched. *)
Theorem authFetch_passes_other_answers
    (u : string) (options : RequestInit) (st : Session) (r : Response) :
  network (calls st) (firstCall u options st) = Responded r ->
  status r <> 401 ->
  let res := authFetch JSON_parse emptyObject parseTokens network
                       u options st in
  fst res = handleResponse JSON_parse emptyObject r
  /\ snd res = withCalls (calls st ++ [firstCall u options st])
                         (snd (getAccessToken st))
  /\ refreshToken (snd res) = refreshToken st
  /\ localStorage (snd res) = localStorage st
  /\ location_href (snd res) = location_href st.
Proof.
  intros H1 Hne res. subst res.
  pose proof (ApiSpec.getAccessToken_frame st) as (Hr & _ & Hl & Hh & _ & Hc).
  unfold authFetch, firstCall in *.
  destruct (getAccessToken st) as [token st1]. simpl in *.
  rewrite Hc, H1.
  replace (status r =? 401) with false by (symmetry; by apply Z.eqb_neq).
  repeat split; try done.
Qed.

(** [authFetch] resolves only with the answer to an attempt that had a
    2xx status: when it resolves, its last call is an attempt, not a
    renewal, and the far end answered that call with a successful
    response. A 401 that persists after renewal is rejected. *)
Theorem authFetch_resolves_only_on_success
    (u : string) (options : RequestInit) (st : Session) (v : Json) :
  let res := authFetch JSON_parse emptyObject parseTokens network
                       u options st in
  fst res = Resolved v ->
  exists earlier c r,
    calls (snd res) = earlier ++ [c]
    /\ site c = Original
    /\ network earlier c = Responded r
    /\ 200 <= status r <= 299
    /\ handleResponse JSON_parse emptyObject r = Resolved v.
Proof.
  intros res. subst res. rewrite ApiSpec.authFetch_unfold.
  pose proof (ApiSpec.firstAttempt_state network u options st)
    as (Hres & Hc2 & _).
  destruct (firstAttempt network u options st) as [res st2].
  simpl in Hres, Hc2.
  assert (Hok : forall r, handleResponse JSON_parse emptyObject r = Resolved v ->
                          200 <= status r <= 299).
  { intros r Hr. apply handleResponse_resolved in Hr. unfold ok in Hr.
    apply andb_true_iff in Hr as [H1 H2]. apply Z.leb_le in H1, H2. lia. }
  destruct res as [r|]; [|discriminate].
  destruct (status r =? 401).
  - destruct (refreshAccessToken parseTokens network st2) as [[] st3];
      [|discriminate].
    destruct (getAccessToken st3) as [token' st4].
    unfold fetch.
    destruct (network (calls st4) _) as [r'|] eqn:Hn; [|discriminate].
    simpl. intros Hv. eexists _, _, r'.
    split; [reflexivity|]. split; [reflexivity|]. split; [exact Hn|].
    split; [by apply Hok|exact Hv].
  - simpl. intros Hv. exists (calls st), (firstCall u options st), r.
    split; [exact Hc2|]. split; [reflexivity|]. split; [by symmetry|].
    split; [by apply Hok|exact Hv].
Qed.

End WithRuntime.

Lemma authFetch_passes_other_answers_witness :
  fst (authFetch parseBraced "{}" parseRenewed acceptingServer
                 "/api/bookings/user/u1" getBookings signedIn)
  = Resolved "{}".
Proof.
  refine (eq_trans (proj1 (authFetch_passes_other_answers string parseBraced
            "{}" parseRenewed acceptingServer "/api/bookings/user/u1"
            getBookings signedIn (mkResponse 200 "OK" "{}") _ _)) _).
  - vm_compute. reflexivity.
  - simpl. discriminate.
  - vm_compute. reflexivity.
Defined.

Lemma authFetch_resolves_only_on_success_witness :
  exists earlier c r,
    calls (snd (authFetch parseBraced "{}" parseRenewed renewingServer
                          "/api/bookings/user/u1" getBookings signedIn))
    = earlier ++ [c]
    /\ site c = Original
    /\ renewingServer earlier c = Responded r
    /\ 200 <= status r <= 299.
Proof.
  destruct (authFetch_resolves_only_on_success string parseBraced "{}"
              parseRenewed renewingServer "/api/bookings/user/u1"
              getBookings signedIn "{}")
    as (earlier & c & r & Hc & Hs & Hn & Hok & _).
  - vm_compute. reflexivity.
  - exists earlier, c, r. repeat split; try done; lia.
Defined.

Section Renewal.
Variable parseTokens : string -> option (string * string).
Variable network : list Call -> Call -> FetchResult.

(** [refreshAccessToken] answers true exactly when a refresh token is
    in store, the renewal call is answered with a 2xx status and the
    reply yields a pair of tokens; it then holds that pair. When a
    refresh token is in store and it answers false, both tokens have
    been cleared. When none is in store it makes no call and leaves the
    access token and the storage alone. *)
Theorem refreshAccessToken_outcome (st : Session) :
  let res := refreshAccessToken parseTokens network st in
  let rt := fst (getRefreshToken st) in
  (fst res = true
   <-> truthy rt = true
       /\ exists r a b,
            network (calls st) (renewalCall st) = Responded r
            /\ ok r = true /\ parseTokens (body r) = Some (a, b)
            /\ accessToken (snd res) = Some a
            /\ refreshToken (snd res) = Some b)
  /\ (truthy rt = true -> fst res = false ->
      accessToken (snd res) = None /\ refreshToken (snd res) = None)
  /\ (truthy rt = false ->
      fst res = false /\ calls (snd res) = calls st
      /\ accessToken (snd res) = accessToken st
      /\ localStorage (snd res) = localStorage st).
Proof.
  intros res rt. subst res rt.
  unfold refreshAccessToken, renewalCall.
  pose proof (ApiSpec.getRefreshToken_frame st)
    as (Ha & Hw & Hl & _ & He & Hc).
  destruct (getRefreshToken st) as [rt st1]. simpl in Ha, Hw, Hl, He, Hc.
  cbn [fst]. rewrite (ApiSpec.getBaseUrl_reads st st1 Hw He).
  destruct (truthy rt) eqn:Ht; cbn [negb].
  2:{ cbn [fst snd]. split; [split; [discriminate|intros [? _]; discriminate]|].
      split; [discriminate|]. intros _. by rewrite Hc, Ha, Hl. }
  unfold fetch. rewrite Hc.
  set (c := mkCall Renewal _ _).
  destruct (network (calls st) c) as [r|] eqn:Hn.
  - destruct (ok r) eqn:Hok; cbn [negb].
    + destruct (parseTokens (body r)) as [[a b]|] eqn:Hp.
      * cbn [fst snd].
        assert (accessToken (setTokens a b (withCalls (calls st ++ [c]) st1))
                = Some a
                /\ refreshToken (setTokens a b (withCalls (calls st ++ [c]) st1))
                   = Some b) as [Hsa Hsb].
        { unfold setTokens. simpl. by destruct (window st1). }
        split; [|split; [discriminate|discriminate]].
        split; [|done]. intros _. split; [done|]. by exists r, a, b.
      * cbn [fst snd].
        pose proof (ApiSpec.clearTokens_clears
                      (withCalls (calls st ++ [c]) st1)) as (Hca & Hcr & _).
        split; [|split; [done|discriminate]].
        split; [discriminate|].
        intros [_ (r' & a & b & Hr' & _ & Hp' & _)]. congruence.
    + cbn [fst snd].
      pose proof (ApiSpec.clearTokens_clears
                    (withCalls (calls st ++ [c]) st1)) as (Hca & Hcr & _).
      split; [|split; [done|discriminate]].
      split; [discriminate|].
      intros [_ (r' & a & b & Hr' & Hok' & _)]. congruence.
  - cbn [fst snd].
    pose proof (ApiSpec.clearTokens_clears
                  (withCalls (calls st ++ [c]) st1)) as (Hca & Hcr & _).
    split; [|split; [done|discriminate]].
    split; [discriminate|].
    intros [_ (r' & a & b & Hr' & _)]. congruence.
Qed.

End Renewal.

Lemma refreshAccessToken_outcome_witness :
  fst (refreshAccessToken parseRenewed renewingServer signedIn) = true
  /\ fst (refreshAccessToken parseRenewed refusingServer signedIn) = false
  /\ accessToken (snd (refreshAccessToken parseRenewed refusingServer signedIn))
     = None.
Proof.
  pose proof (refreshAccessToken_outcome parseRenewed renewingServer signedIn)
    as (Hyes & _).
  pose proof (refreshAccessToken_outcome parseRenewed refusingServer signedIn)
    as (_ & Hno & _).
  split; [|split].
  - apply Hyes. split; [reflexivity|].
    exists (mkResponse 200 "OK" "renewed"), "new-access", "new-refresh".
    repeat split; vm_compute; reflexivity.
  - vm_compute. reflexivity.
  - apply Hno; vm_compute; reflexivity.
Defined.

End ApiLaws.

(* ===================================================================== *)
(** * Further properties of invalidation *)
(* ===================================================================== *)

Module FlowLaws.
Import Hooks BookingDialog Pages Samples.

Section Cache.
Context {P : Type}.
Implicit Types (cache : Cache P) (key : Key).

Lemma keys_mutateKey key value cache :
  map fst (mutateKey key value cache)
  = map fst cache
    ++ (if bool_decide (key ∈ map fst cache) then [] else [key]).
Proof.
  induction cache as [|[k e] rest IH]; simpl; [done|].
  destruct (decide (k = key)) as [->|Hne].
  - rewrite bool_decide_eq_true_2 by done. simpl.
    rewrite (bool_decide_eq_true_2 (key ∈ key :: map fst rest)) by left.
    by rewrite app_nil_r.
  - rewrite bool_decide_eq_false_2 by done. simpl. rewrite IH.
    assert (bool_decide (key ∈ k :: map fst rest)
            = bool_decide (key ∈ map fst rest)) as ->; [|done].
    apply bool_decide_ext. rewrite elem_of_cons.
    split; [intros [Heq|Hin]; [by subst|exact Hin]|by right].
Qed.

(** Neither flow evicts or reorders anything: after a confirmed booking
    and after a cancellation the cache holds the keys it held, in the
    same order, followed by the refresh-signal key when that one was
    not yet there. A failed booking or cancellation leaves the cache as
    it was. *)
Theorem flows_keep_entries (now : Z) (r : Resource) (ui : Dialog)
    (e : Api.ApiError) (cache : Cache P) :
  let signal := if bool_decide (refreshSignalKey ∈ map fst cache)
                then [] else [refreshSignalKey] in
  map fst (snd (handleConfirm now (Some r) Created ui cache))
  = map fst cache ++ signal
  /\ map fst (snd (handleCancel now CancelDone cache)) = map fst cache ++ signal
  /\ snd (handleConfirm now (Some r) (RejectedApi e) ui cache) = cache
  /\ snd (handleConfirm now (Some r) RejectedOther ui cache) = cache
  /\ snd (handleConfirm now None Created ui cache) = cache
  /\ snd (handleCancel now (CancelRejectedApi e) cache) = cache
  /\ snd (handleCancel now CancelRejectedOther cache) = cache.
Proof.
  simpl. unfold invalidateResources, invalidateBookings.
  rewrite !keys_mutateKey, !FlowSpec.keys_mutateMatching. done.
Qed.

(** A cancellation asks one revalidation of every cached entry whose
    key opens with "user-bookings" or "available-resources" and of
    every "resources" entry, whatever its type, writes the current time
    into the refresh-signal entry, and asks no revalidation of any
    other entry; the "availability" entries are among those it leaves
    alone. *)
Theorem handleCancel_invalidates (now : Z) (cache : Cache P) (key : Key) :
  let cache' := snd (handleCancel now CancelDone cache) in
  let hit := bookingsFilter key || resourcesFilter None key in
  (hit = true -> key ∈ map fst cache ->
   revalidationsOf key cache' = S (revalidationsOf key cache)
   /\ dataOf key cache' = None)
  /\ (hit = false -> revalidationsOf key cache' = revalidationsOf key cache)
  /\ dataOf refreshSignalKey cache' = Some (Stamp now)
  /\ (forall t pageSize,
        bookingsFilter (resourcesKey t pageSize)
        || resourcesFilter None (resourcesKey t pageSize) = true)
  /\ (forall t dateStr,
        bookingsFilter (availabilityKey t dateStr)
        || resourcesFilter None (availabilityKey t dateStr) = false).
Proof.
  simpl. unfold invalidateResources, invalidateBookings.
  split; [|split; [|split; [|split]]]; try done.
  - intros Hf Hin.
    rewrite FlowSpec.revalidationsOf_mutateKey, FlowSpec.dataOf_mutateKey.
    rewrite !FlowSpec.revalidationsOf_mutateMatching,
      !FlowSpec.dataOf_mutateMatching.
    rewrite FlowSpec.keys_mutateMatching.
    rewrite (bool_decide_eq_true_2 _ Hin), !andb_true_r.
    assert (refreshSignalKey <> key) as Hsig.
    { intros <-. simpl in Hf. discriminate. }
    rewrite (bool_decide_eq_false_2 _ Hsig).
    destruct (bookingsFilter key) eqn:Hb.
    + assert (resourcesFilter None key = false) as ->; [|done].
      destruct key as [[|[s|n] parts]|s]; simpl in *; try done.
      destruct (decide (s = "resources")) as [->|Hne]; [done|].
      by rewrite (bool_decide_eq_false_2 (s = "resources")).
    + simpl in Hf. rewrite Hf. done.
  - intros Hf. apply orb_false_iff in Hf as [Hb Hr].
    rewrite FlowSpec.revalidationsOf_mutateKey.
    rewrite !FlowSpec.revalidationsOf_mutateMatching.
    by rewrite Hb, Hr.
  - rewrite FlowSpec.dataOf_mutateKey. by rewrite bool_decide_eq_true_2.
Qed.

Lemma revalidationsOf_revalidateMatching filter (cache : Cache P) key :
  revalidationsOf key (Dashboard.revalidateMatching filter cache)
  = if filter key && bool_decide (key ∈ map fst cache)
    then S (revalidationsOf key cache)
    else revalidationsOf key cache.
Proof.
  induction cache as [|[k e] rest IH]; simpl.
  - by rewrite andb_false_r.
  - destruct (decide (k = key)) as [->|Hne].
    + rewrite (bool_decide_eq_true_2 (key ∈ key :: map fst rest)) by left.
      rewrite andb_true_r.
      destruct (filter key); simpl; by rewrite bool_decide_eq_true_2.
    + assert (bool_decide (key ∈ k :: map fst rest)
              = bool_decide (key ∈ map fst rest)) as ->.
      { apply bool_decide_ext. rewrite elem_of_cons.
        split; [intros [Heq|Hin]; [by subst|exact Hin]|by right]. }
      destruct (filter k); simpl; by rewrite bool_decide_eq_false_2.
Qed.

(** After a confirmed booking the dashboard's effect on the refresh
    signal asks one revalidation of the availability entry on display,
    provided the clock has moved since the signal was last written; the
    availability entries of other dates and types are asked none. When
    the signal already held the current time the effect does not run
    and the entry on display is asked none either. *)
Theorem confirm_then_signal_effect
    (now : Z) (r : Resource) (ui : Dialog) (cache : Cache P)
    (t : ResourceType) (shown : string) :
  let cache1 := snd (handleConfirm now (Some r) Created ui cache) in
  let cache2 := refreshSignalEffect t shown cache cache1 in
  availabilityKey t shown ∈ map fst cache ->
  (signalOf cache <> Some now ->
   revalidationsOf (availabilityKey t shown) cache2
   = S (revalidationsOf (availabilityKey t shown) cache))
  /\ (signalOf cache = Some now ->
      revalidationsOf (availabilityKey t shown) cache2
      = revalidationsOf (availabilityKey t shown) cache)
  /\ (forall t' other,
        availabilityKey t' other <> availabilityKey t shown ->
        revalidationsOf (availabilityKey t' other) cache2
        = revalidationsOf (availabilityKey t' other) cache).
Proof.
  intros cache1 cache2 Hin.
  assert (Hsig1 : signalOf cache1 = Some now).
  { unfold signalOf, cache1. simpl. unfold invalidateResources.
    rewrite FlowSpec.dataOf_mutateKey. by rewrite bool_decide_eq_true_2. }
  assert (Hflow : forall t' d,
            revalidationsOf (availabilityKey t' d) cache1
            = revalidationsOf (availabilityKey t' d) cache).
  { intros t' d. unfold cache1. simpl.
    unfold invalidateResources, invalidateBookings.
    rewrite FlowSpec.revalidationsOf_mutateKey.
    by rewrite !FlowSpec.revalidationsOf_mutateMatching. }
  assert (Hin1 : availabilityKey t shown ∈ map fst cache1).
  { unfold cache1. simpl. unfold invalidateResources, invalidateBookings.
    rewrite keys_mutateKey, !FlowSpec.keys_mutateMatching.
    apply elem_of_app. by left. }
  unfold cache2, refreshSignalEffect. rewrite Hsig1.
  split; [|split].
  - intros Hmoved.
    rewrite bool_decide_eq_false_2 by congruence.
    unfold Dashboard.mutateAvailability.
    rewrite revalidationsOf_revalidateMatching.
    rewrite (bool_decide_eq_true_2 (availabilityKey t shown
                                     = availabilityKey t shown)) by done.
    rewrite (bool_decide_eq_true_2 _ Hin1). simpl. by rewrite Hflow.
  - intros Hsame. rewrite bool_decide_eq_true_2 by congruence. apply Hflow.
  - intros t' other Hother.
    destruct (bool_decide (Some now = signalOf cache)); [apply Hflow|].
    unfold Dashboard.mutateAvailability.
    rewrite revalidationsOf_revalidateMatching.
    rewrite (bool_decide_eq_false_2 _ Hother). simpl. apply Hflow.
Qed.

End Cache.

Lemma handleCancel_invalidates_witness :
  revalidationsOf (resourcesKey Desk 100)
                  (snd (handleCancel 1793700000000 CancelDone warmCache))
  = 1%nat
  /\ revalidationsOf (availabilityKey Room "2026-11-03")
                     (snd (handleCancel 1793700000000 CancelDone warmCache))
     = 0%nat.
Proof.
  destruct (handleCancel_invalidates 1793700000000 warmCache
              (resourcesKey Desk 100)) as (Hyes & _).
  destruct (handleCancel_invalidates 1793700000000 warmCache
              (availabilityKey Room "2026-11-03")) as (_ & Hno & _).
  split.
  - destruct Hyes as [Hyes _];
      [reflexivity|vm_compute; right; right; left|exact Hyes].
  - exact (Hno eq_refl).
Defined.

Lemma confirm_then_signal_effect_witness :
  revalidationsOf (availabilityKey Room "2026-11-03")
    (refreshSignalEffect Room "2026-11-03" warmCache
       (snd (handleConfirm 1793700000000 (Some roomA) Created openDialog
                           warmCache)))
  = 1%nat.
Proof.
  refine (proj1 (confirm_then_signal_effect 1793700000000 roomA openDialog
                   warmCache Room "2026-11-03" _) _).
  - vm_compute. right; right; right; left.
  - vm_compute. discriminate.
Defined.

End FlowLaws.

(* ===================================================================== *)
(** * Properties of the bookings page, the card and the labels *)
(* ===================================================================== *)

Module PageLaws.
Import JsDate SlotGrid Pages Samples MoreSamples.

(** A booking whose status is Active or Cancelled and whose end parses
    is shown under exactly one of the tabs Active, Cancelled and Past.
    An Active booking whose end does not parse is shown under none of
    the three. The tab All shows every booking. *)
Theorem booking_tabs_partition
    (Date_parse : string -> TimeValue) (now : Z) (b : Booking) :
  let count := fun f : FilterStatus =>
                 if keepsBooking Date_parse now f b then 1 else 0 in
  (bstatus b = "Active" \/ bstatus b = "Cancelled" ->
   is_Some (Date_parse (endUtc b)) ->
   count FilterActive + count FilterCancelled + count FilterPast = 1)
  /\ (bstatus b = "Active" -> Date_parse (endUtc b) = None ->
      count FilterActive + count FilterCancelled + count FilterPast = 0)
  /\ keepsBooking Date_parse now FilterAll b = true.
Proof.
  simpl. split; [|split; [|reflexivity]].
  - intros Hst [e He]. rewrite He. simpl.
    destruct Hst as [-> | ->]; simpl.
    + destruct (Z.leb_spec now e), (Z.ltb_spec e now); lia.
    + reflexivity.
  - intros -> ->. reflexivity.
Qed.

Lemma booking_tabs_partition_witness :
  filteredBookings Date_parse_iso at1000 FilterActive
                   [upcoming; finished; withdrawn] = [upcoming]
  /\ (if keepsBooking Date_parse_iso at1000 FilterActive finished then 1 else 0)
     + (if keepsBooking Date_parse_iso at1000 FilterCancelled finished
        then 1 else 0)
     + (if keepsBooking Date_parse_iso at1000 FilterPast finished then 1 else 0)
     = 1.
Proof.
  split; [reflexivity|].
  refine (proj1 (booking_tabs_partition Date_parse_iso at1000 finished) _ _).
  - by left.
  - eexists. vm_compute. reflexivity.
Defined.

(** The card offers cancellation for exactly the bookings the Active
    tab shows, and besides for an Active booking whose end does not
    parse, which no tab but All shows. *)
Theorem canCancel_and_active_tab
    (Date_parse : string -> TimeValue) (now : Z) (b : Booking) :
  canCancel Date_parse now b
  = keepsBooking Date_parse now FilterActive b
    || (bool_decide (bstatus b = "Active")
        && bool_decide (Date_parse (endUtc b) = None)).
Proof.
  unfold canCancel, keepsBooking.
  destruct (bool_decide (bstatus b = "Active")); simpl; [|reflexivity].
  destruct (Date_parse (endUtc b)) as [e|]; simpl; [|reflexivity].
  rewrite orb_false_r.
  destruct (Z.leb_spec now e), (Z.ltb_spec e now); (reflexivity || lia).
Qed.

Lemma hour_labels_table :
  forallb (fun h =>
    forallb (fun h' =>
      implb (String.eqb (formatHour h) (formatHour h')
             || String.eqb (formatHourDialog h) (formatHourDialog h'))
            (h =? h'))
      (seqZ 0 24)) (seqZ 0 24) = true.
Proof. vm_compute. reflexivity. Qed.

(** Over the hours of a day, 0 to 23, both [formatHour] functions give
    different labels to different hours. *)
Theorem formatHour_distinct (h h' : Z) :
  0 <= h <= 23 -> 0 <= h' <= 23 ->
  formatHour h = formatHour h' \/ formatHourDialog h = formatHourDialog h' ->
  h = h'.
Proof.
  intros Hh Hh' Heq. pose proof hour_labels_table as Ht.
  rewrite forallb_forall in Ht.
  assert (In h (seqZ 0 24)) as Hin
    by (apply list_elem_of_In, elem_of_seqZ; lia).
  specialize (Ht h Hin). rewrite forallb_forall in Ht.
  assert (In h' (seqZ 0 24)) as Hin'
    by (apply list_elem_of_In, elem_of_seqZ; lia).
  specialize (Ht h' Hin').
  assert (String.eqb (formatHour h) (formatHour h')
          || String.eqb (formatHourDialog h) (formatHourDialog h') = true)
    as Hany.
  { apply orb_true_iff. destruct Heq as [-> | ->];
      [left|right]; apply String.eqb_refl. }
  rewrite Hany in Ht. simpl in Ht. by apply Z.eqb_eq.
Qed.

Lemma formatHour_distinct_witness :
  formatHour 7 = "7 AM" /\ formatHour 19 = "7 PM"
  /\ formatHourDialog 19 = "7:00 PM" /\ 19 = 12 + 7.
Proof.
  split; [reflexivity|]. split; [reflexivity|]. split; [reflexivity|].
  apply (formatHour_distinct 19 (12 + 7)); [lia|lia|by left].
Defined.

(** Two days the date picker can hold have the same [dateStr] only when
    they are the same calendar day: the availability entries of
    different days never share a cache key. *)
Theorem dateStr_distinct (t : Hooks.ResourceType) (d d' : Date) :
  plainDay d -> plainDay d' ->
  Hooks.availabilityKey t (dateStr d) = Hooks.availabilityKey t (dateStr d') ->
  getFullYear d = getFullYear d' /\ getMonth d = getMonth d'
  /\ getDate d = getDate d'.
Proof.
  intros (Hy & Hm & Hd) (Hy' & Hm' & Hd') Hkey.
  pose proof (DialogLaws.DaysInMonth_bounds (getFullYear d) (getMonth d)).
  pose proof (DialogLaws.DaysInMonth_bounds (getFullYear d') (getMonth d')).
  injection Hkey as Hstr. unfold dateStr in Hstr.
  destruct (DialogLaws.year4_shape _ Hy) as (y1 & y2 & y3 & y4 & Hys & Hyn).
  destruct (DialogLaws.year4_shape _ Hy') as (z1 & z2 & z3 & z4 & Hzs & Hzn).
  destruct (DialogLaws.pad2_shape (getMonth d + 1)) as (m1 & m2 & Hms & Hmn);
    [lia|].
  destruct (DialogLaws.pad2_shape (getMonth d' + 1)) as (n1 & n2 & Hns & Hnn);
    [lia|].
  destruct (DialogLaws.pad2_shape (getDate d)) as (a1 & a2 & Has & Han); [lia|].
  destruct (DialogLaws.pad2_shape (getDate d')) as (b1 & b2 & Hbs & Hbn); [lia|].
  rewrite Hys, Hzs, Hms, Hns, Has, Hbs in Hstr. simpl in Hstr.
  injection Hstr as -> -> -> -> -> -> -> ->.
  rewrite Hyn in Hzn. rewrite Hmn in Hnn. rewrite Han in Hbn.
  injection Hzn as ->. injection Hnn as Hmm. injection Hbn as ->.
  repeat split; lia.
Qed.

Lemma dateStr_distinct_witness :
  dateStr nov3 = "2026-11-03"
  /\ getDate nov3 = getDate (mkDate 2026 10 3 9 30 0 0).
Proof.
  split; [reflexivity|].
  refine (proj2 (proj2 (dateStr_distinct Hooks.Room nov3
                          (mkDate 2026 10 3 9 30 0 0)
                          DialogLaws.nov3_plainDay _ eq_refl))).
  vm_compute. repeat split; discriminate.
Defined.

(** A click on the grid opens the booking dialog only on a slot that
    has not ended, on a bookable date, that no listed booking of the
    user owns and whose key the lookup set holds, and only while
    availability is not loading; the dialog then shows the clicked hour
    and a listed resource with the clicked id. *)
Theorem dialog_opens_only_on_free_slots
    (Date_parse : string -> TimeValue) (now : Z) (hour : Z)
    (selectedDate : Date) (userBookings : list Booking)
    (availableSet : gset string) (isBookable isLoading : bool)
    (resources : list BookingDialog.Resource)
    (resource shown : BookingDialog.Resource) (shownHour : Z) :
  clickSlot (getSlotStatus Date_parse now (BookingDialog.id resource) hour
                           selectedDate userBookings availableSet isBookable)
            isLoading resources resource hour
  = Some (shown, shownHour) ->
  shownHour = hour
  /\ shown ∈ resources
  /\ BookingDialog.id shown = BookingDialog.id resource
  /\ isLoading = false
  /\ isBookable = true
  /\ num_le (slotEnd selectedDate hour) (Some now) = false
  /\ (forall b, b ∈ userBookings ->
        ownsSlot Date_parse (BookingDialog.id resource)
                 (slotStart selectedDate hour) (slotEnd selectedDate hour) b
        = false)
  /\ slotKey (BookingDialog.id resource) hour ∈ availableSet.
Proof.
  unfold clickSlot, isClickable, handleSlotClick, getSlotStatus.
  destruct (num_le (slotEnd selectedDate hour) (Some now)); simpl;
    [discriminate|].
  destruct isBookable; simpl; [|discriminate].
  destruct (findOwn Date_parse (BookingDialog.id resource)
              (slotStart selectedDate hour) (slotEnd selectedDate hour)
              userBookings) eqn:Hf; simpl; [discriminate|].
  destruct (decide (slotKey (BookingDialog.id resource) hour ∈ availableSet))
    as [Hk|Hk].
  2:{ rewrite (bool_decide_eq_false_2 _ Hk). simpl. discriminate. }
  rewrite (bool_decide_eq_true_2 _ Hk). simpl.
  destruct isLoading; simpl; [discriminate|].
  destruct (List.find _ resources) as [r|] eqn:Hfind; [|discriminate].
  intros [= <- <-]. apply find_some in Hfind as [Hin Hid].
  apply bool_decide_eq_true_1 in Hid.
  split; [done|]. split; [by apply list_elem_of_In|].
  split; [done|]. split; [done|]. split; [done|]. split; [done|].
  split; [|done]. by apply SlotGridLaws.findOwn_None_all.
Qed.

Lemma dialog_opens_only_on_free_slots_witness :
  clickSlot (getSlotStatus Date_parse_iso at0800 "r1" 11 nov3 [booking10]
                           freeSet true)
            false [roomA] roomA 11
  = Some (roomA, 11)
  /\ slotKey "r1" 11 ∈ freeSet.
Proof.
  assert (clickSlot (getSlotStatus Date_parse_iso at0800
                       (BookingDialog.id roomA) 11 nov3 [booking10]
                       freeSet true)
                    false [roomA] roomA 11 = Some (roomA, 11)) as Hclick
    by (vm_compute; reflexivity).
  split; [exact Hclick|].
  exact (proj2 (proj2 (proj2 (proj2 (proj2 (proj2 (proj2
           (dialog_opens_only_on_free_slots Date_parse_iso at0800 11 nov3
              [booking10] freeSet true false [roomA] roomA roomA 11
              Hclick)))))))).
Defined.

End PageLaws.
